(** * AmazonQ gateway: a shallow embedding of the protocol core

    The development follows the layout of the Python sources:

    - [Py]          the few Python primitives the code relies on (truthiness,
                    slices, [str] methods, [dict] access, JSON values);
    - [Parser]      [src/amazonq/parser.py]: the binary event-stream decoder
                    and the SSE builders;
    - [Streaming]   [src/amazonq/streaming.py]: [ClaudeStreamHandler];
    - [Server]      [src/api/server.py]: the non-streaming aggregation loop of
                    [claude_messages];
    - [Middleware]  [src/api/middleware.py]: bearer parsing and the token cache;
    - [Converter]   [src/core/converter.py]: the request converter.

    The properties follow, one module per source module ([ParserFacts],
    [StreamingFacts], [ServerFacts], [MiddlewareFacts], [ConverterFacts]).

    Conventions.  A Python [str] is a [string] (one [ascii] per character), a
    [bytes] value is a [list byte], a Python [int] is a [Z].  A Python
    exception is an explicit result ([None], [Raise]); state held in object
    fields is a record passed in and returned.  Library calls whose code is not
    part of the repository ([json.dumps], [json.loads], [bytes.decode],
    [hashlib.sha256], the OIDC endpoint, the clock, [uuid4]) are section
    variables. *)

From Stdlib Require Import ZArith List String Ascii Bool Lia.
From Stdlib.Strings Require Import Byte.
From stdpp Require Import base list strings gmap.
Import ListNotations.
Open Scope string_scope.
Open Scope list_scope.
Set Warnings "-register-all".

(* ===================================================================== *)
(** * Python primitives *)
(* ===================================================================== *)

Module Py.

(** JSON values as [json.loads] builds them; numbers are integers (no claim
    of this development depends on floats).  A [dict] keeps insertion order
    and has unique keys. *)
Inductive json : Type :=
| JNull
| JBool (b : bool)
| JInt (n : Z)
| JStr (s : string)
| JArr (xs : list json)
| JObj (kvs : list (string * json)).

(** [dict]: an association list with unique keys, in insertion order. *)
Definition dict (V : Type) : Type := list (string * V).

Fixpoint dict_get {V} (d : dict V) (k : string) : option V :=
  match d with
  | [] => None
  | (k', v) :: r => if String.eqb k' k then Some v else dict_get r k
  end.

(** [d.get(k, default)] *)
Definition get_or {V} (d : dict V) (k : string) (default : V) : V :=
  match dict_get d k with Some v => v | None => default end.

(** [k in d] *)
Definition dict_has {V} (d : dict V) (k : string) : bool :=
  match dict_get d k with Some _ => true | None => false end.

(** [d[k] = v]: overwrite in place, or append a new key. *)
Fixpoint dict_set {V} (d : dict V) (k : string) (v : V) : dict V :=
  match d with
  | [] => [(k, v)]
  | (k', v') :: r =>
      if String.eqb k' k then (k, v) :: r else (k', v') :: dict_set r k v
  end.

(** [del d[k]] for a key that is present. *)
Fixpoint dict_del {V} (d : dict V) (k : string) : dict V :=
  match d with
  | [] => []
  | (k', v') :: r => if String.eqb k' k then r else (k', v') :: dict_del r k
  end.

(** Truthiness of a JSON value ([if x:]). *)
Definition truthy (j : json) : bool :=
  match j with
  | JNull => false
  | JBool b => b
  | JInt n => negb (Z.eqb n 0)
  | JStr s => negb (String.eqb s "")
  | JArr xs => match xs with [] => false | _ => true end
  | JObj kvs => match kvs with [] => false | _ => true end
  end.

(** [x == "literal"] for a JSON value [x]. *)
Definition is_str (j : json) (s : string) : bool :=
  match j with JStr t => String.eqb t s | _ => false end.

(** [d.get(k)] with Python's [None] for a missing key. *)
Definition jget (d : dict json) (k : string) : json := get_or d k JNull.

(** Values a [set] or a [dict] key accepts: lists and dicts are unhashable. *)
Definition hashable (j : json) : bool :=
  match j with JArr _ | JObj _ => false | _ => true end.

Definition bool_to_Z (b : bool) : Z := if b then 1%Z else 0%Z.

(** Python's [==] on JSON values: [True == 1], dicts compare regardless of
    key order. *)
Fixpoint py_eq (a b : json) {struct a} : bool :=
  match a, b with
  | JNull, JNull => true
  | JBool x, JBool y => Bool.eqb x y
  | JBool x, JInt n => Z.eqb (bool_to_Z x) n
  | JInt n, JBool y => Z.eqb n (bool_to_Z y)
  | JInt n, JInt m => Z.eqb n m
  | JStr s, JStr t => String.eqb s t
  | JArr xs, JArr ys =>
      (fix go (xs ys : list json) {struct xs} : bool :=
         match xs, ys with
         | [], [] => true
         | x :: xs', y :: ys' => py_eq x y && go xs' ys'
         | _, _ => false
         end) xs ys
  | JObj kvs, JObj kvs' =>
      Nat.eqb (length kvs) (length kvs') &&
      (fix go (l : list (string * json)) {struct l} : bool :=
         match l with
         | [] => true
         | (k, v) :: r =>
             match dict_get kvs' k with
             | Some v' => py_eq v v'
             | None => false
             end && go r
         end) kvs
  | _, _ => false
  end.

(** ** Sequences *)

(** [l[a:b]] with Python's treatment of negative and out-of-range bounds. *)
Definition clamp_index (len i : Z) : Z :=
  let i' := if (i <? 0)%Z then (i + len)%Z else i in
  Z.max 0 (Z.min len i').

Definition py_slice {A} (l : list A) (a b : Z) : list A :=
  let len := Z.of_nat (length l) in
  let a' := clamp_index len a in
  let b' := clamp_index len b in
  firstn (Z.to_nat (b' - a')) (skipn (Z.to_nat a') l).

(** [l[i]]: [None] stands for [IndexError]. *)
Definition py_index {A} (l : list A) (i : Z) : option A :=
  let len := Z.of_nat (length l) in
  if ((0 <=? i)%Z && (i <? len)%Z)%bool then l !! Z.to_nat i
  else if ((- len <=? i)%Z && (i <? 0)%Z)%bool then l !! Z.to_nat (len + i)
  else None.

(** [l[i] = x] for an index that [py_index] accepts. *)
Definition py_setitem {A} (l : list A) (i : Z) (x : A) : option (list A) :=
  let len := Z.of_nat (length l) in
  if ((0 <=? i)%Z && (i <? len)%Z)%bool then Some (<[Z.to_nat i := x]> l)
  else if ((- len <=? i)%Z && (i <? 0)%Z)%bool then Some (<[Z.to_nat (len + i) := x]> l)
  else None.

(** ** Strings *)

Definition NL : string := String (ascii_of_nat 10) EmptyString.

(** [sep.join(parts)] *)
Fixpoint join (sep : string) (parts : list string) : string :=
  match parts with
  | [] => ""
  | [p] => p
  | p :: ps => p +:+ sep +:+ join sep ps
  end.

(** [s.split(c)] for a one-character separator [c]: every occurrence cuts;
    the result is never empty. *)
Fixpoint split (c : ascii) (s : string) : list string :=
  match s with
  | EmptyString => [""]
  | String a s' =>
      if Ascii.eqb a c then "" :: split c s'
      else match split c s' with
           | [] => [String a ""]
           | p :: ps => String a p :: ps
           end
  end.

(** [s[n:]] and [s[:n]] for [n >= 0]. *)
Fixpoint str_drop (n : nat) (s : string) : string :=
  match n, s with
  | O, _ => s
  | S _, EmptyString => EmptyString
  | S n', String _ s' => str_drop n' s'
  end.

Fixpoint str_take (n : nat) (s : string) : string :=
  match n, s with
  | O, _ => EmptyString
  | S _, EmptyString => EmptyString
  | S n', String a s' => String a (str_take n' s')
  end.

(** [c in s] for a character [c]. *)
Fixpoint contains_char (c : ascii) (s : string) : bool :=
  match s with
  | EmptyString => false
  | String a s' => Ascii.eqb a c || contains_char c s'
  end.

(** [str.lower] on the ASCII letters; every other character is kept.  (The
    only use is the prefix test of [map_model_name]: no character outside
    ASCII is lowered by Python to a letter of the two prefixes tested
    there.) *)
Definition lower_ascii (a : ascii) : ascii :=
  let n := nat_of_ascii a in
  if (Nat.leb 65 n && Nat.leb n 90)%bool then ascii_of_nat (n + 32) else a.

Fixpoint lower (s : string) : string :=
  match s with
  | EmptyString => EmptyString
  | String a s' => String (lower_ascii a) (lower s')
  end.

(** [str.strip]: the ASCII characters [str.isspace] accepts. *)
Definition is_space (a : ascii) : bool :=
  let n := nat_of_ascii a in
  ((Nat.leb 9 n && Nat.leb n 13) || (Nat.leb 28 n && Nat.leb n 32))%bool.

Fixpoint lstrip (s : string) : string :=
  match s with
  | EmptyString => EmptyString
  | String a s' => if is_space a then lstrip s' else s
  end.

Fixpoint rstrip (s : string) : string :=
  match s with
  | EmptyString => EmptyString
  | String a s' =>
      match rstrip s' with
      | EmptyString => if is_space a then EmptyString else String a EmptyString
      | r => String a r
      end
  end.

Definition strip (s : string) : string := rstrip (lstrip s).

(** The parts of [sep.join(parts)] when all of them are [str]; [None]
    stands for the [TypeError] of any other item. *)
Fixpoint all_str (parts : list json) : option (list string) :=
  match parts with
  | [] => Some []
  | JStr s :: r => option_map (cons s) (all_str r)
  | _ :: _ => None
  end.

(** [sep.join(parts)] for JSON items. *)
Definition join_json (sep : string) (parts : list json) : option string :=
  option_map (join sep) (all_str parts).

(** The characters of a [str], each as a [str]. *)
Fixpoint chars (s : string) : list json :=
  match s with
  | EmptyString => []
  | String a s' => JStr (String a EmptyString) :: chars s'
  end.

(** The items a [for] loop or [list.extend] takes from a JSON value; [None]
    stands for the [TypeError] of a value that is not iterable. *)
Definition iter_items (j : json) : option (list json) :=
  match j with
  | JArr xs => Some xs
  | JStr s => Some (chars s)
  | JObj kvs => Some (map (fun kv => JStr (fst kv)) kvs)
  | _ => None
  end.

End Py.

(* ===================================================================== *)
(** * src/amazonq/parser.py *)
(* ===================================================================== *)

Module Parser.
Import Py.

(** What a computation of the decoder can end in: a value, an exception, or
    (for the loops, which are run on fuel) no answer yet. *)
Inductive outcome (A : Type) : Type :=
| Ok (a : A)
| Raise
| OutOfFuel.
Arguments Ok {A} a.
Arguments Raise {A}.
Arguments OutOfFuel {A}.

(** A header value is a decoded string (value type 7) or the raw bytes. *)
Inductive header_value : Type :=
| HStr (s : string)
| HBytes (b : list byte).

(** The payload of a message: [None], the parsed JSON, or the raw bytes. *)
Inductive payload_value : Type :=
| PNone
| PJson (j : json)
| PBytes (b : list byte).

(** The dict [parse_message] returns. *)
Record message : Type := {
  headers : dict header_value;
  payload : payload_value;
  total_length : Z
}.

Definition byte_Z (b : byte) : Z := Z.of_N (Byte.to_N b).

(** [struct.unpack('>I', bs)[0]] and [struct.unpack('>H', bs)[0]]: the
    big-endian value of the bytes.  Every call site passes a slice of the
    right size (4 or 2 bytes), so [struct.error] is never raised. *)
Definition unpack_be (bs : list byte) : Z :=
  fold_left (fun acc b => (acc * 256 + byte_Z b)%Z) bs 0%Z.

(** [len(data)] *)
Definition len {A} (l : list A) : Z := Z.of_nat (length l).

(** [data[i]] for an index in range. *)
Definition byte_at (data : list byte) (i : Z) : Z :=
  byte_Z (nth (Z.to_nat i) data x00).

Section Decoder.

(** [bytes.decode('utf-8')]: [None] stands for [UnicodeDecodeError]. *)
Variable decode_utf8 : list byte -> option string.
(** [json.loads]: [None] stands for [json.JSONDecodeError]. *)
Variable json_loads : string -> option json.

(** The [while] loop of [parse_headers]; [offset] and [headers] are its
    variables. *)
Fixpoint parse_headers_loop (fuel : nat) (headers_data : list byte)
    (offset : Z) (headers : dict header_value) : outcome (dict header_value) :=
  match fuel with
  | O => OutOfFuel
  | S fuel' =>
      if negb (offset <? len headers_data)%Z then Ok headers else
      let name_length := byte_at headers_data offset in
      let offset := (offset + 1)%Z in
      if (len headers_data <? offset + name_length)%Z then Ok headers else
      match decode_utf8 (py_slice headers_data offset (offset + name_length)) with
      | None => Raise
      | Some name =>
          let offset := (offset + name_length)%Z in
          if (len headers_data <=? offset)%Z then Ok headers else
          let value_type := byte_at headers_data offset in
          let offset := (offset + 1)%Z in
          if (len headers_data <? offset + 2)%Z then Ok headers else
          let value_length := unpack_be (py_slice headers_data offset (offset + 2)) in
          let offset := (offset + 2)%Z in
          if (len headers_data <? offset + value_length)%Z then Ok headers else
          let raw := py_slice headers_data offset (offset + value_length) in
          let value :=
            if (value_type =? 7)%Z then option_map HStr (decode_utf8 raw)
            else Some (HBytes raw) in
          match value with
          | None => Raise
          | Some v =>
              parse_headers_loop fuel' headers_data (offset + value_length)%Z
                (dict_set headers name v)
          end
      end
  end.

(** Every iteration moves [offset] forward by at least four bytes, so the
    length of the data bounds the number of iterations
    (see [parse_headers_terminates]). *)
Definition parse_headers (headers_data : list byte) : outcome (dict header_value) :=
  parse_headers_loop (S (length headers_data)) headers_data 0%Z [].

(** [parse_message]: [None] is the [return None] of the source, which also
    covers the exceptions the outer [except Exception] catches. *)
Definition parse_message (data : list byte) : option message :=
  if (len data <? 16)%Z then None else
  let total_length := unpack_be (py_slice data 0 4) in
  let headers_length := unpack_be (py_slice data 4 8) in
  if (len data <? total_length)%Z then None else
  let headers_data := py_slice data 12 (12 + headers_length) in
  match parse_headers headers_data with
  | Ok hs =>
      let payload_start := (12 + headers_length)%Z in
      let payload_end := (total_length - 4)%Z in
      let payload_data := py_slice data payload_start payload_end in
      let payload :=
        match payload_data with
        | [] => PNone
        | _ =>
            match decode_utf8 payload_data with
            | None => PBytes payload_data
            | Some text =>
                match json_loads text with
                | Some j => PJson j
                | None => PBytes payload_data
                end
            end
        end in
      Some {| headers := hs; payload := payload; total_length := total_length |}
  | Raise | OutOfFuel => None
  end.

(** The inner [while len(buffer) >= 12] loop of [parse_stream], run on one
    buffer: the messages it yields and the bytes it leaves in [buffer].  The
    loop does not end when a frame announces a total length of 0 (the buffer
    is then left as it is): the model runs on fuel and answers [None] when
    the fuel is used up. *)
Fixpoint drain (fuel : nat) (buffer : list byte) : option (list message * list byte) :=
  match fuel with
  | O => None
  | S fuel' =>
      if (len buffer <? 12)%Z then Some ([], buffer) else
      let total_length := unpack_be (py_slice buffer 0 4) in
      if (len buffer <? total_length)%Z then Some ([], buffer) else
      let message_data := py_slice buffer 0 total_length in
      let buffer' := py_slice buffer total_length (len buffer) in
      match drain fuel' buffer' with
      | None => None
      | Some (ms, rest) =>
          Some (match parse_message message_data with
                | Some m => m :: ms
                | None => ms
                end, rest)
      end
  end.

(** [parse_stream]: the [async for chunk] loop, from a given [buffer]; the
    result is the sequence of yielded messages. *)
Fixpoint parse_stream_from (fuel : nat) (buffer : list byte)
    (byte_stream : list (list byte)) : option (list message) :=
  match byte_stream with
  | [] => Some []
  | chunk :: chunks =>
      match drain fuel (buffer ++ chunk) with
      | None => None
      | Some (ms, rest) =>
          match parse_stream_from fuel rest chunks with
          | None => None
          | Some ms' => Some (ms ++ ms')
          end
      end
  end.

Definition parse_stream (fuel : nat) (byte_stream : list (list byte)) : option (list message) :=
  parse_stream_from fuel [] byte_stream.

End Decoder.

(** ** SSE builders

    [_sse_format(event_type, data)] renders one SSE event as the text
    [event: <event_type>\ndata: <json.dumps(data)>\n\n].  The builders
    are kept structured here (the event name and the JSON data of each
    rendered event); [render] gives the text. *)
Record sse_event : Type := {
  sse_name : string;
  sse_data : json
}.

(** One yielded [str]: the events it renders, in order
    ([build_message_stop] returns two events in one string). *)
Definition sse : Type := list sse_event.

Definition _sse_format (event_type : string) (data : json) : sse :=
  [{| sse_name := event_type; sse_data := data |}].

Definition render_event (json_dumps : json -> string) (e : sse_event) : string :=
  "event: " +:+ sse_name e +:+ NL +:+ "data: " +:+ json_dumps (sse_data e) +:+ NL +:+ NL.

Definition render (json_dumps : json -> string) (s : sse) : string :=
  join "" (map (render_event json_dumps) s).

Definition build_message_start (conversation_id : json) (model : string) (input_tokens : Z) : sse :=
  _sse_format "message_start"
    (JObj [("type", JStr "message_start");
           ("message", JObj [("id", conversation_id);
                             ("type", JStr "message");
                             ("role", JStr "assistant");
                             ("content", JArr []);
                             ("model", JStr model);
                             ("stop_reason", JNull);
                             ("stop_sequence", JNull);
                             ("usage", JObj [("input_tokens", JInt input_tokens);
                                             ("output_tokens", JInt 0)])])]).

Definition build_content_block_start (index : Z) (block_type : string) : sse :=
  _sse_format "content_block_start"
    (JObj [("type", JStr "content_block_start");
           ("index", JInt index);
           ("content_block",
             if String.eqb block_type "text"
             then JObj [("type", JStr block_type); ("text", JStr "")]
             else JObj [("type", JStr block_type)])]).

Definition build_content_block_delta (index : Z) (text : json) : sse :=
  _sse_format "content_block_delta"
    (JObj [("type", JStr "content_block_delta");
           ("index", JInt index);
           ("delta", JObj [("type", JStr "text_delta"); ("text", text)])]).

Definition build_content_block_stop (index : Z) : sse :=
  _sse_format "content_block_stop"
    (JObj [("type", JStr "content_block_stop"); ("index", JInt index)]).

Definition build_ping : sse :=
  _sse_format "ping" (JObj [("type", JStr "ping")]).

Definition build_message_stop (input_tokens output_tokens : Z) (stop_reason : string) : sse :=
  _sse_format "message_delta"
    (JObj [("type", JStr "message_delta");
           ("delta", JObj [("stop_reason",
                             JStr (if String.eqb stop_reason "" then "end_turn" else stop_reason));
                           ("stop_sequence", JNull)]);
           ("usage", JObj [("output_tokens", JInt output_tokens)])])
  ++ _sse_format "message_stop" (JObj [("type", JStr "message_stop")]).

Definition build_tool_use_start (index : Z) (tool_use_id tool_name : json) : sse :=
  _sse_format "content_block_start"
    (JObj [("type", JStr "content_block_start");
           ("index", JInt index);
           ("content_block", JObj [("type", JStr "tool_use");
                                   ("id", tool_use_id);
                                   ("name", tool_name);
                                   ("input", JObj [])])]).

Definition build_tool_use_input_delta (index : Z) (input_json_delta : string) : sse :=
  _sse_format "content_block_delta"
    (JObj [("type", JStr "content_block_delta");
           ("index", JInt index);
           ("delta", JObj [("type", JStr "input_json_delta");
                           ("partial_json", JStr input_json_delta)])]).

(** ** [extract_event_info] *)

(** Truthiness of a header value ([str] or [bytes]): not empty. *)
Definition header_truthy (v : header_value) : bool :=
  match v with
  | HStr s => negb (String.eqb s "")
  | HBytes b => match b with [] => false | _ => true end
  end.

(** [headers.get(a) or headers.get(b)]; [None] is Python's [None]. *)
Definition get_either (hs : dict header_value) (a b : string) : option header_value :=
  match dict_get hs a with
  | Some v => if header_truthy v then Some v else dict_get hs b
  | None => dict_get hs b
  end.

(** The dict [extract_event_info] returns. *)
Record event_info : Type := {
  event_type : option header_value;
  content_type : option header_value;
  message_type : option header_value;
  info_payload : payload_value
}.

Definition extract_event_info (m : message) : event_info :=
  {| event_type := get_either (headers m) ":event-type" "event-type";
     content_type := get_either (headers m) ":content-type" "content-type";
     message_type := get_either (headers m) ":message-type" "message-type";
     info_payload := payload m |}.

End Parser.

(* ===================================================================== *)
(** * src/amazonq/streaming.py *)
(* ===================================================================== *)

Module Streaming.
Import Py Parser.

(** The fields of a [ClaudeStreamHandler].  [None] in an [Optional] field of
    JSON type is [JNull]; [current_tool_use] is [None] or the two-key dict
    the handler stores; [_processed_tool_use_ids] lists the members of the
    set in the order they were added. *)
Record ClaudeStreamHandler : Type := {
  model : string;
  input_tokens : Z;
  response_buffer : list json;
  content_block_index : Z;
  content_block_started : bool;
  content_block_start_sent : bool;
  content_block_stop_sent : bool;
  message_start_sent : bool;
  conversation_id : json;
  current_tool_use : option (dict json);
  tool_input_buffer : list string;
  tool_use_id : json;
  tool_name : json;
  _processed_tool_use_ids : list json;
  all_tool_inputs : list string
}.

(** [ClaudeStreamHandler(model, input_tokens)] *)
Definition init (model : string) (input_tokens : Z) : ClaudeStreamHandler :=
  {| model := model;
     input_tokens := input_tokens;
     response_buffer := [];
     content_block_index := (-1)%Z;
     content_block_started := false;
     content_block_start_sent := false;
     content_block_stop_sent := false;
     message_start_sent := false;
     conversation_id := JNull;
     current_tool_use := None;
     tool_input_buffer := [];
     tool_use_id := JNull;
     tool_name := JNull;
     _processed_tool_use_ids := [];
     all_tool_inputs := [] |}.

(** Assignments to one field. *)
Definition set_response_buffer (v : list json) (h : ClaudeStreamHandler) : ClaudeStreamHandler :=
  {| model := model h;
     input_tokens := input_tokens h;
     response_buffer := v;
     content_block_index := content_block_index h;
     content_block_started := content_block_started h;
     content_block_start_sent := content_block_start_sent h;
     content_block_stop_sent := content_block_stop_sent h;
     message_start_sent := message_start_sent h;
     conversation_id := conversation_id h;
     current_tool_use := current_tool_use h;
     tool_input_buffer := tool_input_buffer h;
     tool_use_id := tool_use_id h;
     tool_name := tool_name h;
     _processed_tool_use_ids := _processed_tool_use_ids h;
     all_tool_inputs := all_tool_inputs h |}.

Definition set_content_block_index (v : Z) (h : ClaudeStreamHandler) : ClaudeStreamHandler :=
  {| model := model h;
     input_tokens := input_tokens h;
     response_buffer := response_buffer h;
     content_block_index := v;
     content_block_started := content_block_started h;
     content_block_start_sent := content_block_start_sent h;
     content_block_stop_sent := content_block_stop_sent h;
     message_start_sent := message_start_sent h;
     conversation_id := conversation_id h;
     current_tool_use := current_tool_use h;
     tool_input_buffer := tool_input_buffer h;
     tool_use_id := tool_use_id h;
     tool_name := tool_name h;
     _processed_tool_use_ids := _processed_tool_use_ids h;
     all_tool_inputs := all_tool_inputs h |}.

Definition set_content_block_started (v : bool) (h : ClaudeStreamHandler) : ClaudeStreamHandler :=
  {| model := model h;
     input_tokens := input_tokens h;
     response_buffer := response_buffer h;
     content_block_index := content_block_index h;
     content_block_started := v;
     content_block_start_sent := content_block_start_sent h;
     content_block_stop_sent := content_block_stop_sent h;
     message_start_sent := message_start_sent h;
     conversation_id := conversation_id h;
     current_tool_use := current_tool_use h;
     tool_input_buffer := tool_input_buffer h;
     tool_use_id := tool_use_id h;
     tool_name := tool_name h;
     _processed_tool_use_ids := _processed_tool_use_ids h;
     all_tool_inputs := all_tool_inputs h |}.

Definition set_content_block_start_sent (v : bool) (h : ClaudeStreamHandler) : ClaudeStreamHandler :=
  {| model := model h;
     input_tokens := input_tokens h;
     response_buffer := response_buffer h;
     content_block_index := content_block_index h;
     content_block_started := content_block_started h;
     content_block_start_sent := v;
     content_block_stop_sent := content_block_stop_sent h;
     message_start_sent := message_start_sent h;
     conversation_id := conversation_id h;
     current_tool_use := current_tool_use h;
     tool_input_buffer := tool_input_buffer h;
     tool_use_id := tool_use_id h;
     tool_name := tool_name h;
     _processed_tool_use_ids := _processed_tool_use_ids h;
     all_tool_inputs := all_tool_inputs h |}.

Definition set_content_block_stop_sent (v : bool) (h : ClaudeStreamHandler) : ClaudeStreamHandler :=
  {| model := model h;
     input_tokens := input_tokens h;
     response_buffer := response_buffer h;
     content_block_index := content_block_index h;
     content_block_started := content_block_started h;
     content_block_start_sent := content_block_start_sent h;
     content_block_stop_sent := v;
     message_start_sent := message_start_sent h;
     conversation_id := conversation_id h;
     current_tool_use := current_tool_use h;
     tool_input_buffer := tool_input_buffer h;
     tool_use_id := tool_use_id h;
     tool_name := tool_name h;
     _processed_tool_use_ids := _processed_tool_use_ids h;
     all_tool_inputs := all_tool_inputs h |}.

Definition set_message_start_sent (v : bool) (h : ClaudeStreamHandler) : ClaudeStreamHandler :=
  {| model := model h;
     input_tokens := input_tokens h;
     response_buffer := response_buffer h;
     content_block_index := content_block_index h;
     content_block_started := content_block_started h;
     content_block_start_sent := content_block_start_sent h;
     content_block_stop_sent := content_block_stop_sent h;
     message_start_sent := v;
     conversation_id := conversation_id h;
     current_tool_use := current_tool_use h;
     tool_input_buffer := tool_input_buffer h;
     tool_use_id := tool_use_id h;
     tool_name := tool_name h;
     _processed_tool_use_ids := _processed_tool_use_ids h;
     all_tool_inputs := all_tool_inputs h |}.

Definition set_conversation_id (v : json) (h : ClaudeStreamHandler) : ClaudeStreamHandler :=
  {| model := model h;
     input_tokens := input_tokens h;
     response_buffer := response_buffer h;
     content_block_index := content_block_index h;
     content_block_started := content_block_started h;
     content_block_start_sent := content_block_start_sent h;
     content_block_stop_sent := content_block_stop_sent h;
     message_start_sent := message_start_sent h;
     conversation_id := v;
     current_tool_use := current_tool_use h;
     tool_input_buffer := tool_input_buffer h;
     tool_use_id := tool_use_id h;
     tool_name := tool_name h;
     _processed_tool_use_ids := _processed_tool_use_ids h;
     all_tool_inputs := all_tool_inputs h |}.

Definition set_current_tool_use (v : option (dict json)) (h : ClaudeStreamHandler) : ClaudeStreamHandler :=
  {| model := model h;
     input_tokens := input_tokens h;
     response_buffer := response_buffer h;
     content_block_index := content_block_index h;
     content_block_started := content_block_started h;
     content_block_start_sent := content_block_start_sent h;
     content_block_stop_sent := content_block_stop_sent h;
     message_start_sent := message_start_sent h;
     conversation_id := conversation_id h;
     current_tool_use := v;
     tool_input_buffer := tool_input_buffer h;
     tool_use_id := tool_use_id h;
     tool_name := tool_name h;
     _processed_tool_use_ids := _processed_tool_use_ids h;
     all_tool_inputs := all_tool_inputs h |}.

Definition set_tool_input_buffer (v : list string) (h : ClaudeStreamHandler) : ClaudeStreamHandler :=
  {| model := model h;
     input_tokens := input_tokens h;
     response_buffer := response_buffer h;
     content_block_index := content_block_index h;
     content_block_started := content_block_started h;
     content_block_start_sent := content_block_start_sent h;
     content_block_stop_sent := content_block_stop_sent h;
     message_start_sent := message_start_sent h;
     conversation_id := conversation_id h;
     current_tool_use := current_tool_use h;
     tool_input_buffer := v;
     tool_use_id := tool_use_id h;
     tool_name := tool_name h;
     _processed_tool_use_ids := _processed_tool_use_ids h;
     all_tool_inputs := all_tool_inputs h |}.

Definition set_tool_use_id (v : json) (h : ClaudeStreamHandler) : ClaudeStreamHandler :=
  {| model := model h;
     input_tokens := input_tokens h;
     response_buffer := response_buffer h;
     content_block_index := content_block_index h;
     content_block_started := content_block_started h;
     content_block_start_sent := content_block_start_sent h;
     content_block_stop_sent := content_block_stop_sent h;
     message_start_sent := message_start_sent h;
     conversation_id := conversation_id h;
     current_tool_use := current_tool_use h;
     tool_input_buffer := tool_input_buffer h;
     tool_use_id := v;
     tool_name := tool_name h;
     _processed_tool_use_ids := _processed_tool_use_ids h;
     all_tool_inputs := all_tool_inputs h |}.

Definition set_tool_name (v : json) (h : ClaudeStreamHandler) : ClaudeStreamHandler :=
  {| model := model h;
     input_tokens := input_tokens h;
     response_buffer := response_buffer h;
     content_block_index := content_block_index h;
     content_block_started := content_block_started h;
     content_block_start_sent := content_block_start_sent h;
     content_block_stop_sent := content_block_stop_sent h;
     message_start_sent := message_start_sent h;
     conversation_id := conversation_id h;
     current_tool_use := current_tool_use h;
     tool_input_buffer := tool_input_buffer h;
     tool_use_id := tool_use_id h;
     tool_name := v;
     _processed_tool_use_ids := _processed_tool_use_ids h;
     all_tool_inputs := all_tool_inputs h |}.

Definition set_processed_tool_use_ids (v : list json) (h : ClaudeStreamHandler) : ClaudeStreamHandler :=
  {| model := model h;
     input_tokens := input_tokens h;
     response_buffer := response_buffer h;
     content_block_index := content_block_index h;
     content_block_started := content_block_started h;
     content_block_start_sent := content_block_start_sent h;
     content_block_stop_sent := content_block_stop_sent h;
     message_start_sent := message_start_sent h;
     conversation_id := conversation_id h;
     current_tool_use := current_tool_use h;
     tool_input_buffer := tool_input_buffer h;
     tool_use_id := tool_use_id h;
     tool_name := tool_name h;
     _processed_tool_use_ids := v;
     all_tool_inputs := all_tool_inputs h |}.

Definition set_all_tool_inputs (v : list string) (h : ClaudeStreamHandler) : ClaudeStreamHandler :=
  {| model := model h;
     input_tokens := input_tokens h;
     response_buffer := response_buffer h;
     content_block_index := content_block_index h;
     content_block_started := content_block_started h;
     content_block_start_sent := content_block_start_sent h;
     content_block_stop_sent := content_block_stop_sent h;
     message_start_sent := message_start_sent h;
     conversation_id := conversation_id h;
     current_tool_use := current_tool_use h;
     tool_input_buffer := tool_input_buffer h;
     tool_use_id := tool_use_id h;
     tool_name := tool_name h;
     _processed_tool_use_ids := _processed_tool_use_ids h;
     all_tool_inputs := v |}.

(** ** The generator monad

    An async generator method of the handler: it reads and assigns the
    fields, yields SSE strings, and either returns or raises.  A run gives
    the strings yielded so far, the fields as they are left, and [Some] result
    or [None] when an exception was raised. *)
Definition gen (A : Type) : Type :=
  ClaudeStreamHandler -> list sse * ClaudeStreamHandler * option A.

Definition ret {A} (a : A) : gen A := fun h => ([], h, Some a).

Definition bind {A B} (m : gen A) (f : A -> gen B) : gen B :=
  fun h =>
    match m h with
    | (out1, h1, None) => (out1, h1, None)
    | (out1, h1, Some a) =>
        match f a h1 with
        | (out2, h2, r) => (out1 ++ out2, h2, r)
        end
    end.

Definition yield (s : sse) : gen unit := fun h => ([s], h, Some tt).
Definition self : gen ClaudeStreamHandler := fun h => ([], h, Some h).
Definition assign (f : ClaudeStreamHandler -> ClaudeStreamHandler) : gen unit :=
  fun h => ([], f h, Some tt).
Definition raise {A} : gen A := fun h => ([], h, None).
Definition when (b : bool) (m : gen unit) : gen unit := if b then m else ret tt.

#[export] Instance gen_ret : MRet gen := @ret.
#[export] Instance gen_bind : MBind gen := fun A B f m => bind m f.

(** [s.add(x)]: [None] stands for the [TypeError] of an unhashable [x]. *)
Definition set_add (x : json) (s : list json) : option (list json) :=
  if hashable x then Some (if existsb (py_eq x) s then s else s ++ [x]) else None.

Definition is_Some' {A} (o : option A) : bool :=
  match o with Some _ => true | None => false end.

Section Handler.

(** [json.dumps(x, ensure_ascii=False)] *)
Variable json_dumps : json -> string.

(** [handle_event], branch by branch as in the source. *)
Definition handle_initial_response (payload : dict json) : gen unit :=
  h ← self;
  when (negb (message_start_sent h))
    (let conv_id :=
       get_or payload "conversationId"
         (if truthy (conversation_id h) then conversation_id h else JStr "unknown") in
     assign (set_conversation_id conv_id) ;;
     yield (build_message_start conv_id (model h) (input_tokens h)) ;;
     assign (set_message_start_sent true) ;;
     yield build_ping).

Definition handle_assistant_response (payload : dict json) : gen unit :=
  let content := get_or payload "content" (JStr "") in
  h ← self;
  when (is_Some' (current_tool_use h) && negb (content_block_stop_sent h))
    (yield (build_content_block_stop (content_block_index h)) ;;
     assign (set_content_block_stop_sent true) ;;
     assign (set_current_tool_use None)) ;;
  h ← self;
  when (negb (content_block_start_sent h))
    (assign (set_content_block_index (content_block_index h + 1)%Z) ;;
     yield (build_content_block_start (content_block_index h + 1)%Z "text") ;;
     assign (set_content_block_start_sent true) ;;
     assign (set_content_block_started true)) ;;
  h ← self;
  when (truthy content)
    (assign (set_response_buffer (response_buffer h ++ [content])) ;;
     yield (build_content_block_delta (content_block_index h) content)).

Definition handle_tool_use (payload : dict json) : gen unit :=
  let tool_use_id := jget payload "toolUseId" in
  let tool_name := jget payload "name" in
  let tool_input := get_or payload "input" (JObj []) in
  let is_stop := get_or payload "stop" (JBool false) in
  h ← self;
  when (truthy tool_use_id && truthy tool_name && negb (is_Some' (current_tool_use h)))
    (when (content_block_start_sent h && negb (content_block_stop_sent h))
       (yield (build_content_block_stop (content_block_index h)) ;;
        assign (set_content_block_stop_sent true)) ;;
     match set_add tool_use_id (_processed_tool_use_ids h) with
     | None => raise
     | Some ids => assign (set_processed_tool_use_ids ids)
     end ;;
     assign (set_content_block_index (content_block_index h + 1)%Z) ;;
     yield (build_tool_use_start (content_block_index h + 1)%Z tool_use_id tool_name) ;;
     assign (set_content_block_started true) ;;
     assign (set_current_tool_use (Some [("toolUseId", tool_use_id); ("name", tool_name)])) ;;
     assign (set_tool_use_id tool_use_id) ;;
     assign (set_tool_name tool_name) ;;
     assign (set_tool_input_buffer []) ;;
     assign (set_content_block_stop_sent false) ;;
     assign (set_content_block_start_sent true)) ;;
  h ← self;
  when (is_Some' (current_tool_use h) && truthy tool_input)
    (let fragment :=
       match tool_input with
       | JStr s => s
       | _ => json_dumps tool_input
       end in
     assign (set_tool_input_buffer (tool_input_buffer h ++ [fragment])) ;;
     yield (build_tool_use_input_delta (content_block_index h) fragment)) ;;
  h ← self;
  when (truthy is_stop && is_Some' (current_tool_use h))
    (let full_input := join "" (tool_input_buffer h) in
     assign (set_all_tool_inputs (all_tool_inputs h ++ [full_input])) ;;
     yield (build_content_block_stop (content_block_index h)) ;;
     assign (set_content_block_stop_sent true) ;;
     assign (set_content_block_started false) ;;
     assign (set_current_tool_use None) ;;
     assign (set_tool_use_id JNull) ;;
     assign (set_tool_name JNull) ;;
     assign (set_tool_input_buffer [])).

Definition handle_assistant_response_end : gen unit :=
  h ← self;
  when (content_block_started h && negb (content_block_stop_sent h))
    (yield (build_content_block_stop (content_block_index h)) ;;
     assign (set_content_block_stop_sent true)).

Definition handle_event (event_type : string) (payload : dict json) : gen unit :=
  if String.eqb event_type "initial-response" then handle_initial_response payload
  else if String.eqb event_type "assistantResponseEvent" then handle_assistant_response payload
  else if String.eqb event_type "toolUseEvent" then handle_tool_use payload
  else if String.eqb event_type "assistantResponseEnd" then handle_assistant_response_end
  else ret tt.

Definition finish : gen unit :=
  h ← self;
  when (content_block_started h && negb (content_block_stop_sent h))
    (yield (build_content_block_stop (content_block_index h)) ;;
     assign (set_content_block_stop_sent true)) ;;
  h ← self;
  match all_str (response_buffer h) with
  | None => raise
  | Some parts =>
      let full_text := join "" parts in
      let full_tool_input := join "" (all_tool_inputs h) in
      let output_tokens :=
        Z.max 1 (Z.of_nat (String.length full_text + String.length full_tool_input) / 4) in
      yield (build_message_stop (input_tokens h) output_tokens "end_turn")
  end.

(** The loop of [event_generator] in [claude_messages]: every event of the
    upstream iterator is handled in order, then [finish]; an exception ends
    the generator where it is raised. *)
Fixpoint handle_events (events : list (string * dict json)) : gen unit :=
  match events with
  | [] => ret tt
  | (event_type, payload) :: rest =>
      handle_event event_type payload ;; handle_events rest
  end.

Definition event_generator (events : list (string * dict json)) : gen unit :=
  handle_events events ;; finish.

End Handler.

(** ** Reading an emitted stream *)

(** The SSE events of a run, in order. *)
Definition events_of (out : list sse) : list sse_event := concat out.

Definition is_block_start (e : sse_event) : bool :=
  String.eqb (sse_name e) "content_block_start".

Definition is_block_stop (e : sse_event) : bool :=
  String.eqb (sse_name e) "content_block_stop".

Definition count_starts (out : list sse) : nat :=
  length (List.filter is_block_start (events_of out)).

Definition count_stops (out : list sse) : nat :=
  length (List.filter is_block_stop (events_of out)).

(** No two [content_block_start] events without a [content_block_stop]
    between them: [opened] tells whether the last block event seen was a
    start. *)
Fixpoint starts_separated (opened : bool) (es : list sse_event) : bool :=
  match es with
  | [] => true
  | e :: r =>
      if is_block_start e then negb opened && starts_separated true r
      else if is_block_stop e then starts_separated false r
      else starts_separated opened r
  end.

End Streaming.

(* ===================================================================== *)
(** * src/api/server.py: the non-streaming branch of [claude_messages] *)
(* ===================================================================== *)

Module Server.
Import Py Parser Streaming.

(** The local variables of the aggregation loop.  [final_content] holds
    [None] ([JNull]) or the [content_block] of a start event. *)
Record aggregate : Type := {
  final_content : list json;
  usage : json;
  stop_reason : json
}.

Definition init_aggregate : aggregate :=
  {| final_content := [];
     usage := JObj [("input_tokens", JInt 0); ("output_tokens", JInt 0)];
     stop_reason := JNull |}.

Definition set_final_content (fc : list json) (a : aggregate) : aggregate :=
  {| final_content := fc; usage := usage a; stop_reason := stop_reason a |}.

(** A JSON value used as a list index or compared with [len(..)]: an [int]
    or a [bool]; [None] stands for the [TypeError] of any other value. *)
Definition as_int (j : json) : option Z :=
  match j with
  | JInt n => Some n
  | JBool b => Some (bool_to_Z b)
  | _ => None
  end.

(** [x += y] on JSON values; [None] stands for [TypeError]. *)
Definition py_iadd (x y : json) : option json :=
  match x, y with
  | JStr s, JStr t => Some (JStr (s +:+ t))
  | (JInt _ | JBool _), (JInt _ | JBool _) =>
      match as_int x, as_int y with
      | Some n, Some m => Some (JInt (n + m))
      | _, _ => None
      end
  | JArr xs, JArr ys => Some (JArr (xs ++ ys))
  | JArr xs, JStr t => Some (JArr (xs ++ chars t))
  | JArr xs, JObj kvs => Some (JArr (xs ++ map (fun kv => JStr (fst kv)) kvs))
  | _, _ => None
  end.

Section Aggregation.

Variable json_dumps : json -> string.
(** [json.loads]: [None] stands for [json.JSONDecodeError]. *)
Variable json_loads : string -> option json.

(** [final_content[idx]] for [idx = data.get("index", 0)]. *)
Definition block_at (d : dict json) (a : aggregate) : option (Z * json) :=
  match as_int (get_or d "index" (JInt 0)) with
  | None => None
  | Some idx =>
      match py_index (final_content a) idx with
      | None => None
      | Some item => Some (idx, item)
      end
  end.

(** [final_content[idx] = item] for an index [block_at] has read. *)
Definition store_block (idx : Z) (item : json) (a : aggregate) : aggregate :=
  match py_setitem (final_content a) idx item with
  | Some fc => set_final_content fc a
  | None => a
  end.

Definition on_content_block_start (d : dict json) (a : aggregate) : aggregate :=
  match as_int (get_or d "index" (JInt 0)) with
  | None => a
  | Some idx =>
      let fc := final_content a ++
                repeat JNull (Z.to_nat (idx + 1 - Z.of_nat (length (final_content a)))) in
      store_block idx (jget d "content_block") (set_final_content fc a)
  end.

Definition on_content_block_delta (d : dict json) (a : aggregate) : aggregate :=
  match block_at d a with
  | None => a
  | Some (idx, item) =>
      if truthy item then
        match get_or d "delta" (JObj []), item with
        | JObj delta, JObj blk =>
            if is_str (jget delta "type") "text_delta" then
              match dict_get blk "text" with
              | None => a
              | Some cur =>
                  match py_iadd cur (get_or delta "text" (JStr "")) with
                  | None => a
                  | Some v => store_block idx (JObj (dict_set blk "text" v)) a
                  end
              end
            else if is_str (jget delta "type") "input_json_delta" then
              let blk1 :=
                if negb (dict_has blk "partial_json")
                then dict_set blk "partial_json" (JStr "") else blk in
              match py_iadd (jget blk1 "partial_json")
                      (get_or delta "partial_json" (JStr "")) with
              | None => store_block idx (JObj blk1) a
              | Some v => store_block idx (JObj (dict_set blk1 "partial_json" v)) a
              end
            else a
        | JObj delta, _ =>
            (* a truthy block that is not a dict: the subscripts of the
               two delta branches raise *)
            a
        | _, _ => a
        end
      else a
  end.

Definition on_content_block_stop (d : dict json) (a : aggregate) : aggregate :=
  match block_at d a with
  | None => a
  | Some (idx, item) =>
      if truthy item then
        match item with
        | JObj blk =>
            match dict_get blk "type" with
            | None => a
            | Some ty =>
                if is_str ty "tool_use" then
                  if dict_has blk "partial_json" then
                    let blk1 :=
                      match jget blk "partial_json" with
                      | JStr text =>
                          match json_loads text with
                          | Some v => dict_set blk "input" v
                          | None => blk
                          end
                      | _ => blk
                      end in
                    store_block idx (JObj (dict_del blk1 "partial_json")) a
                  else a
                else a
            end
        | _ => a
        end
      else a
  end.

Definition on_message_delta (d : dict json) (a : aggregate) : aggregate :=
  let a1 := {| final_content := final_content a;
               usage := get_or d "usage" (usage a);
               stop_reason := stop_reason a |} in
  match get_or d "delta" (JObj []) with
  | JObj delta =>
      {| final_content := final_content a1;
         usage := usage a1;
         stop_reason := jget delta "stop_reason" |}
  | _ => a1
  end.

(** The body of the inner [try] once [json.loads(data_str)] has returned
    [data]; an exception leaves the variables as they are at that point
    ([except: pass]). *)
Definition aggregate_data (data : json) (a : aggregate) : aggregate :=
  match data with
  | JObj d =>
      let dtype := jget d "type" in
      if is_str dtype "content_block_start" then on_content_block_start d a
      else if is_str dtype "content_block_delta" then on_content_block_delta d a
      else if is_str dtype "content_block_stop" then on_content_block_stop d a
      else if is_str dtype "message_delta" then on_message_delta d a
      else a
  | _ => a
  end.

(** One iteration of [async for sse_line in event_generator()]. *)
Definition aggregate_line (sse_line : string) (a : aggregate) : aggregate :=
  if String.prefix "data: " sse_line then
    let data_str := strip (str_drop 6 sse_line) in
    if String.eqb data_str "[DONE]" then a
    else match json_loads data_str with
         | Some data => aggregate_data data a
         | None => a
         end
  else a.

Definition aggregate_lines (lines : list string) : aggregate :=
  fold_left (fun a line => aggregate_line line a) lines init_aggregate.

(** The dict the non-streaming branch returns. *)
Definition response (msg_uuid model : string) (a : aggregate) : dict json :=
  [("id", JStr ("msg_" +:+ msg_uuid));
   ("type", JStr "message");
   ("role", JStr "assistant");
   ("model", JStr model);
   ("content", JArr (List.filter (fun c => match c with JNull => false | _ => true end)
                            (final_content a)));
   ("stop_reason", stop_reason a);
   ("stop_sequence", JNull);
   ("usage", usage a)].

(** The non-streaming branch of [claude_messages] for the events [events] of
    the upstream iterator: the handler's strings are aggregated line by
    line.  [None]: the generator raised, and so does the request. *)
Definition claude_messages_nonstream (msg_uuid model : string)
    (events : list (string * dict json)) : option (dict json) :=
  match event_generator json_dumps events (init model 0) with
  | (out, _, Some _) =>
      Some (response msg_uuid model
              (aggregate_lines (map (render json_dumps) out)))
  | (_, _, None) => None
  end.

End Aggregation.

End Server.

(* ===================================================================== *)
(** * src/api/middleware.py *)
(* ===================================================================== *)

Module Middleware.
Import Py.

(** One value of [TOKEN_MAP]. *)
Record token_entry : Type := {
  accessToken : string;
  refreshToken : string;
  clientId : string;
  clientSecret : string;
  lastRefresh : Z
}.

(** The module state and its effects on the network: the global
    [TOKEN_MAP], keyed by the hash of the caller secret, and the
    token-refresh requests posted to the OIDC endpoint so far, each with its
    [(clientId, clientSecret, refreshToken)]. *)
Record world : Type := {
  TOKEN_MAP : gmap string token_entry;
  oidc_calls : list (string * string * string)
}.

Inductive HTTPException : Type :=
| mkHTTPException (status_code : Z) (detail : string).

(** The dict [auth_middleware] returns. *)
Record account : Type := {
  acc_accessToken : string;
  acc_clientId : string;
  acc_clientSecret : string;
  acc_refreshToken : string
}.

(** [_parse_bearer_token] *)
Definition _parse_bearer_token (bearer_token : string) : string * string * string :=
  let temp_array := split ":" bearer_token in
  let client_id := if Nat.ltb 0 (length temp_array) then nth 0 temp_array "" else "" in
  let client_secret := if Nat.ltb 1 (length temp_array) then nth 1 temp_array "" else "" in
  let refresh_token :=
    if Nat.ltb 2 (length temp_array) then join ":" (skipn 2 temp_array) else "" in
  (client_id, client_secret, refresh_token).

Section Auth.

(** [hashlib.sha256(text.encode()).hexdigest()] *)
Variable _sha256 : string -> string.
(** The answer of the OIDC token endpoint to the [n]-th refresh request:
    [Some] access token, or [None] when the request fails or the answer
    carries no [accessToken]. *)
Variable oidc_post : nat -> string -> string -> string -> option string.
(** [time.time()] *)
Variable now : Z.

(** [_handle_token_refresh]: one POST to [TOKEN_URL]; every failure is
    turned into [None]. *)
Definition _handle_token_refresh (client_id client_secret refresh_token : string)
    (w : world) : option string * world :=
  (oidc_post (length (oidc_calls w)) client_id client_secret refresh_token,
   {| TOKEN_MAP := TOKEN_MAP w;
      oidc_calls := oidc_calls w ++ [(client_id, client_secret, refresh_token)] |}).

Definition nonempty (s : string) : bool := negb (String.eqb s "").

(** The token the two headers carry: [x-api-key] first, then
    [Authorization: Bearer]. *)
Definition header_token (authorization x_api_key : option string) : option string :=
  let token :=
    match x_api_key with
    | Some k => if nonempty k then Some k else None
    | None => None
    end in
  match token, authorization with
  | None, Some a =>
      if (nonempty a && String.prefix "Bearer " a)%bool then Some (str_drop 7 a) else None
  | _, _ => token
  end.

Definition auth_middleware (authorization x_api_key : option string) (w : world)
    : (HTTPException + account) * world :=
  match header_token authorization x_api_key with
  | None =>
      (inl (mkHTTPException 401
              "Missing authentication. Provide Authorization header or x-api-key"), w)
  | Some token =>
      if negb (nonempty token) then
        (inl (mkHTTPException 401
                "Missing authentication. Provide Authorization header or x-api-key"), w)
      else
      let token_hash := _sha256 token in
      match TOKEN_MAP w !! token_hash with
      | Some entry =>
          (inr {| acc_accessToken := accessToken entry;
                  acc_clientId := clientId entry;
                  acc_clientSecret := clientSecret entry;
                  acc_refreshToken := refreshToken entry |}, w)
      | None =>
          match _parse_bearer_token token with
          | (client_id, client_secret, refresh_token) =>
              if (negb (nonempty client_id) || negb (nonempty client_secret)
                  || negb (nonempty refresh_token))%bool then
                (inl (mkHTTPException 401
                        "Invalid token format. Expected: clientId:clientSecret:refreshToken"), w)
              else
                match _handle_token_refresh client_id client_secret refresh_token w with
                | (Some access_token, w1) =>
                    if nonempty access_token then
                      (inr {| acc_accessToken := access_token;
                              acc_clientId := client_id;
                              acc_clientSecret := client_secret;
                              acc_refreshToken := refresh_token |},
                       {| TOKEN_MAP :=
                            <[token_hash := {| accessToken := access_token;
                                               refreshToken := refresh_token;
                                               clientId := client_id;
                                               clientSecret := client_secret;
                                               lastRefresh := now |}]> (TOKEN_MAP w1);
                          oidc_calls := oidc_calls w1 |})
                    else
                      (inl (mkHTTPException 401 "Failed to refresh access token"), w1)
                | (None, w1) =>
                    (inl (mkHTTPException 401 "Failed to refresh access token"), w1)
                end
          end
      end
  end.

End Auth.

(** ** [refresh_all_tokens] *)

Section Refresh.

Variable oidc_post : nat -> string -> string -> string -> option string.
(** [time.time()] when the answer to the [n]-th refresh request is stored. *)
Variable time_at : nat -> Z.

(** The body of the loop of [refresh_all_tokens] for one item of
    [list(TOKEN_MAP.items())].  [token_data] is the dict stored under
    [hash_key]; the two assignments update that entry in place. *)
Definition refresh_item (item : string * token_entry) (w : world) : world :=
  let hash_key := fst item in
  let token_data := snd item in
  match _handle_token_refresh oidc_post (clientId token_data) (clientSecret token_data)
          (refreshToken token_data) w with
  | (new_token, w1) =>
      match new_token with
      | Some t =>
          if nonempty t then
            {| TOKEN_MAP :=
                 alter (fun entry =>
                          {| accessToken := t;
                             refreshToken := refreshToken entry;
                             clientId := clientId entry;
                             clientSecret := clientSecret entry;
                             lastRefresh := time_at (length (oidc_calls w)) |})
                   hash_key (TOKEN_MAP w1);
               oidc_calls := oidc_calls w1 |}
          else w1
      | None => w1
      end
  end.

(** [refresh_all_tokens]; [items] is [list(TOKEN_MAP.items())], the entries
    in the order the dict holds them. *)
Definition refresh_all_tokens (items : list (string * token_entry)) (w : world) : world :=
  fold_left (fun w item => refresh_item item w) items w.

End Refresh.

End Middleware.

(* ===================================================================== *)
(** * src/core/converter.py (with the types of src/core/types.py) *)
(* ===================================================================== *)

Module Converter.
Import Py.

(** [Union[str, List[Dict[str, Any]]]]: the items of a list are dicts by the
    type of the field, so the [isinstance(block, dict)] tests of the source
    hold. *)
Inductive content : Type :=
| CStr (s : string)
| CList (blocks : list (dict json)).

Record ClaudeMessage : Type := {
  role : string;
  msg_content : content
}.

Record ClaudeTool : Type := {
  tool_name : string;
  description : option string;
  input_schema : dict json
}.

(** [temperature] (a float the converter never reads) is left out. *)
Record ClaudeRequest : Type := {
  model : string;
  messages : list ClaudeMessage;
  max_tokens : Z;
  tools : option (list ClaudeTool);
  stream : bool;
  system : option content
}.

(** [map_model_name] *)
Definition map_model_name (claude_model : string) : string :=
  let model_lower := lower claude_model in
  if (String.prefix "claude-sonnet-4.5" model_lower
      || String.prefix "claude-sonnet-4-5" model_lower)%bool
  then "claude-sonnet-4.5"
  else "claude-sonnet-4".

(** The [text] of the blocks whose [type] is ["text"], in order. *)
Definition text_parts (blocks : list (dict json)) : list json :=
  flat_map (fun block =>
              if is_str (jget block "type") "text"
              then [get_or block "text" (JStr "")] else []) blocks.

(** [extract_text_from_content]; [None]: the join raised. *)
Definition extract_text_from_content (c : content) : option string :=
  match c with
  | CStr s => Some s
  | CList blocks => join_json NL (text_parts blocks)
  end.

(** The [aq_content] list of [process_tool_result_block]. *)
Definition tool_result_content (raw_c : json) : list json :=
  match raw_c with
  | JStr s => [JObj [("text", JStr s)]]
  | JArr items =>
      flat_map (fun item =>
                  match item with
                  | JObj d =>
                      if is_str (jget d "type") "text"
                      then [JObj [("text", get_or d "text" (JStr ""))]]
                      else if dict_has d "text"
                      then [JObj [("text", jget d "text")]]
                      else []
                  | JStr s => [JObj [("text", JStr s)]]
                  | _ => []
                  end) items
  | _ => []
  end.

(** [any(i.get("text", "").strip() for i in aq_content)]: the scan stops
    at the first item with text; [None]: a [text] that is no [str] was
    reached. *)
Fixpoint any_text (aq_content : list json) : option bool :=
  match aq_content with
  | [] => Some false
  | JObj d :: r =>
      match get_or d "text" (JStr "") with
      | JStr s => if negb (String.eqb (strip s) "") then Some true else any_text r
      | _ => None
      end
  | _ :: _ => None
  end.

(** The result with the same [toolUseId], if there is one, gets the new
    content appended. *)
Fixpoint extend_existing (tool_results : list (dict json)) (tool_use_id : json)
    (aq_content : list json) : option (list (dict json)) :=
  match tool_results with
  | [] => None
  | r :: rest =>
      if py_eq (jget r "toolUseId") tool_use_id then
        Some (dict_set r "content"
                (match jget r "content" with
                 | JArr c => JArr (c ++ aq_content)
                 | other => other
                 end) :: rest)
      else option_map (cons r) (extend_existing rest tool_use_id aq_content)
  end.

(** [process_tool_result_block]: the new value of [tool_results]. *)
Definition process_tool_result_block (block : dict json)
    (tool_results : list (dict json)) : option (list (dict json)) :=
  let tool_use_id := jget block "tool_use_id" in
  let raw_c := get_or block "content" (JArr []) in
  let aq_content := tool_result_content raw_c in
  has_text ← any_text aq_content;
  let aq_content :=
    if has_text : bool then aq_content
    else [JObj [("text", JStr "Tool use was cancelled by the user")]] in
  match extend_existing tool_results tool_use_id aq_content with
  | Some updated => Some updated
  | None =>
      Some (tool_results ++
            [[("toolUseId", tool_use_id);
              ("content", JArr aq_content);
              ("status", get_or block "status" (JStr "success"))]])
  end.

(** [media_type.split("/")[-1] if "/" in media_type else "png"] *)
Definition image_format (media_type : json) : option string :=
  match media_type with
  | JStr s =>
      if contains_char "/" s then Some (List.last (split "/" s) "") else Some "png"
  | JArr xs => if existsb (py_eq (JStr "/")) xs then None else Some "png"
  | JObj kvs => if dict_has kvs "/" then None else Some "png"
  | _ => None
  end.

(** The image a block contributes, if any. *)
Definition image_of_block (block : dict json) : option (list json) :=
  if is_str (jget block "type") "image" then
    match get_or block "source" (JObj []) with
    | JObj source =>
        if is_str (jget source "type") "base64" then
          fmt ← image_format (get_or source "media_type" (JStr "image/png"));
          Some [JObj [("format", JStr fmt);
                      ("source", JObj [("bytes", get_or source "data" (JStr ""))])]]
        else Some []
    | _ => None
    end
  else Some [].

Fixpoint images_of_blocks (blocks : list (dict json)) : option (list json) :=
  match blocks with
  | [] => Some []
  | block :: rest =>
      imgs ← image_of_block block;
      more ← images_of_blocks rest;
      Some (imgs ++ more)
  end.

(** [extract_images_from_content]: [Some None] is the [None] it returns when
    there is no image, [None] an exception. *)
Definition extract_images_from_content (c : content) : option (option (list json)) :=
  match c with
  | CStr _ => Some None
  | CList blocks =>
      images ← images_of_blocks blocks;
      Some (match images with [] => None | _ => Some images end)
  end.

Definition marker : string :=
  NL +:+ NL +:+ "...(Full description provided in TOOL DOCUMENTATION section)".

(** [convert_tool] *)
Definition convert_tool (tool : ClaudeTool) : json :=
  let desc := match description tool with Some d => d | None => "" end in
  let desc :=
    if (10240 <? Z.of_nat (String.length desc))%Z
    then str_take (Z.to_nat 10100) desc +:+ marker else desc in
  JObj [("toolSpecification",
         JObj [("name", JStr (tool_name tool));
               ("description", JStr desc);
               ("inputSchema", JObj [("json", JObj (input_schema tool))])])].

(** The loop over the blocks of a user message: the text parts are
    collected by [text_parts]; every [tool_result] block is handed to
    [process_tool_result_block].  [tool_results] is [None] until the first
    such block. *)
Fixpoint collect_tool_results (blocks : list (dict json))
    (tool_results : option (list (dict json))) : option (option (list (dict json))) :=
  match blocks with
  | [] => Some tool_results
  | block :: rest =>
      if is_str (jget block "type") "text" then collect_tool_results rest tool_results
      else if is_str (jget block "type") "tool_result" then
        updated ← process_tool_result_block block
                    (match tool_results with Some trs => trs | None => [] end);
        collect_tool_results rest (Some updated)
      else collect_tool_results rest tool_results
  end.

Definition env_state : json :=
  JObj [("operatingSystem", JStr "macos"); ("currentWorkingDirectory", JStr "/")].

Definition nonempty_list {A} (o : option (list A)) : bool :=
  match o with Some (_ :: _) => true | _ => false end.

Definition tool_results_json (trs : option (list (dict json))) : json :=
  JArr (map JObj (match trs with Some l => l | None => [] end)).

(** ** [merge_user_messages] *)

(** The variables of its loop. *)
Record merge_state : Type := {
  all_contents : list json;
  base_context : json;
  base_origin : json;
  base_model : json;
  all_images : list json
}.

Definition merge_step (st : merge_state) (msg : dict json) : merge_state :=
  let content := get_or msg "content" (JStr "") in
  let msg_images := jget msg "images" in
  {| all_contents := if truthy content then all_contents st ++ [content] else all_contents st;
     base_context :=
       match base_context st with
       | JNull => get_or msg "userInputMessageContext" (JObj [])
       | c => c
       end;
     base_origin :=
       match base_origin st with
       | JNull => get_or msg "origin" (JStr "CLI")
       | o => o
       end;
     base_model :=
       match base_model st with
       | JNull => jget msg "modelId"
       | m => m
       end;
     all_images := if truthy msg_images then all_images st ++ [msg_images] else all_images st |}.

(** [kept_images.extend(img_list)] over [all_images[-2:]] *)
Fixpoint extend_all (img_lists : list json) : option (list json) :=
  match img_lists with
  | [] => Some []
  | img_list :: rest =>
      items ← iter_items img_list;
      more ← extend_all rest;
      Some (items ++ more)
  end.

Definition merge_user_messages (messages : list (dict json)) : option (dict json) :=
  match messages with
  | [] => Some []
  | _ =>
      let st := fold_left merge_step messages
                  {| all_contents := []; base_context := JNull; base_origin := JNull;
                     base_model := JNull; all_images := [] |} in
      text ← join_json (NL +:+ NL) (all_contents st);
      let result :=
        [("content", JStr text);
         ("userInputMessageContext",
           if truthy (base_context st) then base_context st else JObj []);
         ("origin", if truthy (base_origin st) then base_origin st else JStr "CLI");
         ("modelId", base_model st)] in
      match all_images st with
      | [] => Some result
      | _ =>
          kept_images ← extend_all (py_slice (all_images st) (-2) (Z.of_nat (length (all_images st))));
          Some (match kept_images with
                | [] => result
                | _ => dict_set result "images" (JArr kept_images)
                end)
      end
  end.

(** ** [process_history] *)

Section History.

(** [str(uuid.uuid4())], by the number of earlier calls. *)
Variable uuid4 : nat -> string.

(** The [toolUses] of an assistant message: [seen] is [seen_tool_use_ids]. *)
Fixpoint collect_tool_uses (blocks : list (dict json)) (seen : list json)
    : option (list json * list json) :=
  match blocks with
  | [] => Some ([], seen)
  | block :: rest =>
      if is_str (jget block "type") "tool_use" then
        let tid := jget block "id" in
        if truthy tid then
          if hashable tid then
            if existsb (py_eq tid) seen then collect_tool_uses rest seen
            else
              r ← collect_tool_uses rest (seen ++ [tid]);
              Some (JObj [("toolUseId", tid);
                          ("name", jget block "name");
                          ("input", get_or block "input" (JObj []))] :: fst r, snd r)
          else None
        else collect_tool_uses rest seen
      else collect_tool_uses rest seen
  end.

(** The first pass: one entry of [raw_history] per user or assistant
    message.  [n] counts the calls of [uuid4]. *)
Definition convert_user_message (c : content) : option (dict json) :=
  images ← extract_images_from_content c;
  r ← match c with
      | CList blocks =>
          trs ← collect_tool_results blocks None;
          text ← join_json NL (text_parts blocks);
          Some (text, trs)
      | CStr _ =>
          text ← extract_text_from_content c;
          Some (text, None)
      end;
  let user_ctx :=
    if nonempty_list (snd r)
    then [("envState", env_state); ("toolResults", tool_results_json (snd r))]
    else [("envState", env_state)] in
  let u_msg :=
    [("content", JStr (fst r));
     ("userInputMessageContext", JObj user_ctx);
     ("origin", JStr "CLI")] in
  Some (if nonempty_list images
        then dict_set u_msg "images" (JArr (match images with Some l => l | None => [] end))
        else u_msg).

Fixpoint first_pass (msgs : list ClaudeMessage) (seen : list json) (n : nat)
    : option (list (dict json)) :=
  match msgs with
  | [] => Some []
  | msg :: rest =>
      if String.eqb (role msg) "user" then
        u_msg ← convert_user_message (msg_content msg);
        more ← first_pass rest seen n;
        Some ([("userInputMessage", JObj u_msg)] :: more)
      else if String.eqb (role msg) "assistant" then
        text ← extract_text_from_content (msg_content msg);
        let base := [("messageId", JStr (uuid4 n)); ("content", JStr text)] in
        r ← match msg_content msg with
            | CList blocks => collect_tool_uses blocks seen
            | CStr _ => Some ([], seen)
            end;
        more ← first_pass rest (snd r) (S n);
        Some ([("assistantResponseMessage",
                JObj (match fst r with
                      | [] => base
                      | tool_uses => dict_set base "toolUses" (JArr tool_uses)
                      end))] :: more)
      else first_pass rest seen n
  end.

(** The second pass: [pending] is [pending_user_msgs]. *)
Fixpoint second_pass (raw_history : list (dict json)) (pending : list (dict json))
    : option (list (dict json)) :=
  match raw_history with
  | [] =>
      match pending with
      | [] => Some []
      | _ =>
          merged ← merge_user_messages pending;
          Some [[("userInputMessage", JObj merged)]]
      end
  | item :: rest =>
      match dict_get item "userInputMessage" with
      | Some (JObj u_msg) => second_pass rest (pending ++ [u_msg])
      | Some _ => None
      | None =>
          if dict_has item "assistantResponseMessage" then
            match pending with
            | [] => more ← second_pass rest []; Some (item :: more)
            | _ =>
                merged ← merge_user_messages pending;
                more ← second_pass rest [];
                Some ([("userInputMessage", JObj merged)] :: item :: more)
            end
          else second_pass rest pending
      end
  end.

Definition process_history (msgs : list ClaudeMessage) (n : nat) : option (list (dict json)) :=
  raw_history ← first_pass msgs [] n;
  second_pass raw_history [].

(** ** [convert_claude_to_amazonq_request] *)

(** [get_current_timestamp()] *)
Variable timestamp : string.

(** Step 1: the tools whose description is longer than 10240 characters,
    as [(name, full_description)]. *)
Definition long_desc_tools (ts : option (list ClaudeTool)) : list (string * string) :=
  flat_map (fun t =>
              match description t with
              | Some d =>
                  if (negb (String.eqb d "") && (10240 <? Z.of_nat (String.length d))%Z)%bool
                  then [(tool_name t, d)] else []
              | None => []
              end)
           (match ts with Some l => l | None => [] end).

(** Step 2: [(prompt_content, tool_results, has_tool_result, images)] of the
    last message. *)
Definition current_turn (last_msg : option ClaudeMessage)
    : option (string * option (list (dict json)) * bool * option (list json)) :=
  match last_msg with
  | Some m =>
      if String.eqb (role m) "user" then
        images ← extract_images_from_content (msg_content m);
        match msg_content m with
        | CList blocks =>
            trs ← collect_tool_results blocks None;
            text ← join_json NL (text_parts blocks);
            Some (text, trs,
                  existsb (fun block => is_str (jget block "type") "tool_result") blocks,
                  images)
        | CStr _ =>
            text ← extract_text_from_content (msg_content m);
            Some (text, None, false, images)
        end
      else Some ("", None, false, None)
  | None => Some ("", None, false, None)
  end.

(** The text of [req.system]; [None]: the join raised. *)
Definition system_text (sys : content) : option string :=
  match sys with
  | CStr s => Some s
  | CList blocks => join_json NL (text_parts blocks)
  end.

Definition system_truthy (sys : option content) : bool :=
  match sys with
  | Some (CStr s) => negb (String.eqb s "")
  | Some (CList (_ :: _)) => true
  | _ => false
  end.

Definition tool_doc (info : string * string) : string :=
  "Tool: " +:+ fst info +:+ NL +:+ "Full Description:" +:+ NL +:+ snd info +:+ NL.

(** Step 4 (the lines under "4. 格式化内容"): [formatted_content]. *)
Definition format_content (prompt_content : string) (has_tool_result : bool)
    (long_tools : list (string * string)) (sys : option content) : option string :=
  let formatted_content :=
    if (has_tool_result && String.eqb prompt_content "")%bool then ""
    else
      "--- CONTEXT ENTRY BEGIN ---" +:+ NL +:+
      "Current time: " +:+ timestamp +:+ NL +:+
      "--- CONTEXT ENTRY END ---" +:+ NL +:+ NL +:+
      "--- USER MESSAGE BEGIN ---" +:+ NL +:+
      prompt_content +:+ NL +:+
      "--- USER MESSAGE END ---" in
  let formatted_content :=
    match long_tools with
    | [] => formatted_content
    | _ =>
        "--- TOOL DOCUMENTATION BEGIN ---" +:+ NL +:+
        join "" (map tool_doc long_tools) +:+
        "--- TOOL DOCUMENTATION END ---" +:+ NL +:+ NL +:+
        formatted_content
    end in
  if (system_truthy sys && negb (String.eqb formatted_content ""))%bool then
    sys_text ← system_text (match sys with Some c => c | None => CStr "" end);
    Some (if negb (String.eqb sys_text "") then
            "--- SYSTEM PROMPT BEGIN ---" +:+ NL +:+
            sys_text +:+ NL +:+
            "--- SYSTEM PROMPT END ---" +:+ NL +:+ NL +:+
            formatted_content
          else formatted_content)
  else Some formatted_content.

Definition convert_claude_to_amazonq_request (req : ClaudeRequest)
    (conversation_id : option string) : option (dict json) :=
  let '(conversation_id, n) :=
    match conversation_id with
    | Some c => (c, 0)
    | None => (uuid4 0, 1)
    end in
  let aq_tools := map convert_tool (match tools req with Some l => l | None => [] end) in
  let long_tools := long_desc_tools (tools req) in
  let last_msg := List.last (map Some (messages req)) None in
  turn ← current_turn last_msg;
  let '(prompt_content, tool_results, has_tool_result, images) := turn in
  let user_ctx := [("envState", env_state)] in
  let user_ctx :=
    match aq_tools with [] => user_ctx | _ => dict_set user_ctx "tools" (JArr aq_tools) end in
  let user_ctx :=
    if nonempty_list tool_results
    then dict_set user_ctx "toolResults" (tool_results_json tool_results)
    else user_ctx in
  formatted_content ← format_content prompt_content has_tool_result long_tools (system req);
  let model_id := map_model_name (model req) in
  let user_input_msg :=
    [("content", JStr formatted_content);
     ("userInputMessageContext", JObj user_ctx);
     ("origin", JStr "CLI");
     ("modelId", JStr model_id)] in
  let user_input_msg :=
    if nonempty_list images
    then dict_set user_input_msg "images"
           (JArr (match images with Some l => l | None => [] end))
    else user_input_msg in
  let history_msgs :=
    if Nat.ltb 1 (length (messages req)) then removelast (messages req) else [] in
  aq_history ← process_history history_msgs n;
  Some [("conversationState",
         JObj [("conversationId", JStr conversation_id);
               ("history", JArr (map JObj aq_history));
               ("currentMessage", JObj [("userInputMessage", JObj user_input_msg)]);
               ("chatTriggerType", JStr "MANUAL")])].

End History.

End Converter.

(* ===================================================================== *)
(** * src/amazonq/client.py *)
(* ===================================================================== *)

Module Client.
Import Py Parser Streaming.

(** ** [_merge_headers] *)

Definition stripped_headers : list string :=
  ["content-length"; "host"; "connection"; "transfer-encoding"].

Definition is_stripped (k : string) : bool :=
  existsb (String.eqb (lower k)) stripped_headers.

(** The inner [set_header]: every key equal to [name] up to case is
    deleted, then [name] is set. *)
Definition set_header (headers : dict string) (name value : string) : dict string :=
  dict_set
    (List.filter (fun kv => negb (String.eqb (lower (fst kv)) (lower name))) headers)
    name value.

(** [_merge_headers(as_log, bearer_token)]; [invocation_id] is the
    [str(uuid.uuid4())] of the call. *)
Definition _merge_headers (invocation_id : string) (as_log : dict string)
    (bearer_token : string) : dict string :=
  let headers := List.filter (fun kv => negb (is_stripped (fst kv))) as_log in
  let headers := set_header headers "Authorization" ("Bearer " +:+ bearer_token) in
  set_header headers "amz-sdk-invocation-id" invocation_id.

(** ** The event iterator of [send_chat_request] *)

(** Truthiness of a payload: [None] and empty JSON values are falsy; raw
    bytes are kept only when not empty. *)
Definition payload_truthy (p : payload_value) : bool :=
  match p with
  | PNone => false
  | PJson j => truthy j
  | PBytes b => match b with [] => false | _ => true end
  end.

(** [byte_gen]: the chunks of the response that are not empty. *)
Definition byte_gen (chunks : list (list byte)) : list (list byte) :=
  List.filter (fun chunk => match chunk with [] => false | _ => true end) chunks.

(** The body of the loop of [_iter_events] for one message: the pair it
    yields, if any. *)
Definition event_of_message (m : message) : option (header_value * payload_value) :=
  let info := extract_event_info m in
  match event_type info with
  | Some et =>
      if (header_truthy et && payload_truthy (info_payload info))%bool
      then Some (et, info_payload info) else None
  | None => None
  end.

Section Events.

Variable decode_utf8 : list byte -> option string.
Variable json_loads : string -> option json.
Variable json_dumps : json -> string.

(** [_iter_events]: the events of the byte stream of the response. *)
Definition _iter_events (fuel : nat) (chunks : list (list byte))
    : option (list (header_value * payload_value)) :=
  option_map (omap event_of_message)
    (parse_stream decode_utf8 json_loads fuel (byte_gen chunks)).

(** [handler.handle_event(event_type, payload)] for a pair of the iterator.
    An event type that is [bytes] equals none of the four names.  A payload
    that is no dict has no [get]: the branches that read the payload raise,
    [assistantResponseEnd] and the unknown types do not read it. *)
Definition handle_raw_event (ev : header_value * payload_value) : gen unit :=
  match ev with
  | (HBytes _, _) => ret tt
  | (HStr name, PJson (JObj d)) => handle_event json_dumps name d
  | (HStr name, _) =>
      if String.eqb name "initial-response" then
        h ← self; if message_start_sent h then ret tt else raise
      else if String.eqb name "assistantResponseEvent" then raise
      else if String.eqb name "toolUseEvent" then raise
      else handle_event json_dumps name []
  end.

Fixpoint handle_raw_events (evs : list (header_value * payload_value)) : gen unit :=
  match evs with
  | [] => ret tt
  | ev :: rest => handle_raw_event ev ;; handle_raw_events rest
  end.

(** The streaming branch of [claude_messages] on the chunks of an upstream
    response: the strings of [event_generator] (every event of the
    iterator, then [finish]) and whether it completed. *)
Definition stream_response (fuel : nat) (model : string) (chunks : list (list byte))
    : option (list sse * option unit) :=
  match _iter_events fuel chunks with
  | None => None
  | Some evs =>
      match (handle_raw_events evs ;; finish) (init model 0) with
      | (out, _, r) => Some (out, r)
      end
  end.

End Events.

End Client.

(* ===================================================================== *)
(** * auth/generate_auth_url.py and auth/extract_token.py: the config file *)
(* ===================================================================== *)

Module AuthConfig.
Import Py.

Definition LF : ascii := ascii_of_nat 10.
Definition CR : ascii := ascii_of_nat 13.

(** [str.isspace] on the characters below 256. *)
Definition isspace (a : ascii) : bool :=
  let n := nat_of_ascii a in
  ((Nat.leb 9 n && Nat.leb n 13) || (Nat.leb 28 n && Nat.leb n 32)
   || Nat.eqb n 133 || Nat.eqb n 160)%bool.

Fixpoint lstrip_spaces (s : string) : string :=
  match s with
  | EmptyString => EmptyString
  | String a s' => if isspace a then lstrip_spaces s' else s
  end.

Fixpoint rstrip_spaces (s : string) : string :=
  match s with
  | EmptyString => EmptyString
  | String a s' =>
      match rstrip_spaces s' with
      | EmptyString => if isspace a then EmptyString else String a EmptyString
      | r => String a r
      end
  end.

(** [line.strip()] *)
Definition strip_spaces (s : string) : string := rstrip_spaces (lstrip_spaces s).

(** [for line in f] on a file opened in text mode: the lines of the text,
    each with its end of line, which is read as ["\n"] whether the file has
    ["\n"], ["\r\n"] or ["\r"]; the last line may have none. *)
Fixpoint file_lines (text : string) : list string :=
  match text with
  | EmptyString => []
  | String a rest =>
      if Ascii.eqb a LF then String LF "" :: file_lines rest
      else if Ascii.eqb a CR then
        match rest with
        | String b rest' =>
            if Ascii.eqb b LF then String LF "" :: file_lines rest'
            else String LF "" :: file_lines rest
        | EmptyString => [String LF ""]
        end
      else
        match file_lines rest with
        | [] => [String a ""]
        | line :: more => String a line :: more
        end
  end.

(** [line.split('=', 1)] for a line that contains ['=']: the text before the
    first ['='] and the text after it. *)
Fixpoint split_once (c : ascii) (s : string) : string * string :=
  match s with
  | EmptyString => ("", "")
  | String a s' =>
      if Ascii.eqb a c then ("", s')
      else let '(key, value) := split_once c s' in (String a key, value)
  end.

(** The body of the loop of [load_config]. *)
Definition load_line (config : dict string) (line : string) : dict string :=
  let line := strip_spaces line in
  if contains_char "=" line then
    let '(key, value) := split_once "=" line in
    dict_set config key value
  else config.

(** [load_config]; [file] is the text of [auth_config.txt], or [None] when
    there is no such file. *)
Definition load_config (file : option string) : option (dict string) :=
  match file with
  | Some text => Some (fold_left load_line (file_lines text) [])
  | None => None
  end.

(** The text [generate_auth_url] writes to [auth_config.txt]: one
    [key=value] line per item of [config]. *)
Fixpoint write_config (config : dict string) : string :=
  match config with
  | [] => ""
  | (key, value) :: rest =>
      key +:+ "=" +:+ value +:+ String LF "" +:+ write_config rest
  end.

End AuthConfig.

Module Credentials.

(** The credentials [extract_and_exchange_token] prints and saves:
    [f"{config['client_id']}:{config['client_secret']}:{refresh_token}"]. *)
Definition format_credentials (client_id client_secret refresh_token : string) : string :=
  client_id +:+ ":" +:+ client_secret +:+ ":" +:+ refresh_token.

End Credentials.

(* ===================================================================== *)
(** * Properties of the frame decoder *)
(* ===================================================================== *)

Module ParserFacts.
Import Py Parser.

(** ** Slices with in-range bounds *)

Lemma clamp_index_in_range (n i : Z) :
  (0 <= i)%Z -> (0 <= n)%Z -> clamp_index n i = Z.min n i.
Proof.
  intros Hi Hn. unfold clamp_index.
  destruct (i <? 0)%Z eqn:E; lia.
Qed.

Lemma py_slice_prefix {A} (l : list A) (n : Z) :
  (0 <= n)%Z -> py_slice l 0 n = firstn (Z.to_nat n) l.
Proof.
  intros Hn. unfold py_slice.
  rewrite !clamp_index_in_range by lia.
  replace (Z.min (Z.of_nat (length l)) 0) with 0%Z by lia.
  rewrite Z.sub_0_r. change (Z.to_nat 0) with 0%nat. rewrite skipn_O.
  destruct (Z.le_ge_cases n (Z.of_nat (length l))) as [Hle|Hge].
  - rewrite Z.min_r by lia. reflexivity.
  - rewrite Z.min_l by lia.
    rewrite Nat2Z.id, !firstn_all2; auto; lia.
Qed.

Lemma py_slice_suffix {A} (l : list A) (n : Z) :
  (0 <= n)%Z -> py_slice l n (len l) = skipn (Z.to_nat n) l.
Proof.
  intros Hn. unfold py_slice, len.
  rewrite !clamp_index_in_range by lia.
  rewrite Z.min_id.
  destruct (Z.le_ge_cases n (Z.of_nat (length l))) as [Hle|Hge].
  - rewrite Z.min_r by lia.
    apply firstn_all2. rewrite length_skipn. lia.
  - rewrite Z.min_l by lia.
    rewrite Z.sub_diag, Nat2Z.id, !skipn_all2; auto; lia.
Qed.

Lemma len_app {A} (a b : list A) : len (a ++ b) = (len a + len b)%Z.
Proof. unfold len. rewrite length_app. lia. Qed.

Lemma len_nonneg {A} (l : list A) : (0 <= len l)%Z.
Proof. unfold len. lia. Qed.

Lemma unpack_be_nonneg bs : (0 <= unpack_be bs)%Z.
Proof.
  unfold unpack_be.
  assert (H : forall acc, (0 <= acc)%Z ->
            (0 <= fold_left (fun acc b => (acc * 256 + byte_Z b)%Z) bs acc)%Z).
  { induction bs as [|b bs IH]; intros acc Hacc; simpl; [exact Hacc|].
    apply IH. unfold byte_Z. lia. }
  apply H. lia.
Qed.

(** The length prefix of a buffer of at least four bytes is not changed by
    what is appended to it. *)
Lemma length_prefix_app (b c : list byte) :
  (4 <= len b)%Z -> py_slice (b ++ c) 0 4 = py_slice b 0 4.
Proof.
  unfold len. intros H. rewrite !py_slice_prefix by lia.
  rewrite firstn_app.
  replace (Z.to_nat 4 - length b)%nat with 0%nat by lia.
  simpl. apply app_nil_r.
Qed.

Section Chunking.

Variable decode_utf8 : list byte -> option string.
Variable json_loads : string -> option json.

Local Abbreviation drain := (drain decode_utf8 json_loads).
Local Abbreviation parse_message := (parse_message decode_utf8 json_loads).
Local Abbreviation parse_stream_from := (parse_stream_from decode_utf8 json_loads).
Local Abbreviation parse_stream := (parse_stream decode_utf8 json_loads).

(** One step of the loop, as an equation. *)
Lemma drain_S fuel buffer :
  drain (S fuel) buffer =
    if (len buffer <? 12)%Z then Some ([], buffer) else
    if (len buffer <? unpack_be (py_slice buffer 0 4))%Z then Some ([], buffer) else
    match drain fuel (py_slice buffer (unpack_be (py_slice buffer 0 4)) (len buffer)) with
    | None => None
    | Some (ms, rest) =>
        Some (match parse_message (py_slice buffer 0 (unpack_be (py_slice buffer 0 4))) with
              | Some m => m :: ms
              | None => ms
              end, rest)
    end.
Proof. reflexivity. Qed.

(** More fuel does not change an answer. *)
Lemma drain_more_fuel fuel : forall buffer res k,
  drain fuel buffer = Some res -> drain (fuel + k) buffer = Some res.
Proof.
  induction fuel as [|fuel IH]; intros buffer res k H; [discriminate|].
  change (S fuel + k)%nat with (S (fuel + k)).
  rewrite drain_S in *.
  destruct (len buffer <? 12)%Z; [exact H|].
  destruct (len buffer <? unpack_be _)%Z; [exact H|].
  destruct (drain fuel _) as [[ms rest]|] eqn:E; [|discriminate].
  rewrite (IH _ _ k E). exact H.
Qed.

Lemma drain_fuel_le fuel fuel' buffer res :
  (fuel <= fuel')%nat -> drain fuel buffer = Some res -> drain fuel' buffer = Some res.
Proof.
  intros Hle H. replace fuel' with (fuel + (fuel' - fuel))%nat by lia.
  now apply drain_more_fuel.
Qed.

(** What the loop leaves in the buffer gives no further message: the loop
    waits for more bytes. *)
Lemma drain_rest_waits fuel : forall buffer ms rest,
  drain fuel buffer = Some (ms, rest) -> drain fuel rest = Some ([], rest).
Proof.
  induction fuel as [|fuel IH]; intros buffer ms rest H; [discriminate|].
  rewrite drain_S in H.
  destruct (len buffer <? 12)%Z eqn:E12.
  { simplify_eq. rewrite drain_S, E12. reflexivity. }
  destruct (len buffer <? unpack_be _)%Z eqn:Etl.
  { simplify_eq. rewrite drain_S, E12, Etl. reflexivity. }
  destruct (drain fuel _) as [[ms' rest']|] eqn:E; [|discriminate].
  simplify_eq.
  apply (drain_fuel_le fuel); [lia|]. eapply IH; eassumption.
Qed.

(** Decoding a buffer in one go is decoding a prefix of it first and the
    rest, appended to what the prefix left, afterwards. *)
Lemma drain_app_split fuel : forall b c ms rest,
  drain fuel (b ++ c) = Some (ms, rest) ->
  exists ms1 r1 ms2,
    drain fuel b = Some (ms1, r1) /\
    drain fuel (r1 ++ c) = Some (ms2, rest) /\
    ms = ms1 ++ ms2.
Proof.
  induction fuel as [|fuel IH]; intros b c ms rest H; [discriminate|].
  rewrite (drain_S fuel b).
  destruct (len b <? 12)%Z eqn:E12.
  { exists [], b, ms. auto. }
  destruct (len b <? unpack_be (py_slice b 0 4))%Z eqn:Etl.
  { exists [], b, ms. auto. }
  apply Z.ltb_ge in E12, Etl.
  pose proof (unpack_be_nonneg (py_slice b 0 4)) as Hnn.
  rewrite drain_S in H.
  rewrite length_prefix_app in H by lia.
  set (t := unpack_be (py_slice b 0 4)) in *.
  rewrite len_app in H. pose proof (len_nonneg c) as Hc.
  destruct (len b + len c <? 12)%Z eqn:E12'; [apply Z.ltb_lt in E12'; lia|].
  destruct (len b + len c <? t)%Z eqn:Etl'; [apply Z.ltb_lt in Etl'; lia|].
  rewrite <- len_app in H.
  rewrite (py_slice_suffix (b ++ c) t), (py_slice_prefix (b ++ c) t) in H by lia.
  rewrite (py_slice_suffix b t), (py_slice_prefix b t) by lia.
  assert (Hle : (Z.to_nat t <= length b)%nat) by (unfold len in Etl; lia).
  rewrite skipn_app, firstn_app in H.
  replace (Z.to_nat t - length b)%nat with 0%nat in H by lia.
  rewrite skipn_O, firstn_O, app_nil_r in H.
  destruct (drain fuel (skipn _ b ++ c)) as [[ms' rest']|] eqn:E; [|discriminate].
  simplify_eq.
  destruct (IH _ _ _ _ E) as (ms1 & r1 & ms2 & H1 & H2 & ->).
  rewrite H1.
  eexists _, r1, ms2. split; [reflexivity|]. split.
  - apply (drain_fuel_le fuel); [lia|exact H2].
  - destruct (parse_message _); reflexivity.
Qed.

(** The chunked loop against the one-go loop, from a buffer that waits. *)
Lemma parse_stream_from_chunks fuel : forall chunks buffer ms rest,
  drain fuel buffer = Some ([], buffer) ->
  drain fuel (buffer ++ concat chunks) = Some (ms, rest) ->
  parse_stream_from fuel buffer chunks = Some ms.
Proof.
  induction chunks as [|c cs IH]; intros buffer ms rest Hw H; simpl in *.
  - rewrite app_nil_r in H. congruence.
  - rewrite app_assoc in H.
    destruct (drain_app_split _ _ _ _ _ H) as (ms1 & r1 & ms2 & H1 & H2 & ->).
    rewrite H1.
    rewrite (IH r1 ms2 rest); [reflexivity| |exact H2].
    eapply drain_rest_waits; eassumption.
Qed.

(** A complete frame: at least the 12-byte prelude and the 4-byte trailer,
    and its length prefix is its length. *)
Definition complete_frame (f : list byte) : Prop :=
  (16 <= len f)%Z /\ unpack_be (py_slice f 0 4) = len f.

(** In one go, a sequence of complete frames is decoded frame by frame and
    nothing is left over. *)
Lemma drain_frames : forall frames fuel,
  Forall complete_frame frames ->
  (length frames < fuel)%nat ->
  drain fuel (concat frames) = Some (omap parse_message frames, []).
Proof.
  induction frames as [|f fs IH]; intros fuel Hall Hfuel.
  - destruct fuel; [lia|]. reflexivity.
  - destruct fuel as [|fuel]; [simpl in Hfuel; lia|].
    inversion Hall as [|? ? [H16 Hlen] Hall']; subst.
    simpl concat. rewrite drain_S.
    rewrite length_prefix_app by lia. rewrite Hlen.
    rewrite len_app. pose proof (len_nonneg (concat fs)) as Hc.
    destruct (len f + len (concat fs) <? 12)%Z eqn:E12; [apply Z.ltb_lt in E12; lia|].
    destruct (len f + len (concat fs) <? len f)%Z eqn:Etl; [apply Z.ltb_lt in Etl; lia|].
    rewrite <- len_app.
    rewrite (py_slice_suffix _ (len f)), (py_slice_prefix _ (len f)) by lia.
    replace (Z.to_nat (len f)) with (length f) by (unfold len; lia).
    rewrite drop_app_length, take_app_length.
    rewrite (IH fuel Hall') by (simpl in Hfuel; lia).
    simpl. destruct (parse_message f); reflexivity.
Qed.

(** While the buffer holds less than the 12-byte prelude, or less than the
    announced total length, the loop yields nothing and keeps the bytes. *)
Lemma drain_waits fuel buffer :
  (len buffer < 12)%Z \/ (len buffer < unpack_be (py_slice buffer 0 4))%Z ->
  drain (S fuel) buffer = Some ([], buffer).
Proof.
  intros H. rewrite drain_S.
  destruct (len buffer <? 12)%Z eqn:E12; [reflexivity|].
  destruct (len buffer <? unpack_be _)%Z eqn:Etl; [reflexivity|].
  apply Z.ltb_ge in E12, Etl. lia.
Qed.

Lemma concat_singletons {A} (l : list A) : concat (map (fun b => [b]) l) = l.
Proof. induction l as [|a l IH]; simpl; congruence. Qed.

Lemma parse_stream_of_frames frames chunks fuel :
  Forall complete_frame frames ->
  concat chunks = concat frames ->
  (length frames < fuel)%nat ->
  parse_stream fuel chunks = Some (omap parse_message frames).
Proof.
  intros Hall Hcat Hfuel. unfold Parser.parse_stream.
  destruct fuel as [|fuel]; [lia|].
  eapply parse_stream_from_chunks.
  - apply drain_waits. left. reflexivity.
  - simpl app. rewrite Hcat. apply drain_frames; assumption.
Qed.

(** C2. For every sequence of complete frames and every split of their
    concatenation into chunks, [parse_stream] (given fuel for one loop
    iteration per frame, and one more) yields exactly the messages that
    [parse_message] decodes from the frames, in order; so do the whole
    buffer fed as one chunk and the buffer fed one byte per chunk.  The
    reason is that the inner loop yields nothing and keeps its buffer while
    a length field reaches past the end of the buffer. *)
Theorem parse_stream_chunking frames chunks fuel :
  Forall complete_frame frames ->
  concat chunks = concat frames ->
  (length frames < fuel)%nat ->
  parse_stream fuel chunks = parse_stream fuel [concat frames] /\
  parse_stream fuel (map (fun b => [b]) (concat frames)) = parse_stream fuel [concat frames] /\
  parse_stream fuel [concat frames] = Some (omap parse_message frames) /\
  (forall buffer,
     (len buffer < 12)%Z \/ (len buffer < unpack_be (py_slice buffer 0 4))%Z ->
     drain fuel buffer = Some ([], buffer)).
Proof.
  intros Hall Hcat Hfuel.
  assert (Hone : parse_stream fuel [concat frames] = Some (omap parse_message frames)).
  { apply parse_stream_of_frames; auto. simpl. apply app_nil_r. }
  rewrite Hone. repeat split.
  - apply parse_stream_of_frames; auto.
  - apply parse_stream_of_frames; auto. apply concat_singletons.
  - intros buffer Hb. destruct fuel as [|fuel]; [lia|]. apply drain_waits, Hb.
Qed.

(** For any bytes at all: when the whole buffer fed as one chunk is
    decoded (the loop ends), every split of it into chunks is decoded to the
    same messages. *)
Theorem parse_stream_any_chunking (chunks : list (list byte)) (fuel : nat)
    (ms : list message) :
  parse_stream fuel [concat chunks] = Some ms ->
  parse_stream fuel chunks = Some ms.
Proof.
  unfold Parser.parse_stream. simpl. intros H.
  destruct (drain fuel (concat chunks)) as [[ms' rest]|] eqn:E; [|discriminate].
  rewrite app_nil_r in H. injection H as <-.
  destruct fuel as [|fuel]; [discriminate|].
  eapply parse_stream_from_chunks.
  - apply drain_waits. left. reflexivity.
  - simpl app. exact E.
Qed.

End Chunking.

(** A concrete stream: an empty 16-byte frame and an 18-byte frame with a
    two-byte payload, cut after the fifth byte (inside the first length
    prefix's frame) and decoded with decoders that reject every text. *)
Definition sample_frames : list (list byte) :=
  [ [x00; x00; x00; x10; x00; x00; x00; x00; x00; x00; x00; x00;
     x00; x00; x00; x00];
    [x00; x00; x00; x12; x00; x00; x00; x00; x00; x00; x00; x00;
     x7b; x7d; x00; x00; x00; x00] ].

Definition sample_chunks : list (list byte) :=
  [firstn 5 (concat sample_frames); skipn 5 (concat sample_frames)].

Lemma parse_stream_chunking_witness :
  parse_stream (fun _ => None) (fun _ => None) 3 sample_chunks
  = parse_stream (fun _ => None) (fun _ => None) 3 [concat sample_frames].
Proof.
  refine (proj1 (parse_stream_chunking _ _ sample_frames sample_chunks 3 _ _ _)).
  - repeat constructor; unfold len; simpl; lia.
  - reflexivity.
  - simpl. lia.
Defined.

Lemma parse_stream_any_chunking_witness :
  parse_stream (fun _ => None) (fun _ => None) 3
    (map (fun b => [b]) (concat sample_frames))
  = Some [ {| headers := []; payload := PNone; total_length := 16 |};
           {| headers := []; payload := PBytes [x7b; x7d]; total_length := 18 |} ].
Proof.
  rewrite <- (concat_singletons (concat sample_frames)) at 1.
  refine (parse_stream_any_chunking (fun _ => None) (fun _ => None)
            (map (fun b => [b]) (concat sample_frames)) 3 _ _).
  rewrite concat_singletons. reflexivity.
Defined.

(** ** [parse_headers] never runs out of fuel *)

Section Headers.

Variable decode_utf8 : list byte -> option string.

Lemma byte_Z_nonneg b : (0 <= byte_Z b)%Z.
Proof. unfold byte_Z. lia. Qed.

Lemma parse_headers_loop_fuel : forall fuel data offset hs,
  (0 <= offset)%Z ->
  (0 < fuel)%nat ->
  (len data - offset < Z.of_nat fuel)%Z ->
  parse_headers_loop decode_utf8 fuel data offset hs <> OutOfFuel.
Proof.
  induction fuel as [|fuel IH]; intros data offset hs H0 Hpos Hf; [lia|].
  simpl.
  destruct (offset <? len data)%Z eqn:E; simpl; [|discriminate].
  apply Z.ltb_lt in E.
  pose proof (byte_Z_nonneg (nth (Z.to_nat offset) data x00)) as Hn.
  fold (byte_at data offset) in Hn.
  destruct (len data <? _)%Z; [discriminate|].
  destruct (decode_utf8 _); [|discriminate].
  destruct (len data <=? _)%Z; [discriminate|].
  destruct (len data <? _)%Z; [discriminate|].
  match goal with |- context [unpack_be ?x] => pose proof (unpack_be_nonneg x) as Hv end.
  destruct (len data <? _)%Z; [discriminate|].
  destruct (if (_ =? 7)%Z then _ else _); [|discriminate].
  apply IH; lia.
Qed.

Lemma parse_headers_terminates data :
  parse_headers decode_utf8 data <> OutOfFuel.
Proof.
  unfold parse_headers. apply parse_headers_loop_fuel; unfold len; lia.
Qed.

End Headers.

End ParserFacts.

(* ===================================================================== *)
(** * Properties of the stream handler *)
(* ===================================================================== *)

Module StreamingFacts.
Import Py Parser Streaming.

(** C10. An event whose type is none of [initial-response],
    [assistantResponseEvent], [toolUseEvent] and [assistantResponseEnd]
    makes [handle_event] yield nothing, raise nothing and leave every field
    of the handler as it was. *)
Theorem handle_event_unknown_type
    (json_dumps : json -> string) (event_type : string) (payload : dict json)
    (h : ClaudeStreamHandler) :
  event_type <> "initial-response" ->
  event_type <> "assistantResponseEvent" ->
  event_type <> "toolUseEvent" ->
  event_type <> "assistantResponseEnd" ->
  handle_event json_dumps event_type payload h = ([], h, Some tt).
Proof.
  intros H1 H2 H3 H4. unfold handle_event.
  apply String.eqb_neq in H1, H2, H3, H4.
  rewrite H1, H2, H3, H4. reflexivity.
Qed.

Lemma handle_event_unknown_type_witness :
  handle_event (fun _ => "") "messageMetadataEvent" [("conversationId", JStr "c1")]
    (init "claude-sonnet-4" 0)
  = ([], init "claude-sonnet-4" 0, Some tt).
Proof.
  apply (handle_event_unknown_type (fun _ => "") "messageMetadataEvent");
    discriminate.
Defined.

(** Unfolds the binds and guards of a generator. *)
Ltac monad_steps := unfold mbind, gen_bind, when.

(** ** A tool-use block closed twice *)

(** A tool use starts, [assistantResponseEnd] arrives while it is open, and
    the tool use is then stopped. *)
Definition double_stop_events : list (string * dict json) :=
  [("toolUseEvent", [("toolUseId", JStr "t1"); ("name", JStr "bash")]);
   ("assistantResponseEnd", [("messageId", JStr "m1")]);
   ("toolUseEvent", [("toolUseId", JStr "t1"); ("name", JStr "bash");
                     ("stop", JBool true)])].

(** C1 (the code at the failing input).  On [double_stop_events] the
    generator completes and emits one [content_block_start] and two
    [content_block_stop] events, both for index 0: [assistantResponseEnd]
    closes the block and leaves [current_tool_use] set, and the stop branch of
    [toolUseEvent] closes it again without looking at
    [content_block_stop_sent]. *)
Theorem double_stop_run (json_dumps : json -> string) :
  let run := event_generator json_dumps double_stop_events (init "claude-sonnet-4" 0) in
  snd run = Some tt /\
  map sse_name (events_of (fst (fst run)))
    = ["content_block_start"; "content_block_stop"; "content_block_stop";
       "message_delta"; "message_stop"] /\
  count_starts (fst (fst run)) = 1 /\
  count_stops (fst (fst run)) = 2.
Proof. repeat split. Qed.

(** ** Text after a tool use *)

(** The handler once a tool use ["t1"] has been opened as block 0. *)
Definition after_tool_start (json_dumps : json -> string) : ClaudeStreamHandler :=
  snd (fst (handle_event json_dumps "toolUseEvent"
              [("toolUseId", JStr "t1"); ("name", JStr "bash")]
              (init "claude-sonnet-4" 0))).

(** C4 (the code at the failing input).  An [assistantResponseEvent] that
    arrives while the tool-use block 0 is open closes that block and then
    emits its text delta for index 0: no text block is open, and no
    [content_block_start] is emitted, because [content_block_start_sent]
    still holds from the tool-use block. *)
Theorem text_after_tool_use_run (json_dumps : json -> string) :
  fst (fst (handle_event json_dumps "assistantResponseEvent"
              [("content", JStr "hi")] (after_tool_start json_dumps)))
  = [build_content_block_stop 0; build_content_block_delta 0 (JStr "hi")].
Proof. reflexivity. Qed.

(** What an [assistantResponseEvent] emits, from any state: the stop of
    an open tool use, then the start of a text block when no block was ever
    started on this handler, then the text delta when the content is not
    empty; the delta carries the index of the block just started, or else
    the current index. *)
Theorem assistant_response_output (json_dumps : json -> string)
    (payload : dict json) (h : ClaudeStreamHandler) :
  let content := get_or payload "content" (JStr "") in
  let index := content_block_index h in
  fst (fst (handle_event json_dumps "assistantResponseEvent" payload h))
  = (if is_Some' (current_tool_use h) && negb (content_block_stop_sent h)
     then [build_content_block_stop index] else [])
    ++ (if content_block_start_sent h then []
        else [build_content_block_start (index + 1) "text"])
    ++ (if truthy content
        then [build_content_block_delta
                (if content_block_start_sent h then index else (index + 1)%Z) content]
        else []).
Proof.
  cbv zeta. change (handle_event json_dumps "assistantResponseEvent" payload h)
    with (handle_assistant_response payload h).
  unfold handle_assistant_response. monad_steps.
  destruct h as [? ? ? ? started start_sent stop_sent ? ? tool_use ? ? ? ? ?].
  destruct (truthy (get_or payload "content" (JStr "")));
    destruct tool_use, start_sent, stop_sent; reflexivity.
Qed.

(** ** Pairing of block events, for every event sequence *)

(** A block is open, by the flags of the handler. *)
Definition opened (h : ClaudeStreamHandler) : bool :=
  content_block_start_sent h && negb (content_block_stop_sent h).

(** The flags agree with each other: before the first start nothing was
    started or stopped and no tool use is recorded, and an open block is
    marked as started. *)
Definition consistent (h : ClaudeStreamHandler) : bool :=
  (content_block_start_sent h
   || (negb (content_block_stop_sent h) && negb (is_Some' (current_tool_use h))
       && negb (content_block_started h)))
  && (negb (opened h) || content_block_started h).

(** Whether a block is open after the events [es], when [o] tells whether
    one was open before. *)
Fixpoint opened_after (o : bool) (es : list sse_event) : bool :=
  match es with
  | [] => o
  | e :: r =>
      if is_block_start e then opened_after true r
      else if is_block_stop e then opened_after false r
      else opened_after o r
  end.

Definition b2n (b : bool) : nat := if b then 1 else 0.

(** What one run of a generator keeps: starts stay separated by stops, the
    flags tell whether a block is open, every start that is not open any more
    has been followed by a stop, and the flags stay consistent. *)
Definition run_ok {A} (h : ClaudeStreamHandler)
    (r : list sse * ClaudeStreamHandler * option A) : bool :=
  let out := fst (fst r) in
  let h' := snd (fst r) in
  starts_separated (opened h) (events_of out)
  && Bool.eqb (opened_after (opened h) (events_of out)) (opened h')
  && Nat.leb (count_starts out + b2n (opened h)) (count_stops out + b2n (opened h'))
  && consistent h'.

(** A generator keeps it from every consistent state. *)
Definition gen_ok {A} (m : gen A) : Prop :=
  forall h, consistent h = true -> run_ok h (m h) = true.

Lemma events_of_app (a b : list sse) : events_of (a ++ b) = events_of a ++ events_of b.
Proof. apply concat_app. Qed.

Lemma starts_separated_app es1 : forall o es2,
  starts_separated o (es1 ++ es2)
  = starts_separated o es1 && starts_separated (opened_after o es1) es2.
Proof.
  induction es1 as [|e r IH]; intros o es2; simpl; [reflexivity|].
  destruct (is_block_start e); [rewrite IH; apply andb_assoc|].
  destruct (is_block_stop e); apply IH.
Qed.

Lemma opened_after_app es1 : forall o es2,
  opened_after o (es1 ++ es2) = opened_after (opened_after o es1) es2.
Proof.
  induction es1 as [|e r IH]; intros o es2; simpl; [reflexivity|].
  destruct (is_block_start e); [apply IH|].
  destruct (is_block_stop e); apply IH.
Qed.

Lemma count_starts_app a b : count_starts (a ++ b) = count_starts a + count_starts b.
Proof.
  unfold count_starts. rewrite events_of_app, List.filter_app, length_app. reflexivity.
Qed.

Lemma count_stops_app a b : count_stops (a ++ b) = count_stops a + count_stops b.
Proof.
  unfold count_stops. rewrite events_of_app, List.filter_app, length_app. reflexivity.
Qed.

(** [run_ok] goes through a bind. *)
Lemma run_ok_bind {A B} (m : gen A) (k : A -> gen B) h :
  run_ok h (m h) = true ->
  (forall a, gen_ok (k a)) ->
  run_ok h (bind m k h) = true.
Proof.
  intros Hm Hk. unfold bind.
  destruct (m h) as [[out1 h1] [a|]] eqn:Em; [|exact Hm].
  unfold run_ok in Hm. simpl in Hm.
  apply andb_prop in Hm as [Hm Hc1]. apply andb_prop in Hm as [Hm Hn1].
  apply andb_prop in Hm as [Hs1 Ho1].
  specialize (Hk a h1 Hc1).
  destruct (k a h1) as [[out2 h2] r2]. unfold run_ok in *. simpl in *.
  apply andb_prop in Hk as [Hk Hc2]. apply andb_prop in Hk as [Hk Hn2].
  apply andb_prop in Hk as [Hs2 Ho2].
  apply Bool.eqb_prop in Ho1, Ho2. apply Nat.leb_le in Hn1, Hn2.
  rewrite events_of_app, starts_separated_app, opened_after_app, Ho1, Ho2,
    Hs1, Hs2, Hc2, count_starts_app, count_stops_app, Bool.eqb_reflx.
  simpl. rewrite andb_true_r. apply Nat.leb_le. lia.
Qed.

Lemma gen_ok_bind {A B} (m : gen A) (k : A -> gen B) :
  gen_ok m -> (forall a, gen_ok (k a)) -> gen_ok (bind m k).
Proof. intros Hm Hk h Hc. apply run_ok_bind; auto. Qed.

(** Reading the fields: what follows only has to be right from the state
    that was read. *)
Lemma gen_ok_self {B} (k : ClaudeStreamHandler -> gen B) :
  (forall h, consistent h = true -> run_ok h (k h h) = true) ->
  gen_ok (bind self k).
Proof.
  intros Hk h Hc. unfold bind, self. specialize (Hk h Hc).
  destruct (k h h) as [[out2 h2] r2]. exact Hk.
Qed.

Lemma gen_ok_ret {A} (a : A) : gen_ok (ret a).
Proof.
  intros h Hc. unfold run_ok, ret. simpl.
  rewrite Bool.eqb_reflx, Hc, Nat.leb_refl. reflexivity.
Qed.

(** The cases of the flags a step can start from. *)
Ltac flag_cases h Hc :=
  destruct h as [? ? ? ? started start_sent stop_sent ? ? tool_use ? ? ? ? ?];
  destruct tool_use, started, start_sent, stop_sent;
  try discriminate Hc; clear Hc.


Lemma handle_initial_response_ok payload : gen_ok (handle_initial_response payload).
Proof.
  unfold handle_initial_response. monad_steps.
  apply gen_ok_self. intros h Hc.
  destruct (message_start_sent h); simpl; [apply gen_ok_ret, Hc|].
  flag_cases h Hc; reflexivity.
Qed.

Lemma handle_assistant_response_ok payload : gen_ok (handle_assistant_response payload).
Proof.
  unfold handle_assistant_response. monad_steps.
  apply gen_ok_self. intros h Hc. apply run_ok_bind.
  { flag_cases h Hc; reflexivity. }
  intros _. apply gen_ok_self. clear h Hc. intros h Hc. apply run_ok_bind.
  { flag_cases h Hc; reflexivity. }
  intros _. apply gen_ok_self. clear h Hc. intros h Hc.
  destruct (truthy _); [|apply gen_ok_ret, Hc].
  flag_cases h Hc; reflexivity.
Qed.

Lemma handle_tool_use_ok json_dumps payload : gen_ok (handle_tool_use json_dumps payload).
Proof.
  unfold handle_tool_use. monad_steps.
  apply gen_ok_self. intros h Hc. apply run_ok_bind.
  { destruct (truthy (jget payload "toolUseId")), (truthy (jget payload "name"));
      try (destruct (set_add _ _));
      flag_cases h Hc; reflexivity. }
  intros _. apply gen_ok_self. clear h Hc. intros h Hc. apply run_ok_bind.
  { destruct (truthy _); flag_cases h Hc; reflexivity. }
  intros _. apply gen_ok_self. clear h Hc. intros h Hc.
  destruct (truthy _); flag_cases h Hc; reflexivity.
Qed.

Lemma handle_assistant_response_end_ok : gen_ok handle_assistant_response_end.
Proof.
  unfold handle_assistant_response_end. monad_steps.
  apply gen_ok_self. intros h Hc. flag_cases h Hc; reflexivity.
Qed.

Lemma handle_event_ok json_dumps event_type payload :
  gen_ok (handle_event json_dumps event_type payload).
Proof.
  unfold handle_event.
  destruct (String.eqb _ _); [apply handle_initial_response_ok|].
  destruct (String.eqb _ _); [apply handle_assistant_response_ok|].
  destruct (String.eqb _ _); [apply handle_tool_use_ok|].
  destruct (String.eqb _ _); [apply handle_assistant_response_end_ok|].
  apply gen_ok_ret.
Qed.

Lemma handle_events_ok json_dumps events : gen_ok (handle_events json_dumps events).
Proof.
  induction events as [|[event_type payload] rest IH]; simpl.
  - apply gen_ok_ret.
  - monad_steps. apply gen_ok_bind; [apply handle_event_ok|intros _; exact IH].
Qed.

(** [finish] closes the block that is still open, also when it raises
    afterwards. *)
Lemma finish_ok (h : ClaudeStreamHandler) :
  consistent h = true ->
  run_ok h (finish h) = true /\ opened (snd (fst (finish h))) = false.
Proof.
  intros Hc. unfold finish. monad_steps. unfold bind at 1, self.
  destruct h as [? ? buffer ? started start_sent stop_sent ? ? tool_use ? ? ? inputs ?].
  destruct (all_str buffer) eqn:Eb;
    destruct tool_use, started, start_sent, stop_sent; try discriminate Hc;
    unfold bind, self; simpl; rewrite ?Eb; simpl; split; reflexivity.
Qed.

(** The handler of a new request starts consistent. *)
Lemma init_consistent model input_tokens : consistent (init model input_tokens) = true.
Proof. reflexivity. Qed.

(** For every sequence of events, the emitted stream never has two
    [content_block_start] events without a [content_block_stop] between
    them; and unless an exception ended the generator, every
    [content_block_start] is followed by a [content_block_stop]: there are
    at least as many stops as starts. *)
Theorem block_starts_are_closed (json_dumps : json -> string)
    (events : list (string * dict json)) (model : string) (input_tokens : Z) :
  let run := event_generator json_dumps events (init model input_tokens) in
  starts_separated false (events_of (fst (fst run))) = true /\
  (snd run = None \/ count_starts (fst (fst run)) <= count_stops (fst (fst run))).
Proof.
  cbv zeta. unfold event_generator. monad_steps.
  pose proof (handle_events_ok json_dumps events _ (init_consistent model input_tokens)) as H1.
  unfold bind.
  destruct (handle_events json_dumps events (init model input_tokens))
    as [[out1 h1] [[]|]] eqn:E1.
  - pose proof H1 as Hc1. unfold run_ok in Hc1. simpl in Hc1.
    apply andb_prop in Hc1 as [_ Hc1].
    destruct (finish_ok h1 Hc1) as [H2 Hclosed].
    assert (H : run_ok (init model input_tokens)
                  (bind (fun _ => (out1, h1, Some tt)) (fun _ => finish)
                     (init model input_tokens)) = true).
    { apply run_ok_bind; [exact H1|]. intros _ h Hc. apply finish_ok, Hc. }
    unfold bind in H.
    destruct (finish h1) as [[out2 h2] r2]. simpl in *.
    unfold run_ok in H. simpl in H.
    apply andb_prop in H as [H _]. apply andb_prop in H as [H Hn].
    apply andb_prop in H as [Hs _].
    split; [exact Hs|]. right.
    apply Nat.leb_le in Hn. rewrite Hclosed in Hn. simpl in Hn. lia.
  - unfold run_ok in H1. simpl in *.
    apply andb_prop in H1 as [H1 _]. apply andb_prop in H1 as [H1 _].
    apply andb_prop in H1 as [Hs _].
    split; [exact Hs|]. left. reflexivity.
Qed.

(** ** Block indices *)

(** The index a [content_block_start] event carries. *)
Definition start_index (e : sse_event) : option Z :=
  if is_block_start e then
    match sse_data e with
    | JObj d => match jget d "index" with JInt i => Some i | _ => None end
    | _ => None
    end
  else None.

Definition start_indices (out : list sse) : list Z := omap start_index (events_of out).

(** A run numbers the blocks it starts from the current index on, and
    leaves the index at the last block started. *)
Definition index_ok {A} (h : ClaudeStreamHandler)
    (r : list sse * ClaudeStreamHandler * option A) : Prop :=
  let out := fst (fst r) in
  start_indices out = seqZ (content_block_index h + 1) (Z.of_nat (count_starts out)) /\
  content_block_index (snd (fst r))
  = (content_block_index h + Z.of_nat (count_starts out))%Z.

Lemma start_indices_app a b : start_indices (a ++ b) = start_indices a ++ start_indices b.
Proof. unfold start_indices. rewrite events_of_app. apply omap_app. Qed.

Lemma index_ok_bind {A B} (m : gen A) (k : A -> gen B) h :
  index_ok h (m h) ->
  (forall a h1, index_ok h1 (k a h1)) ->
  index_ok h (bind m k h).
Proof.
  intros Hm Hk. unfold bind.
  destruct (m h) as [[out1 h1] [a|]] eqn:Em; [|exact Hm].
  destruct Hm as [Hs1 Hi1]. simpl in Hs1, Hi1.
  specialize (Hk a h1). destruct (k a h1) as [[out2 h2] r2].
  destruct Hk as [Hs2 Hi2]. simpl in Hs2, Hi2.
  unfold index_ok. simpl.
  rewrite start_indices_app, count_starts_app, Nat2Z.inj_add, seqZ_app by lia.
  rewrite Hs1, Hs2, Hi2, Hi1. split; [|lia].
  f_equal. f_equal. lia.
Qed.

Lemma index_ok_self {B} (k : ClaudeStreamHandler -> gen B) :
  (forall h, index_ok h (k h h)) -> forall h, index_ok h (bind self k h).
Proof.
  intros Hk h. unfold bind, self. specialize (Hk h).
  destruct (k h h) as [[out2 h2] r2]. exact Hk.
Qed.

Ltac solve_index :=
  split; [reflexivity|unfold count_starts, events_of; simpl; lia].

Lemma index_ok_ret {A} (a : A) h : index_ok h (ret a h).
Proof. solve_index. Qed.

(** The cases of a step, with the index kept as a variable. *)
Ltac index_cases h :=
  destruct h as [? ? ? index started start_sent stop_sent ? ? tool_use ? ? ? ? ?];
  destruct tool_use, started, start_sent, stop_sent;
  solve_index.

Lemma handle_event_index_ok json_dumps event_type payload h :
  index_ok h (handle_event json_dumps event_type payload h).
Proof.
  unfold handle_event.
  destruct (String.eqb _ _).
  { unfold handle_initial_response. monad_steps. revert h. apply index_ok_self. intros h.
    destruct (message_start_sent h); simpl; [apply index_ok_ret|]. index_cases h. }
  destruct (String.eqb _ _).
  { unfold handle_assistant_response. monad_steps. revert h.
    apply index_ok_self. intros h. apply index_ok_bind; [index_cases h|].
    intros _. apply index_ok_self. clear h. intros h. apply index_ok_bind; [index_cases h|].
    intros _. apply index_ok_self. clear h. intros h.
    destruct (truthy _); [|apply index_ok_ret]. index_cases h. }
  destruct (String.eqb _ _).
  { unfold handle_tool_use. monad_steps. revert h.
    apply index_ok_self. intros h. apply index_ok_bind.
    { destruct (truthy (jget payload "toolUseId")), (truthy (jget payload "name"));
        try (destruct (set_add _ _)); index_cases h. }
    intros _. apply index_ok_self. clear h. intros h. apply index_ok_bind.
    { destruct (truthy _); index_cases h. }
    intros _. apply index_ok_self. clear h. intros h.
    destruct (truthy _); index_cases h. }
  destruct (String.eqb _ _).
  { unfold handle_assistant_response_end. monad_steps. revert h.
    apply index_ok_self. intros h. index_cases h. }
  apply index_ok_ret.
Qed.

Lemma handle_events_index_ok json_dumps events : forall h,
  index_ok h (handle_events json_dumps events h).
Proof.
  induction events as [|[event_type payload] rest IH]; intros h; simpl.
  - apply index_ok_ret.
  - monad_steps. apply index_ok_bind; [apply handle_event_index_ok|intros _; exact IH].
Qed.

Lemma finish_index_ok h : index_ok h (finish h).
Proof.
  unfold finish. monad_steps. unfold bind at 1, self.
  destruct h as [? ? buffer index started start_sent stop_sent ? ? tool_use ? ? ? inputs ?].
  destruct (all_str buffer) eqn:Eb;
    destruct tool_use, started, start_sent, stop_sent;
    unfold bind, self; simpl; rewrite ?Eb; simpl;
    solve_index.
Qed.

(** For every sequence of events, the blocks started on a new handler are
    numbered 0, 1, 2, ... in the order of their [content_block_start]
    events: the indices increase by one and none is used twice. *)
Theorem block_indices_count_up (json_dumps : json -> string)
    (events : list (string * dict json)) (model : string) (input_tokens : Z) :
  let out := fst (fst (event_generator json_dumps events (init model input_tokens))) in
  start_indices out = seqZ 0 (Z.of_nat (count_starts out)).
Proof.
  cbv zeta. unfold event_generator. monad_steps.
  assert (H : index_ok (init model input_tokens)
                (bind (handle_events json_dumps events) (fun _ => finish)
                   (init model input_tokens))).
  { apply index_ok_bind; [apply handle_events_index_ok|intros _; apply finish_index_ok]. }
  exact (proj1 H).
Qed.

End StreamingFacts.

(* ===================================================================== *)
(** * Properties of the non-streaming aggregation *)
(* ===================================================================== *)

Module ServerFacts.
Import Py Parser Streaming Server.

(** ** What the loop reads of the handler's strings *)

(** Every string the handler yields starts with its [event:] line (or is
    empty), so the test [sse_line.startswith("data: ")] fails on it. *)
Lemma render_is_no_data_line json_dumps (s : sse) :
  String.prefix "data: " (render json_dumps s) = false.
Proof.
  unfold render. destruct s as [|e [|e' r]]; reflexivity.
Qed.

Lemma aggregate_line_rendered json_dumps json_loads (s : sse) (a : aggregate) :
  aggregate_line json_loads (render json_dumps s) a = a.
Proof. unfold aggregate_line. rewrite render_is_no_data_line. reflexivity. Qed.

Lemma aggregate_lines_rendered json_dumps json_loads (out : list sse) :
  aggregate_lines json_loads (map (render json_dumps) out) = init_aggregate.
Proof.
  unfold aggregate_lines. generalize init_aggregate.
  induction out as [|s out IH]; intros a; simpl; [reflexivity|].
  rewrite aggregate_line_rendered. apply IH.
Qed.

(** Whatever the events are, the non-streaming branch either raises with
    the generator or returns the response of the initial aggregate: its
    [content] is empty, its [stop_reason] is [None] and its [usage] counts no
    token. *)
Theorem nonstream_response_is_initial (json_dumps : json -> string)
    (json_loads : string -> option json) (msg_uuid model : string)
    (events : list (string * dict json)) :
  (claude_messages_nonstream json_dumps json_loads msg_uuid model events = None \/
   claude_messages_nonstream json_dumps json_loads msg_uuid model events
   = Some (response msg_uuid model init_aggregate)) /\
  jget (response msg_uuid model init_aggregate) "content" = JArr [].
Proof.
  split; [|reflexivity].
  unfold claude_messages_nonstream.
  destruct (event_generator _ _ _) as [[out h] [r|]]; [right|left; reflexivity].
  rewrite aggregate_lines_rendered. reflexivity.
Qed.

(** The aggregation of the data of the events themselves: what the [try]
    block of the loop computes from the events whose data reach it. *)
Definition aggregate_events (json_loads : string -> option json)
    (es : list sse_event) : aggregate :=
  fold_left (fun a e => aggregate_data json_loads (sse_data e) a) es init_aggregate.

(** ** A tool use whose input is not JSON *)

(** The tool use ["t1"] receives the single fragment [{bad] and stops. *)
Definition bad_input_events : list (string * dict json) :=
  [("toolUseEvent", [("toolUseId", JStr "t1"); ("name", JStr "bash")]);
   ("toolUseEvent", [("toolUseId", JStr "t1"); ("name", JStr "bash");
                     ("input", JStr "{bad")]);
   ("toolUseEvent", [("toolUseId", JStr "t1"); ("name", JStr "bash");
                     ("stop", JBool true)])].

(** The raw text is somewhere in the block: as the value of one of its
    keys. *)
Definition keeps_raw_text (raw : string) (block : json) : Prop :=
  match block with
  | JObj blk => exists k, dict_get blk k = Some (JStr raw)
  | _ => False
  end.

(** C3 as stated fails on [bad_input_events].  The response of the
    non-streaming branch has an empty [content]: no block keeps the raw text
    [{bad].  And where the data of the events are aggregated, the block that
    results has the empty [input] of its start event and no [partial_json]:
    the raw text is in none of its values. *)
Lemma raw_tool_input_is_not_kept :
  (forall json_dumps json_loads,
     claude_messages_nonstream json_dumps json_loads "u1" "claude-sonnet-4" bad_input_events
     = Some (response "u1" "claude-sonnet-4" init_aggregate)) /\
  jget (response "u1" "claude-sonnet-4" init_aggregate) "content" = JArr [] /\
  (forall json_dumps json_loads,
     json_loads "{bad" = None ->
     final_content
       (aggregate_events json_loads
          (events_of (fst (fst (event_generator json_dumps bad_input_events
                                  (init "claude-sonnet-4" 0))))))
     = [JObj [("type", JStr "tool_use"); ("id", JStr "t1"); ("name", JStr "bash");
              ("input", JObj [])]]) /\
  ~ keeps_raw_text "{bad"
      (JObj [("type", JStr "tool_use"); ("id", JStr "t1"); ("name", JStr "bash");
             ("input", JObj [])]).
Proof.
  split; [|split; [|split]].
  - intros json_dumps json_loads. unfold claude_messages_nonstream.
    assert (Hrun : snd (event_generator json_dumps bad_input_events
                          (init "claude-sonnet-4" 0)) = Some tt) by reflexivity.
    destruct (event_generator _ _ _) as [[out h] r]. simpl in Hrun. subst r.
    rewrite aggregate_lines_rendered. reflexivity.
  - reflexivity.
  - intros json_dumps json_loads Hbad.
    vm_compute. rewrite Hbad. reflexivity.
  - intros [k Hk]. simpl in Hk.
    repeat match type of Hk with
           | (if ?c then _ else _) = _ => destruct c; [discriminate|]
           end.
    discriminate.
Qed.

(** ** The stop of a tool-use block, in general *)

Lemma dict_get_del_other {V} (d : dict V) (k k' : string) :
  k' <> k -> dict_get (dict_del d k) k' = dict_get d k'.
Proof.
  intros Hne. induction d as [|[k0 v0] r IH]; simpl; [reflexivity|].
  destruct (String.eqb k0 k) eqn:E.
  - apply String.eqb_eq in E. subst k0.
    destruct (String.eqb k k') eqn:E'; [|reflexivity].
    apply String.eqb_eq in E'. congruence.
  - simpl. destruct (String.eqb k0 k'); [reflexivity|exact IH].
Qed.

Lemma dict_get_in_keys {V} (d : dict V) (k : string) (v : V) :
  dict_get d k = Some v -> In k (map fst d).
Proof.
  induction d as [|[k0 v0] r IH]; simpl; [discriminate|].
  destruct (String.eqb k0 k) eqn:E.
  - apply String.eqb_eq in E. auto.
  - auto.
Qed.

Lemma dict_get_del_same {V} (d : dict V) (k : string) :
  List.NoDup (map fst d) -> dict_get (dict_del d k) k = None.
Proof.
  induction d as [|[k0 v0] r IH]; simpl; intros Hnd; [reflexivity|].
  inversion Hnd as [|? ? Hnotin Hnd']; subst.
  destruct (String.eqb k0 k) eqn:E.
  - apply String.eqb_eq in E. subst k0.
    destruct (dict_get r k) eqn:Eg; [|reflexivity].
    exfalso. apply Hnotin. eapply dict_get_in_keys; eassumption.
  - simpl. rewrite E. auto.
Qed.

Lemma py_index_setitem {A} (l : list A) (i : Z) (x y : A) :
  py_index l i = Some y ->
  exists l', py_setitem l i x = Some l' /\ py_index l' i = Some x.
Proof.
  unfold py_index, py_setitem. intros H.
  destruct ((0 <=? i)%Z && (i <? Z.of_nat (length l))%Z)%bool eqn:E1.
  - eexists; split; [reflexivity|]. rewrite length_insert, E1.
    apply andb_prop in E1 as [E0 E1]. apply Z.leb_le in E0. apply Z.ltb_lt in E1.
    apply list_lookup_insert_eq. lia.
  - destruct ((- Z.of_nat (length l) <=? i)%Z && (i <? 0)%Z)%bool eqn:E2; [|discriminate].
    eexists; split; [reflexivity|]. rewrite length_insert, E1, E2.
    apply andb_prop in E2 as [E0 E2]. apply Z.leb_le in E0. apply Z.ltb_lt in E2.
    apply list_lookup_insert_eq. lia.
Qed.

(** C3, amended.  When the stop of a tool-use block is aggregated and the
    accumulated [partial_json] of the block is not valid JSON, the error is
    swallowed: the block is stored back with [partial_json] deleted and every
    other key, [input] among them, as it was.  The raw text is dropped, the
    response is not failed. *)
Theorem invalid_tool_input_is_dropped (json_loads : string -> option json)
    (a : aggregate) (d : dict json) (idx : Z) (blk : dict json) (raw : string) :
  jget d "type" = JStr "content_block_stop" ->
  block_at d a = Some (idx, JObj blk) ->
  dict_get blk "type" = Some (JStr "tool_use") ->
  dict_get blk "partial_json" = Some (JStr raw) ->
  json_loads raw = None ->
  List.NoDup (map fst blk) ->
  let blk' := dict_del blk "partial_json" in
  aggregate_data json_loads (JObj d) a = store_block idx (JObj blk') a /\
  py_index (final_content (aggregate_data json_loads (JObj d) a)) idx = Some (JObj blk') /\
  dict_get blk' "partial_json" = None /\
  (forall k, k <> "partial_json" -> dict_get blk' k = dict_get blk k).
Proof.
  intros Hty Hat Hblk Hpj Hbad Hnd blk'.
  assert (Heq : aggregate_data json_loads (JObj d) a = store_block idx (JObj blk') a).
  { unfold aggregate_data. rewrite Hty. simpl.
    unfold on_content_block_stop. rewrite Hat.
    assert (Ht : truthy (JObj blk) = true) by (destruct blk; [discriminate|reflexivity]).
    rewrite Ht, Hblk. simpl.
    unfold dict_has, jget, get_or. rewrite Hpj, Hbad. reflexivity. }
  split; [exact Heq|]. split; [|split].
  - rewrite Heq. unfold store_block, block_at in *.
    destruct (as_int _) as [i|]; [|discriminate].
    destruct (py_index (final_content a) i) as [item|] eqn:Ei; [|discriminate].
    injection Hat as -> ->.
    destruct (py_index_setitem _ _ (JObj blk') _ Ei) as (l' & Hset & Hget).
    rewrite Hset. exact Hget.
  - apply dict_get_del_same, Hnd.
  - intros k Hk. apply dict_get_del_other, Hk.
Qed.

(** A block as the deltas of [bad_input_events] leave it, and its stop. *)
Definition bad_block : dict json :=
  [("type", JStr "tool_use"); ("id", JStr "t1"); ("name", JStr "bash");
   ("input", JObj []); ("partial_json", JStr "{bad")].

Definition bad_block_stop : dict json :=
  [("type", JStr "content_block_stop"); ("index", JInt 0)].

Lemma invalid_tool_input_is_dropped_witness :
  py_index
    (final_content
       (aggregate_data (fun _ => None) (JObj bad_block_stop)
          (set_final_content [JObj bad_block] init_aggregate))) 0
  = Some (JObj [("type", JStr "tool_use"); ("id", JStr "t1"); ("name", JStr "bash");
                ("input", JObj [])]).
Proof.
  refine (proj1 (proj2 (invalid_tool_input_is_dropped (fun _ => None)
            (set_final_content [JObj bad_block] init_aggregate)
            bad_block_stop 0 bad_block "{bad" _ _ _ _ _ _))).
  - reflexivity.
  - reflexivity.
  - reflexivity.
  - reflexivity.
  - reflexivity.
  - repeat constructor; simpl; intuition discriminate.
Defined.

End ServerFacts.

(* ===================================================================== *)
(** * Properties of the authentication middleware *)
(* ===================================================================== *)

Module MiddlewareFacts.
Import Py Middleware.

(** ** [split] and [join] *)

Lemma split_nonempty c s : split c s <> [].
Proof.
  destruct s as [|a s]; simpl; [discriminate|].
  destruct (Ascii.eqb a c); [discriminate|].
  destruct (split c s); discriminate.
Qed.

(** The first field ends at the first separator. *)
Lemma split_first_field c (a rest : string) :
  contains_char c a = false ->
  split c (a +:+ String c rest) = a :: split c rest.
Proof.
  induction a as [|x a IH]; simpl; intros Hno.
  - rewrite Ascii.eqb_refl. reflexivity.
  - apply orb_false_elim in Hno as [Hx Ha].
    rewrite Hx, (IH Ha). reflexivity.
Qed.

Lemma join_cons sep (p : string) (ps : list string) :
  ps <> [] -> join sep (p :: ps) = p +:+ sep +:+ join sep ps.
Proof. destruct ps; [congruence|reflexivity]. Qed.

(** Joining what was split gives the string back, separators included. *)
Lemma join_split c (s : string) : join (String c "") (split c s) = s.
Proof.
  induction s as [|a s IH]; [reflexivity|].
  cbn [split]. destruct (Ascii.eqb a c) eqn:E.
  - apply Ascii.eqb_eq in E. subst a.
    rewrite join_cons by apply split_nonempty. rewrite IH. reflexivity.
  - destruct (split c s) as [|p ps] eqn:Es; [exfalso; eapply split_nonempty; eauto|].
    destruct ps as [|q qs].
    + simpl in *. congruence.
    + rewrite join_cons in * by discriminate. rewrite <- IH. reflexivity.
Qed.

Lemma parse_three_fields (a b r : string) :
  contains_char ":" a = false ->
  contains_char ":" b = false ->
  _parse_bearer_token (a +:+ ":" +:+ b +:+ ":" +:+ r) = (a, b, r).
Proof.
  intros Ha Hb. unfold _parse_bearer_token.
  change (a +:+ ":" +:+ b +:+ ":" +:+ r)
    with (a +:+ String ":" (b +:+ String ":" r)).
  rewrite (split_first_field _ a _ Ha), (split_first_field _ b _ Hb).
  destruct (split ":" r) as [|p ps] eqn:Es; [exfalso; eapply split_nonempty; eauto|].
  simpl length. simpl Nat.ltb. cbv iota. simpl nth. simpl skipn.
  rewrite <- Es, join_split. reflexivity.
Qed.

Section Auth.

Variable _sha256 : string -> string.
Variable oidc_post : nat -> string -> string -> string -> option string.
Variable now : Z.

Local Abbreviation auth_middleware := (auth_middleware _sha256 oidc_post now).

(** C5. The secret is cut at its first two colons: the two leading fields
    are the client id and the client secret, and everything after the second
    colon, further colons included, is the refresh token.  On a cache miss a
    secret of which one of the three parts is empty is answered with an
    [HTTPException] of status 401, and the state is left as it was: no entry
    is stored and no token-refresh request is posted. *)
Theorem bearer_secret_parts :
  (forall a b r : string,
     contains_char ":" a = false ->
     contains_char ":" b = false ->
     _parse_bearer_token (a +:+ ":" +:+ b +:+ ":" +:+ r) = (a, b, r)) /\
  (forall (authorization x_api_key : option string) (w : world)
          (token client_id client_secret refresh_token : string),
     header_token authorization x_api_key = Some token ->
     TOKEN_MAP w !! _sha256 token = None ->
     _parse_bearer_token token = (client_id, client_secret, refresh_token) ->
     client_id = "" \/ client_secret = "" \/ refresh_token = "" ->
     exists detail,
       auth_middleware authorization x_api_key w
       = (inl (mkHTTPException 401 detail), w)).
Proof.
  split; [exact parse_three_fields|].
  intros authorization x_api_key w token c s r Htok Hmiss Hparse Hempty.
  unfold Middleware.auth_middleware. rewrite Htok.
  destruct (negb (nonempty token)); [eexists; reflexivity|].
  rewrite Hmiss, Hparse.
  assert (Hbad : (negb (nonempty c) || negb (nonempty s) || negb (nonempty r))%bool = true).
  { unfold nonempty. destruct Hempty as [->|[->| ->]]; simpl;
      rewrite ?orb_true_r; reflexivity. }
  rewrite Hbad. eexists; reflexivity.
Qed.

(** C9. A secret whose hash is in the cache is resolved from the cache:
    the cached access token is returned, the map is not changed and no
    token-refresh request is posted; resolving it a second time gives the
    same answer in the same way. *)
Theorem warm_cache_resolve (authorization x_api_key : option string) (w : world)
    (token : string) (entry : token_entry) :
  header_token authorization x_api_key = Some token ->
  token <> "" ->
  TOKEN_MAP w !! _sha256 token = Some entry ->
  let first := auth_middleware authorization x_api_key w in
  let second := auth_middleware authorization x_api_key (snd first) in
  fst first = inr {| acc_accessToken := accessToken entry;
                     acc_clientId := clientId entry;
                     acc_clientSecret := clientSecret entry;
                     acc_refreshToken := refreshToken entry |} /\
  fst second = fst first /\
  snd first = w /\
  snd second = w /\
  oidc_calls (snd second) = oidc_calls w.
Proof.
  intros Htok Hne Hhit.
  assert (H : auth_middleware authorization x_api_key w
              = (inr {| acc_accessToken := accessToken entry;
                        acc_clientId := clientId entry;
                        acc_clientSecret := clientSecret entry;
                        acc_refreshToken := refreshToken entry |}, w)).
  { unfold Middleware.auth_middleware. rewrite Htok.
    apply String.eqb_neq in Hne. unfold nonempty. rewrite Hne. simpl.
    rewrite Hhit. reflexivity. }
  cbv zeta. rewrite H. simpl. rewrite H. simpl. auto.
Qed.

(** A miss with a well-formed secret and a successful refresh posts one
    request, stores the entry under the hash of the secret and returns the
    new access token; the next resolution of the same secret is served from
    the cache, with the same answer and no further request. *)
Theorem cold_then_warm (authorization x_api_key : option string) (w : world)
    (token client_id client_secret refresh_token access_token : string) :
  header_token authorization x_api_key = Some token ->
  token <> "" ->
  TOKEN_MAP w !! _sha256 token = None ->
  _parse_bearer_token token = (client_id, client_secret, refresh_token) ->
  client_id <> "" -> client_secret <> "" -> refresh_token <> "" ->
  oidc_post (length (oidc_calls w)) client_id client_secret refresh_token
    = Some access_token ->
  access_token <> "" ->
  let first := auth_middleware authorization x_api_key w in
  let second := auth_middleware authorization x_api_key (snd first) in
  fst first = inr {| acc_accessToken := access_token;
                     acc_clientId := client_id;
                     acc_clientSecret := client_secret;
                     acc_refreshToken := refresh_token |} /\
  oidc_calls (snd first) = oidc_calls w ++ [(client_id, client_secret, refresh_token)] /\
  fst second = fst first /\
  snd second = snd first.
Proof.
  intros Htok Hne Hmiss Hparse Hc Hs Hr Hpost Hat.
  apply String.eqb_neq in Hne, Hc, Hs, Hr, Hat.
  assert (H1 : auth_middleware authorization x_api_key w
               = (inr {| acc_accessToken := access_token;
                         acc_clientId := client_id;
                         acc_clientSecret := client_secret;
                         acc_refreshToken := refresh_token |},
                  {| TOKEN_MAP :=
                       <[_sha256 token := {| accessToken := access_token;
                                             refreshToken := refresh_token;
                                             clientId := client_id;
                                             clientSecret := client_secret;
                                             lastRefresh := now |}]> (TOKEN_MAP w);
                     oidc_calls := oidc_calls w
                                   ++ [(client_id, client_secret, refresh_token)] |})).
  { unfold Middleware.auth_middleware, _handle_token_refresh, nonempty.
    rewrite Htok, Hmiss, Hparse, Hpost, Hne, Hc, Hs, Hr, Hat. reflexivity. }
  cbv zeta. rewrite H1. simpl. repeat split.
  - unfold Middleware.auth_middleware, nonempty. rewrite Htok, Hne. simpl.
    rewrite lookup_insert_eq. reflexivity.
  - unfold Middleware.auth_middleware, nonempty. rewrite Htok, Hne. simpl.
    rewrite lookup_insert_eq. reflexivity.
Qed.

End Auth.

(** A cache that holds the entry of the secret [id:sec:tok:en], under the
    identity as hash. *)
Definition sample_entry : token_entry :=
  {| accessToken := "access-1"; refreshToken := "tok:en"; clientId := "id";
     clientSecret := "sec"; lastRefresh := 0 |}.

Definition warm_world : world :=
  {| TOKEN_MAP := {[ "id:sec:tok:en" := sample_entry ]}; oidc_calls := [] |}.

Definition cold_world : world := {| TOKEN_MAP := ∅; oidc_calls := [] |}.

Lemma bearer_secret_parts_witness :
  _parse_bearer_token "id:sec:tok:en" = ("id", "sec", "tok:en") /\
  exists detail,
    auth_middleware (fun s => s) (fun _ _ _ _ => Some "access-1") 0
      None (Some "id:sec") cold_world
    = (inl (mkHTTPException 401 detail), cold_world).
Proof.
  split.
  - apply (proj1 (bearer_secret_parts (fun s => s) (fun _ _ _ _ => Some "access-1") 0)
             "id" "sec" "tok:en"); reflexivity.
  - apply (proj2 (bearer_secret_parts (fun s => s) (fun _ _ _ _ => Some "access-1") 0)
             None (Some "id:sec") cold_world "id:sec" "id" "sec" "").
    + reflexivity.
    + apply lookup_empty.
    + reflexivity.
    + right. right. reflexivity.
Defined.

Lemma warm_cache_resolve_witness :
  fst (auth_middleware (fun s => s) (fun _ _ _ _ => None) 0
         (Some "Bearer id:sec:tok:en") None warm_world)
  = inr {| acc_accessToken := "access-1"; acc_clientId := "id";
           acc_clientSecret := "sec"; acc_refreshToken := "tok:en" |}.
Proof.
  refine (proj1 (warm_cache_resolve (fun s => s) (fun _ _ _ _ => None) 0
            (Some "Bearer id:sec:tok:en") None warm_world "id:sec:tok:en" sample_entry
            _ _ _)).
  - reflexivity.
  - discriminate.
  - apply lookup_singleton_eq.
Defined.

Lemma cold_then_warm_witness :
  fst (auth_middleware (fun s => s) (fun _ _ _ _ => Some "access-1") 0
         None (Some "id:sec:tok:en") cold_world)
  = inr {| acc_accessToken := "access-1"; acc_clientId := "id";
           acc_clientSecret := "sec"; acc_refreshToken := "tok:en" |}.
Proof.
  refine (proj1 (cold_then_warm (fun s => s) (fun _ _ _ _ => Some "access-1") 0
            None (Some "id:sec:tok:en") cold_world "id:sec:tok:en"
            "id" "sec" "tok:en" "access-1" _ _ _ _ _ _ _ _ _)).
  - reflexivity.
  - discriminate.
  - apply lookup_empty.
  - reflexivity.
  - discriminate.
  - discriminate.
  - discriminate.
  - reflexivity.
  - discriminate.
Defined.

End MiddlewareFacts.

(* ===================================================================== *)
(** * Properties of the request converter *)
(* ===================================================================== *)

Module ConverterFacts.
Import Py Converter.

(** ** Model mapping *)

(** [s] starts with [p] up to the case of its ASCII letters. *)
Definition starts_with_ignoring_case (p s : string) : Prop :=
  exists q rest, s = q +:+ rest /\ lower q = p.

Definition names_sonnet_45 (s : string) : Prop :=
  starts_with_ignoring_case "claude-sonnet-4.5" s \/
  starts_with_ignoring_case "claude-sonnet-4-5" s.

Lemma lower_app (a b : string) : lower (a +:+ b) = lower a +:+ lower b.
Proof. induction a as [|x a IH]; simpl; [reflexivity|]. rewrite IH. reflexivity. Qed.

Lemma prefix_app (p s : string) : String.prefix p (p +:+ s) = true.
Proof.
  induction p as [|x p IH]; simpl; [destruct s; reflexivity|].
  destruct (ascii_dec x x); [exact IH|congruence].
Qed.

Lemma prefix_lower (p : string) : forall s,
  String.prefix p (lower s) = true <-> starts_with_ignoring_case p s.
Proof.
  induction p as [|x p IH]; intros s; split.
  - intros _. exists "", s. split; reflexivity.
  - intros _. destruct (lower s); reflexivity.
  - destruct s as [|a s]; simpl; [discriminate|].
    destruct (ascii_dec x (lower_ascii a)) as [->|]; [|discriminate].
    intros H. apply IH in H as (q & rest & -> & <-).
    exists (String a q), rest. split; reflexivity.
  - intros (q & rest & -> & <-). rewrite lower_app. apply prefix_app.
Qed.

(** C8. [map_model_name] answers the 4.5 id exactly for the strings that
    start, up to case, with [claude-sonnet-4.5] or [claude-sonnet-4-5], and
    the base id for every other string; so the two spellings of 4.5 map to
    the 4.5 id and [claude-sonnet-4] to the base id. *)
Theorem map_model_name_cases (claude_model : string) :
  ((names_sonnet_45 claude_model /\ map_model_name claude_model = "claude-sonnet-4.5") \/
   (~ names_sonnet_45 claude_model /\ map_model_name claude_model = "claude-sonnet-4")) /\
  map_model_name "claude-sonnet-4.5" = "claude-sonnet-4.5" /\
  map_model_name "claude-sonnet-4-5" = "claude-sonnet-4.5" /\
  map_model_name "claude-sonnet-4" = "claude-sonnet-4".
Proof.
  split; [|repeat split].
  unfold map_model_name, names_sonnet_45.
  destruct (String.prefix "claude-sonnet-4.5" (lower claude_model)) eqn:E1.
  { left. split; [|reflexivity]. left. apply prefix_lower, E1. }
  destruct (String.prefix "claude-sonnet-4-5" (lower claude_model)) eqn:E2.
  { left. split; [|reflexivity]. right. apply prefix_lower, E2. }
  right. split; [|reflexivity].
  intros [H|H]; apply prefix_lower in H; congruence.
Qed.

(** ** Merging a run of user turns *)

Definition text_block (text : string) : dict json :=
  [("type", JStr "text"); ("text", JStr text)].

Definition image_block (data : string) : dict json :=
  [("type", JStr "image");
   ("source", JObj [("type", JStr "base64"); ("media_type", JStr "image/png");
                    ("data", JStr data)])].

Definition png (data : string) : json :=
  JObj [("format", JStr "png"); ("source", JObj [("bytes", JStr data)])].

(** Three consecutive user turns: the first two carry an image each, the
    third is text only. *)
Definition image_run : list ClaudeMessage :=
  [ {| role := "user"; msg_content := CList [text_block "first"; image_block "AAAA"] |};
    {| role := "user"; msg_content := CList [text_block "second"; image_block "BBBB"] |};
    {| role := "user"; msg_content := CStr "third" |} ].

(** C7 (the code at the failing input).  The run [image_run] is merged
    into one history entry whose text joins the three texts with blank
    lines, and whose images are those of the first and of the second turn:
    the image of the first turn is kept although the last two turns of the
    run are the second and the third.  [merge_user_messages] collects the
    image lists of the turns that have images and keeps the last two of
    these. *)
Theorem image_run_merged (uuid4 : nat -> string) :
  exists merged,
    process_history uuid4 image_run 0 = Some [[("userInputMessage", JObj merged)]] /\
    jget merged "content" = JStr ("first" +:+ NL +:+ NL +:+ "second" +:+ NL +:+ NL +:+ "third") /\
    jget merged "images" = JArr [png "AAAA"; png "BBBB"].
Proof. eexists. repeat split. Qed.

(** [merge_user_messages] in general, for messages as the first pass of
    [process_history] builds them: the [content] of each is a [str], and
    [images] is absent or a non-empty list. *)

Lemma merge_fold (msgs : list (dict json)) : forall st,
  all_contents (fold_left merge_step msgs st)
  = all_contents st
    ++ List.filter truthy (map (fun m => get_or m "content" (JStr "")) msgs) /\
  all_images (fold_left merge_step msgs st)
  = all_images st ++ List.filter truthy (map (fun m => jget m "images") msgs).
Proof.
  induction msgs as [|m msgs IH]; intros st; simpl.
  - rewrite !app_nil_r. split; reflexivity.
  - destruct (IH (merge_step st m)) as [-> ->]. unfold merge_step. simpl.
    destruct (truthy (get_or m "content" (JStr "")));
      destruct (truthy (jget m "images")); rewrite <- ?app_assoc; split; reflexivity.
Qed.

Definition nonempty_str (s : string) : bool := negb (String.eqb s "").

Definition nonempty_images (l : list json) : bool :=
  match l with [] => false | _ => true end.

(** [images] of a message that carries the images [l]. *)
Definition images_value (l : list json) : json :=
  match l with [] => JNull | _ => JArr l end.

(** The last two items of a list. *)
Definition last_two {A} (l : list A) : list A := skipn (length l - 2) l.

Lemma filter_truthy_strs (texts : list string) :
  List.filter truthy (map JStr texts) = map JStr (List.filter nonempty_str texts).
Proof.
  induction texts as [|t ts IH]; simpl; [reflexivity|].
  unfold nonempty_str at 1. destruct (negb (String.eqb t "")); simpl; rewrite IH; reflexivity.
Qed.

Lemma filter_truthy_images (ls : list (list json)) :
  List.filter truthy (map images_value ls) = map JArr (List.filter nonempty_images ls).
Proof.
  induction ls as [|l ls IH]; simpl; [reflexivity|].
  destruct l as [|x l]; simpl; rewrite IH; reflexivity.
Qed.

Lemma all_str_strs (texts : list string) : all_str (map JStr texts) = Some texts.
Proof. induction texts as [|t ts IH]; simpl; [reflexivity|]. rewrite IH. reflexivity. Qed.

Lemma extend_all_lists (ls : list (list json)) : extend_all (map JArr ls) = Some (concat ls).
Proof. induction ls as [|l ls IH]; simpl; [reflexivity|]. rewrite IH. reflexivity. Qed.

Lemma py_slice_last_two {A} (l : list A) :
  py_slice l (-2) (Z.of_nat (length l)) = last_two l.
Proof.
  unfold py_slice, last_two, clamp_index.
  change (-2 <? 0)%Z with true. cbv iota.
  destruct (Z.of_nat (length l) <? 0)%Z eqn:E; [apply Z.ltb_lt in E; lia|].
  replace (Z.to_nat (Z.max 0 (Z.min (Z.of_nat (length l)) (-2 + Z.of_nat (length l)))))
    with (length l - 2) by lia.
  apply firstn_all2. rewrite length_skipn. lia.
Qed.

(** The merged entry joins the non-empty texts of the run with blank
    lines, and keeps the images of the last two turns of the run that carry
    images. *)
Theorem merge_user_messages_keeps (msgs : list (dict json)) (texts : list string)
    (image_lists : list (list json)) :
  msgs <> [] ->
  map (fun m => get_or m "content" (JStr "")) msgs = map JStr texts ->
  map (fun m => jget m "images") msgs = map images_value image_lists ->
  exists merged,
    merge_user_messages msgs = Some merged /\
    jget merged "content" = JStr (join (NL +:+ NL) (List.filter nonempty_str texts)) /\
    jget merged "images"
      = images_value (concat (last_two (List.filter nonempty_images image_lists))).
Proof.
  intros Hne Htexts Himgs. unfold merge_user_messages.
  destruct msgs as [|m0 msgs0] eqn:Em; [congruence|]. rewrite <- Em in *. clear Em Hne m0 msgs0.
  match goal with |- context [fold_left merge_step msgs ?st] =>
    destruct (merge_fold msgs st) as [Hc Hi] end.
  simpl in Hc, Hi. rewrite Htexts, filter_truthy_strs in Hc.
  rewrite Himgs, filter_truthy_images in Hi.
  rewrite Hc, Hi. unfold join_json. rewrite all_str_strs. simpl.
  destruct (List.filter nonempty_images image_lists) as [|l ls] eqn:Ef.
  - eexists. repeat split.
  - set (kept := l :: ls) in *.
    assert (HF : map JArr kept = JArr l :: map JArr ls) by reflexivity.
    destruct (map JArr kept) as [|j js] eqn:Ej; [discriminate|].
    rewrite <- Ej. rewrite py_slice_last_two.
    assert (Hl2 : last_two (map JArr kept) = map JArr (last_two kept)).
    { unfold last_two. rewrite length_map, skipn_map. reflexivity. }
    rewrite Hl2, extend_all_lists. simpl.
    destruct (concat (last_two kept)) as [|x xs]; eexists; repeat split.
Qed.

Lemma merge_user_messages_keeps_witness :
  exists merged,
    merge_user_messages
      [[("content", JStr "first"); ("origin", JStr "CLI"); ("images", JArr [png "AAAA"])];
       [("content", JStr "second"); ("origin", JStr "CLI"); ("images", JArr [png "BBBB"])];
       [("content", JStr ""); ("origin", JStr "CLI"); ("images", JArr [png "CCCC"])];
       [("content", JStr "fourth"); ("origin", JStr "CLI")]]
    = Some merged /\
    jget merged "content"
      = JStr ("first" +:+ NL +:+ NL +:+ "second" +:+ NL +:+ NL +:+ "fourth") /\
    jget merged "images" = JArr [png "BBBB"; png "CCCC"].
Proof.
  refine (merge_user_messages_keeps _ ["first"; "second"; ""; "fourth"]
            [[png "AAAA"]; [png "BBBB"]; [png "CCCC"]; []] _ _ _).
  - discriminate.
  - reflexivity.
  - reflexivity.
Defined.

(** ** The body of the current turn *)

(** The [content] of the current message in a converted request. *)
Definition body_of (out : dict json) : option string :=
  match jget out "conversationState" with
  | JObj cs =>
      match jget cs "currentMessage" with
      | JObj cm =>
          match jget cm "userInputMessage" with
          | JObj uim =>
              match jget uim "content" with
              | JStr body => Some body
              | _ => None
              end
          | _ => None
          end
      | _ => None
      end
  | _ => None
  end.

(** The three blocks of a body. *)
Definition system_block (sys_text : string) : string :=
  "--- SYSTEM PROMPT BEGIN ---" +:+ NL +:+ sys_text +:+ NL +:+
  "--- SYSTEM PROMPT END ---" +:+ NL +:+ NL.

Definition documentation_block (long_tools : list (string * string)) : string :=
  "--- TOOL DOCUMENTATION BEGIN ---" +:+ NL +:+ join "" (map tool_doc long_tools) +:+
  "--- TOOL DOCUMENTATION END ---" +:+ NL +:+ NL.

Definition user_message_block (timestamp prompt_content : string) : string :=
  "--- CONTEXT ENTRY BEGIN ---" +:+ NL +:+
  "Current time: " +:+ timestamp +:+ NL +:+
  "--- CONTEXT ENTRY END ---" +:+ NL +:+ NL +:+
  "--- USER MESSAGE BEGIN ---" +:+ NL +:+
  prompt_content +:+ NL +:+
  "--- USER MESSAGE END ---".

Lemma append_assoc (a b c : string) : (a +:+ b) +:+ c = a +:+ (b +:+ c).
Proof.
  induction a as [|x a IH]; [reflexivity|].
  change (String x ((a +:+ b) +:+ c) = String x (a +:+ (b +:+ c))).
  rewrite IH. reflexivity.
Qed.

Lemma append_nil_r (a : string) : a +:+ "" = a.
Proof.
  induction a as [|x a IH]; [reflexivity|].
  change (String x (a +:+ "") = String x a). rewrite IH. reflexivity.
Qed.

Lemma system_text_truthy (c : content) (sys_text : string) :
  system_text c = Some sys_text -> sys_text <> "" -> system_truthy (Some c) = true.
Proof.
  destruct c as [s|[|b bs]]; simpl; intros H Hne.
  - injection H as ->. apply String.eqb_neq in Hne. rewrite Hne. reflexivity.
  - injection H as <-. congruence.
  - reflexivity.
Qed.

(** [format_content] for a request with a non-empty system text. *)
Lemma format_content_with_system timestamp prompt_content has_tool_result long_tools
    (c : content) (sys_text : string) :
  system_text c = Some sys_text -> sys_text <> "" ->
  format_content timestamp prompt_content has_tool_result long_tools (Some c)
  = Some (
      if (has_tool_result && String.eqb prompt_content "")%bool then
        match long_tools with
        | [] => ""
        | _ => system_block sys_text +:+ documentation_block long_tools
        end
      else
        match long_tools with
        | [] => system_block sys_text +:+ user_message_block timestamp prompt_content
        | _ => system_block sys_text +:+ documentation_block long_tools
               +:+ user_message_block timestamp prompt_content
        end).
Proof.
  intros Hsys Hne. unfold format_content.
  rewrite (system_text_truthy c sys_text Hsys Hne).
  apply String.eqb_neq in Hne.
  unfold documentation_block, system_block, user_message_block.
  destruct (has_tool_result && String.eqb prompt_content "")%bool;
    destruct long_tools as [|t ts];
    try (set (docs := join "" (map tool_doc (t :: ts))); clearbody docs);
    simpl; rewrite ?Hsys; simpl; rewrite ?Hne; simpl;
    rewrite ?append_assoc, ?append_nil_r; reflexivity.
Qed.

Section Body.

Variable uuid4 : nat -> string.
Variable timestamp : string.

(** C6, amended.  For a request with a non-empty system text whose
    conversion succeeds, the body of the current turn is, in this order, the
    SYSTEM PROMPT block, the TOOL DOCUMENTATION block when a tool description
    was truncated, and the wrapped user message; the wrapped user message is
    left out when the turn has only a tool result and no prompt text, and
    the body is then empty only if no tool description was truncated
    (otherwise it is the SYSTEM PROMPT block and the TOOL DOCUMENTATION
    block). *)
Theorem body_nesting (req : ClaudeRequest) (conversation_id : option string)
    (out : dict json) (c : content) (sys_text prompt_content : string)
    (tool_results : option (list (dict json))) (has_tool_result : bool)
    (images : option (list json)) :
  system req = Some c ->
  system_text c = Some sys_text ->
  sys_text <> "" ->
  current_turn (List.last (map Some (messages req)) None)
    = Some (prompt_content, tool_results, has_tool_result, images) ->
  convert_claude_to_amazonq_request uuid4 timestamp req conversation_id = Some out ->
  body_of out
  = Some (
      if (has_tool_result && String.eqb prompt_content "")%bool then
        match long_desc_tools (tools req) with
        | [] => ""
        | long_tools => system_block sys_text +:+ documentation_block long_tools
        end
      else
        match long_desc_tools (tools req) with
        | [] => system_block sys_text +:+ user_message_block timestamp prompt_content
        | long_tools =>
            system_block sys_text +:+ documentation_block long_tools
            +:+ user_message_block timestamp prompt_content
        end).
Proof.
  intros Hsys Htext Hne Hturn Hconv.
  unfold convert_claude_to_amazonq_request in Hconv.
  destruct conversation_id as [cid|];
    rewrite Hturn in Hconv; simpl in Hconv;
    rewrite Hsys, (format_content_with_system _ _ _ _ c sys_text Htext Hne) in Hconv;
    simpl in Hconv;
    destruct (process_history _ _ _) as [hist|]; simpl in Hconv; try discriminate;
    injection Hconv as <-;
    destruct (nonempty_list images); simpl;
    destruct (long_desc_tools (tools req)); reflexivity.
Qed.

End Body.

(** ** A turn with only a tool result, and a truncated tool description *)

Definition long_description : string :=
  string_of_list_ascii (repeat "d"%char (Z.to_nat 10241)).

Definition documented_tool : ClaudeTool :=
  {| tool_name := "big"; description := Some long_description; input_schema := [] |}.

Definition tool_result_request : ClaudeRequest :=
  {| model := "claude-sonnet-4";
     messages :=
       [ {| role := "user";
            msg_content :=
              CList [[("type", JStr "tool_result"); ("tool_use_id", JStr "t1");
                      ("content", JStr "done")]] |} ];
     max_tokens := 8192;
     tools := Some [documented_tool];
     stream := false;
     system := Some (CStr "Be brief.") |}.

Definition sample_time : string := "Tuesday, 2026-11-03T10:00:00.000+01:00".

(** C6 as stated fails on [tool_result_request]: the turn has only a tool
    result and no prompt text, and the body is not empty; it holds the
    SYSTEM PROMPT block and the TOOL DOCUMENTATION block. *)
Lemma tool_result_only_body_is_not_empty :
  exists out,
    convert_claude_to_amazonq_request (fun _ => "m0") sample_time
      tool_result_request (Some "conv-1") = Some out /\
    current_turn (List.last (map Some (messages tool_result_request)) None)
      = Some ("", Some [[("toolUseId", JStr "t1");
                         ("content", JArr [JObj [("text", JStr "done")]]);
                         ("status", JStr "success")]], true, None) /\
    body_of out
      = Some (system_block "Be brief."
              +:+ documentation_block [("big", long_description)]) /\
    body_of out <> Some "".
Proof.
  eexists. split; [vm_compute; reflexivity|].
  split; [reflexivity|].
  split; [vm_compute; reflexivity|].
  vm_compute. discriminate.
Qed.

Definition greeting_request : ClaudeRequest :=
  {| model := "claude-sonnet-4";
     messages := [ {| role := "user"; msg_content := CStr "hi" |} ];
     max_tokens := 8192;
     tools := None;
     stream := false;
     system := Some (CStr "Be brief.") |}.

Lemma body_nesting_witness :
  exists out,
    convert_claude_to_amazonq_request (fun _ => "m0") sample_time
      greeting_request (Some "conv-1") = Some out /\
    body_of out
      = Some (system_block "Be brief." +:+ user_message_block sample_time "hi").
Proof.
  eexists. split; [reflexivity|].
  refine (body_nesting (fun _ => "m0") sample_time greeting_request (Some "conv-1") _
            (CStr "Be brief.") "Be brief." "hi" None false None _ _ _ _ _).
  - reflexivity.
  - reflexivity.
  - discriminate.
  - reflexivity.
  - reflexivity.
Defined.

End ConverterFacts.

(* ===================================================================== *)
(** * The layout of a frame, and reading it back *)
(* ===================================================================== *)

(** The decoder has no encoder beside it.  The layout it reads is written
    down here from the offsets of [parse_headers] and [parse_message], to
    state what the decoder returns on bytes of that shape. *)

Module FrameLayout.
Import Py Parser ParserFacts.

Definition byte_of_Z (z : Z) : byte :=
  match Byte.of_N (Z.to_N z) with Some b => b | None => x00 end.

Lemma byte_Z_of_Z z : (0 <= z < 256)%Z -> byte_Z (byte_of_Z z) = z.
Proof.
  intros Hz. unfold byte_Z, byte_of_Z.
  destruct (Byte.of_N (Z.to_N z)) as [b|] eqn:E.
  - apply Byte.to_of_N in E. rewrite E. lia.
  - apply Byte.of_N_None_iff in E. lia.
Qed.

Definition be16 (n : Z) : list byte :=
  [byte_of_Z (n / 256); byte_of_Z (n mod 256)].

Definition be32 (n : Z) : list byte :=
  [byte_of_Z (n / 16777216); byte_of_Z (n / 65536 mod 256);
   byte_of_Z (n / 256 mod 256); byte_of_Z (n mod 256)].

Lemma unpack_be16 n : (0 <= n < 65536)%Z -> unpack_be (be16 n) = n.
Proof.
  intros Hn. unfold unpack_be, be16. simpl.
  rewrite !byte_Z_of_Z.
  - pose proof (Z.div_mod n 256). lia.
  - apply Z.mod_pos_bound. lia.
  - split; [apply Z.div_pos; lia | apply Z.div_lt_upper_bound; lia].
Qed.

Lemma unpack_be32 n : (0 <= n < 4294967296)%Z -> unpack_be (be32 n) = n.
Proof.
  intros Hn. unfold unpack_be, be32. simpl.
  rewrite !byte_Z_of_Z.
  - Z.div_mod_to_equations. lia.
  - apply Z.mod_pos_bound. lia.
  - apply Z.mod_pos_bound. lia.
  - apply Z.mod_pos_bound. lia.
  - split; [apply Z.div_pos; lia | apply Z.div_lt_upper_bound; lia].
Qed.

Lemma py_slice_mid {A} (a b c : list A) (i j : Z) :
  i = len a -> j = (len a + len b)%Z -> py_slice (a ++ b ++ c) i j = b.
Proof.
  intros -> ->. unfold py_slice, len.
  rewrite !clamp_index_in_range by lia.
  rewrite !length_app.
  rewrite !Z.min_r by lia.
  replace (Z.of_nat (length a) + Z.of_nat (length b) - Z.of_nat (length a))%Z
    with (Z.of_nat (length b)) by lia.
  rewrite !Nat2Z.id.
  rewrite drop_app_length, take_app_length. reflexivity.
Qed.

Lemma byte_at_app (a : list byte) (x : byte) (c : list byte) (i : Z) :
  i = len a -> byte_at (a ++ x :: c) i = byte_Z x.
Proof.
  intros ->. unfold byte_at, len. rewrite Nat2Z.id.
  rewrite app_nth2 by lia. rewrite Nat.sub_diag. reflexivity.
Qed.


Record header_entry : Type := {
  entry_name : list byte;
  entry_type : byte;
  entry_value : list byte
}.

Definition entry_bytes (e : header_entry) : list byte :=
  [byte_of_Z (len (entry_name e))] ++ entry_name e ++ [entry_type e]
  ++ be16 (len (entry_value e)) ++ entry_value e.

Definition entry_fits (e : header_entry) : Prop :=
  (len (entry_name e) < 256)%Z /\ (len (entry_value e) < 65536)%Z.

Section Layout.

Variable decode_utf8 : list byte -> option string.
Variable json_loads : string -> option json.

Definition entry_read (e : header_entry) : option (string * header_value) :=
  match decode_utf8 (entry_name e) with
  | None => None
  | Some name =>
      if (byte_Z (entry_type e) =? 7)%Z
      then option_map (fun s => (name, HStr s)) (decode_utf8 (entry_value e))
      else Some (name, HBytes (entry_value e))
  end.

Definition set_all (hs : dict header_value) (nvs : list (string * header_value))
    : dict header_value :=
  fold_left (fun hs nv => dict_set hs (fst nv) (snd nv)) nvs hs.

Lemma parse_headers_loop_S fuel data offset hs :
  parse_headers_loop decode_utf8 (S fuel) data offset hs =
      if negb (offset <? len data)%Z then Ok hs else
      if (len data <? offset + 1 + byte_at data offset)%Z then Ok hs else
      match decode_utf8 (py_slice data (offset + 1) (offset + 1 + byte_at data offset)) with
      | None => Raise
      | Some name =>
          if (len data <=? offset + 1 + byte_at data offset)%Z then Ok hs else
          if (len data <? offset + 1 + byte_at data offset + 1 + 2)%Z then Ok hs else
          if (len data <? offset + 1 + byte_at data offset + 1 + 2
                + unpack_be (py_slice data (offset + 1 + byte_at data offset + 1)
                                    (offset + 1 + byte_at data offset + 1 + 2)))%Z
          then Ok hs else
          match
            (if (byte_at data (offset + 1 + byte_at data offset) =? 7)%Z
             then option_map HStr
                    (decode_utf8
                       (py_slice data (offset + 1 + byte_at data offset + 1 + 2)
                          (offset + 1 + byte_at data offset + 1 + 2
                           + unpack_be (py_slice data (offset + 1 + byte_at data offset + 1)
                                    (offset + 1 + byte_at data offset + 1 + 2)))))
             else Some (HBytes
                       (py_slice data (offset + 1 + byte_at data offset + 1 + 2)
                          (offset + 1 + byte_at data offset + 1 + 2
                           + unpack_be (py_slice data (offset + 1 + byte_at data offset + 1)
                                    (offset + 1 + byte_at data offset + 1 + 2))))))
          with
          | None => Raise
          | Some v =>
              parse_headers_loop decode_utf8 fuel data
                (offset + 1 + byte_at data offset + 1 + 2
                 + unpack_be (py_slice data (offset + 1 + byte_at data offset + 1)
                                    (offset + 1 + byte_at data offset + 1 + 2)))%Z
                (dict_set hs name v)
          end
      end.
Proof. reflexivity. Qed.

Lemma len_entry_bytes e :
  len (entry_bytes e) = (len (entry_name e) + len (entry_value e) + 4)%Z.
Proof. unfold entry_bytes, be16, len. rewrite !length_app. simpl. lia. Qed.

Lemma parse_headers_loop_entry fuel pre e rest hs :
  entry_fits e ->
  parse_headers_loop decode_utf8 (S fuel) (pre ++ entry_bytes e ++ rest) (len pre) hs =
    match entry_read e with
    | None => Raise
    | Some nv =>
        parse_headers_loop decode_utf8 fuel (pre ++ entry_bytes e ++ rest)
          (len (pre ++ entry_bytes e)) (dict_set hs (fst nv) (snd nv))
    end.
Proof.
  intros [Hn Hv].
  pose proof (len_nonneg (entry_name e)) as Hn0.
  pose proof (len_nonneg (entry_value e)) as Hv0.
  pose proof (len_nonneg pre) as Hp0.
  pose proof (len_nonneg rest) as Hr0.
  set (data := pre ++ entry_bytes e ++ rest).
  assert (Hlen : len data = (len pre + len (entry_name e) + len (entry_value e) + 4 + len rest)%Z).
  { unfold data. rewrite !len_app, len_entry_bytes. lia. }
  assert (H1 : byte_at data (len pre) = len (entry_name e)).
  { unfold data, entry_bytes. simpl. rewrite byte_at_app by reflexivity.
    apply byte_Z_of_Z. lia. }
  assert (H2 : py_slice data (len pre + 1) (len pre + 1 + len (entry_name e)) = entry_name e).
  { replace data with ((pre ++ [byte_of_Z (len (entry_name e))]) ++ entry_name e
                       ++ ([entry_type e] ++ be16 (len (entry_value e)) ++ entry_value e ++ rest)).
    - apply py_slice_mid; rewrite len_app; reflexivity.
    - unfold data, entry_bytes. rewrite <- !app_assoc. reflexivity. }
  assert (H3 : byte_at data (len pre + 1 + len (entry_name e)) = byte_Z (entry_type e)).
  { replace data with ((pre ++ [byte_of_Z (len (entry_name e))] ++ entry_name e)
                       ++ entry_type e :: (be16 (len (entry_value e)) ++ entry_value e ++ rest)).
    - apply byte_at_app. rewrite !len_app. unfold len. simpl. lia.
    - unfold data, entry_bytes. rewrite <- !app_assoc. reflexivity. }
  assert (H4 : py_slice data (len pre + 1 + len (entry_name e) + 1)
                 (len pre + 1 + len (entry_name e) + 1 + 2) = be16 (len (entry_value e))).
  { replace data with ((pre ++ [byte_of_Z (len (entry_name e))] ++ entry_name e ++ [entry_type e])
                       ++ be16 (len (entry_value e)) ++ (entry_value e ++ rest)).
    - apply py_slice_mid; rewrite !len_app; unfold len; simpl; lia.
    - unfold data, entry_bytes. rewrite <- !app_assoc. reflexivity. }
  assert (H5 : py_slice data (len pre + 1 + len (entry_name e) + 1 + 2)
                 (len pre + 1 + len (entry_name e) + 1 + 2 + len (entry_value e))
               = entry_value e).
  { replace data with ((pre ++ [byte_of_Z (len (entry_name e))] ++ entry_name e ++ [entry_type e]
                        ++ be16 (len (entry_value e)))
                       ++ entry_value e ++ rest).
    - apply py_slice_mid; rewrite !len_app; unfold len; simpl; lia.
    - unfold data, entry_bytes. rewrite <- !app_assoc. reflexivity. }
  rewrite parse_headers_loop_S.
  rewrite H1, H2, H3, H4, unpack_be16, H5 by lia.
  rewrite Hlen.
  replace (len pre <? _)%Z with true by (symmetry; apply Z.ltb_lt; lia).
  simpl negb. cbv iota.
  replace (_ <? len pre + 1 + len (entry_name e))%Z with false by (symmetry; apply Z.ltb_ge; lia).
  unfold entry_read.
  destruct (decode_utf8 (entry_name e)) as [name|]; [|reflexivity].
  replace (_ <=? len pre + 1 + len (entry_name e))%Z with false by (symmetry; apply Z.leb_gt; lia).
  replace (_ <? len pre + 1 + len (entry_name e) + 1 + 2)%Z with false by (symmetry; apply Z.ltb_ge; lia).
  replace (_ <? len pre + 1 + len (entry_name e) + 1 + 2 + len (entry_value e))%Z
    with false by (symmetry; apply Z.ltb_ge; lia).
  replace (len (pre ++ entry_bytes e))
    with (len pre + 1 + len (entry_name e) + 1 + 2 + len (entry_value e))%Z
    by (rewrite len_app, len_entry_bytes; lia).
  destruct (byte_Z (entry_type e) =? 7)%Z.
  - destruct (decode_utf8 (entry_value e)); reflexivity.
  - reflexivity.
Qed.


Fixpoint entries_read (es : list header_entry) : option (list (string * header_value)) :=
  match es with
  | [] => Some []
  | e :: r =>
      match entry_read e with
      | None => None
      | Some nv => option_map (cons nv) (entries_read r)
      end
  end.

Lemma parse_headers_loop_entries : forall es pre hs fuel,
  Forall entry_fits es ->
  (length es < fuel)%nat ->
  parse_headers_loop decode_utf8 fuel (pre ++ concat (map entry_bytes es)) (len pre) hs =
    match entries_read es with
    | Some nvs => Ok (set_all hs nvs)
    | None => Raise
    end.
Proof.
  induction es as [|e r IH]; intros pre hs fuel Hfit Hfuel;
    (destruct fuel as [|fuel]; [simpl in Hfuel; lia|]).
  - simpl. rewrite app_nil_r, Z.ltb_irrefl. reflexivity.
  - inversion Hfit as [|? ? He Hr]; subst.
    change (concat (map entry_bytes (e :: r)))
      with (entry_bytes e ++ concat (map entry_bytes r)).
    rewrite parse_headers_loop_entry by exact He.
    simpl entries_read.
    destruct (entry_read e) as [nv|]; [|reflexivity].
    rewrite (app_assoc pre). rewrite IH by (simpl in Hfuel; auto with lia).
    destruct (entries_read r); reflexivity.
Qed.

Lemma length_entries es : (length es <= length (concat (map entry_bytes es)))%nat.
Proof.
  induction es as [|e r IH]; [simpl; lia|].
  change (concat (map entry_bytes (e :: r)))
    with (entry_bytes e ++ concat (map entry_bytes r)).
  rewrite length_app. pose proof (len_entry_bytes e) as He. unfold len in He.
  simpl length at 1. lia.
Qed.

Lemma parse_headers_of_entries es :
  Forall entry_fits es ->
  parse_headers decode_utf8 (concat (map entry_bytes es)) =
    match entries_read es with
    | Some nvs => Ok (set_all [] nvs)
    | None => Raise
    end.
Proof.
  intros Hfit. unfold parse_headers.
  apply (parse_headers_loop_entries es [] []); [exact Hfit|].
  pose proof (length_entries es). lia.
Qed.

Record frame_parts : Type := {
  prelude_crc : list byte;
  header_entries : list header_entry;
  payload_bytes : list byte;
  message_crc : list byte
}.

Definition headers_bytes (f : frame_parts) : list byte :=
  concat (map entry_bytes (header_entries f)).

Definition frame_length (f : frame_parts) : Z :=
  (16 + len (headers_bytes f) + len (payload_bytes f))%Z.

Definition frame_bytes (f : frame_parts) : list byte :=
  be32 (frame_length f) ++ be32 (len (headers_bytes f)) ++ prelude_crc f
  ++ headers_bytes f ++ payload_bytes f ++ message_crc f.

Definition frame_fits (f : frame_parts) : Prop :=
  len (prelude_crc f) = 4%Z /\ len (message_crc f) = 4%Z /\
  Forall entry_fits (header_entries f) /\ (frame_length f < 4294967296)%Z.

Definition payload_read (p : list byte) : payload_value :=
  match p with
  | [] => PNone
  | _ =>
      match decode_utf8 p with
      | None => PBytes p
      | Some text =>
          match json_loads text with
          | Some j => PJson j
          | None => PBytes p
          end
      end
  end.

Definition frame_read (f : frame_parts) : option message :=
  match entries_read (header_entries f) with
  | Some nvs =>
      Some {| headers := set_all [] nvs;
              payload := payload_read (payload_bytes f);
              total_length := frame_length f |}
  | None => None
  end.

Lemma len_frame_bytes f :
  len (prelude_crc f) = 4%Z -> len (message_crc f) = 4%Z ->
  len (frame_bytes f) = frame_length f.
Proof.
  intros H1 H2. unfold frame_bytes, frame_length. rewrite !len_app, H1, H2.
  unfold be32, len. simpl. lia.
Qed.

Lemma frame_complete f : frame_fits f -> complete_frame (frame_bytes f).
Proof.
  intros (Hp & Hm & _ & Hlt). unfold complete_frame.
  rewrite len_frame_bytes by assumption.
  pose proof (len_nonneg (headers_bytes f)). pose proof (len_nonneg (payload_bytes f)).
  split; [unfold frame_length; lia|].
  replace (py_slice (frame_bytes f) 0 4) with (be32 (frame_length f))
    by (symmetry; unfold frame_bytes; apply (py_slice_mid []); reflexivity).
  apply unpack_be32. unfold frame_length in *. lia.
Qed.

Lemma parse_message_frame f :
  frame_fits f ->
  parse_message decode_utf8 json_loads (frame_bytes f) = frame_read f.
Proof.
  intros (Hp & Hm & Hfit & Hlt).
  pose proof (len_nonneg (headers_bytes f)) as Hh0.
  pose proof (len_nonneg (payload_bytes f)) as Hp0.
  assert (Hlen : len (frame_bytes f) = frame_length f) by (apply len_frame_bytes; assumption).
  assert (H1 : py_slice (frame_bytes f) 0 4 = be32 (frame_length f)).
  { unfold frame_bytes. apply (py_slice_mid []); reflexivity. }
  assert (H2 : py_slice (frame_bytes f) 4 8 = be32 (len (headers_bytes f))).
  { unfold frame_bytes. apply py_slice_mid; reflexivity. }
  assert (H3 : py_slice (frame_bytes f) 12 (12 + len (headers_bytes f)) = headers_bytes f).
  { replace (frame_bytes f)
      with ((be32 (frame_length f) ++ be32 (len (headers_bytes f)) ++ prelude_crc f)
            ++ headers_bytes f ++ (payload_bytes f ++ message_crc f)).
    - apply py_slice_mid; rewrite !len_app, Hp; reflexivity.
    - unfold frame_bytes. rewrite <- !app_assoc. reflexivity. }
  assert (H4 : py_slice (frame_bytes f) (12 + len (headers_bytes f)) (frame_length f - 4)
               = payload_bytes f).
  { replace (frame_bytes f)
      with ((be32 (frame_length f) ++ be32 (len (headers_bytes f)) ++ prelude_crc f
             ++ headers_bytes f)
            ++ payload_bytes f ++ message_crc f).
    - apply py_slice_mid; rewrite !len_app, Hp; unfold frame_length, be32, len; simpl; lia.
    - unfold frame_bytes. rewrite <- !app_assoc. reflexivity. }
  unfold parse_message.
  rewrite H1, H2, !unpack_be32, Hlen, H3, H4 by (unfold frame_length in *; lia).
  replace (frame_length f <? 16)%Z with false
    by (symmetry; apply Z.ltb_ge; unfold frame_length; lia).
  rewrite Z.ltb_irrefl.
  unfold headers_bytes at 1. rewrite parse_headers_of_entries by exact Hfit.
  unfold frame_read, payload_read.
  destruct (entries_read (header_entries f)); reflexivity.
Qed.

Lemma parse_stream_of_layout (fs : list frame_parts) (chunks : list (list byte))
    (fuel : nat) :
  Forall frame_fits fs ->
  concat chunks = concat (map frame_bytes fs) ->
  (length fs < fuel)%nat ->
  parse_stream decode_utf8 json_loads fuel chunks = Some (omap frame_read fs).
Proof.
  intros Hfit Hcat Hfuel.
  rewrite (parse_stream_of_frames decode_utf8 json_loads (map frame_bytes fs) chunks fuel).
  - f_equal. clear Hcat Hfuel. induction Hfit as [|f r Hf _ IH]; [reflexivity|].
    simpl. rewrite parse_message_frame by exact Hf.
    unfold omap in IH. rewrite IH. reflexivity.
  - clear Hcat Hfuel. induction Hfit as [|f r Hf _ IH]; simpl; constructor;
      [apply frame_complete; exact Hf | exact IH].
  - exact Hcat.
  - rewrite length_map. exact Hfuel.
Qed.

(** [parse_headers] on the bytes of header entries laid out one after
    the other (name length, name, value type, two-byte value length, value;
    names shorter than 256 bytes and values shorter than 65536): when every
    name and every type-7 value decodes, the result is the dict of the
    entries in order, a later entry replacing an earlier one of the same
    name, with type-7 values decoded and the others kept as bytes; when one
    of them does not decode, the decoding error is raised. *)
Theorem parse_headers_reads_entries (es : list header_entry) :
  Forall entry_fits es ->
  parse_headers decode_utf8 (concat (map entry_bytes es)) =
    match entries_read es with
    | Some nvs => Ok (set_all [] nvs)
    | None => Raise
    end.
Proof. apply parse_headers_of_entries. Qed.

(** [parse_message] on a frame laid out as total length, headers
    length, prelude CRC, headers, payload, message CRC (lengths as 4-byte
    big-endian numbers, the total below 2^32): the message has the headers
    of the entries, the payload read from exactly the payload bytes ([None]
    when there are none, the parsed JSON, or the raw bytes when they are
    not JSON text) and the total length; it is [None] when a header does
    not decode.  The two CRC fields are not looked at. *)
Theorem parse_message_reads_frame (f : frame_parts) :
  frame_fits f ->
  parse_message decode_utf8 json_loads (frame_bytes f) = frame_read f.
Proof. apply parse_message_frame. Qed.

(** Round trip of the frame layout through [parse_stream]: the bytes
    of a sequence of frames, cut into chunks at any positions, decode to the
    messages of the frames in order (given fuel for one loop iteration per
    frame, and one more); a frame with an undecodable header is skipped. *)
Theorem parse_stream_reads_frames (fs : list frame_parts) (chunks : list (list byte))
    (fuel : nat) :
  Forall frame_fits fs ->
  concat chunks = concat (map frame_bytes fs) ->
  (length fs < fuel)%nat ->
  parse_stream decode_utf8 json_loads fuel chunks = Some (omap frame_read fs).
Proof. apply parse_stream_of_layout. Qed.

End Layout.

(** A concrete frame: two string headers and the payload [{}], read with a
    decoder for ASCII text and a JSON reader that knows the empty object. *)
Definition ascii_decode (bs : list byte) : option string :=
  Some (string_of_list_byte bs).

Definition loads_empty_object (s : string) : option json :=
  if String.eqb s "{}" then Some (JObj []) else None.

Definition sample_entries : list header_entry :=
  [ {| entry_name := list_byte_of_string ":event-type";
       entry_type := x07;
       entry_value := list_byte_of_string "assistantResponseEvent" |};
    {| entry_name := list_byte_of_string ":message-type";
       entry_type := x07;
       entry_value := list_byte_of_string "event" |} ].

Definition sample_frame : frame_parts :=
  {| prelude_crc := [x00; x00; x00; x00];
     header_entries := sample_entries;
     payload_bytes := list_byte_of_string "{}";
     message_crc := [x00; x00; x00; x00] |}.

Lemma sample_entries_fit : Forall entry_fits sample_entries.
Proof. repeat constructor; unfold len; simpl; lia. Qed.

Lemma sample_frame_fits : frame_fits sample_frame.
Proof.
  split; [reflexivity|]. split; [reflexivity|]. split; [exact sample_entries_fit|].
  unfold frame_length, len. simpl. lia.
Qed.

Lemma parse_headers_reads_entries_witness :
  parse_headers ascii_decode (concat (map entry_bytes sample_entries))
  = Ok [(":event-type", HStr "assistantResponseEvent"); (":message-type", HStr "event")].
Proof. exact (parse_headers_reads_entries ascii_decode sample_entries sample_entries_fit). Defined.

Lemma parse_message_reads_frame_witness :
  parse_message ascii_decode loads_empty_object (frame_bytes sample_frame)
  = Some {| headers := [(":event-type", HStr "assistantResponseEvent");
                        (":message-type", HStr "event")];
            payload := PJson (JObj []);
            total_length := 77 |}.
Proof.
  exact (parse_message_reads_frame ascii_decode loads_empty_object sample_frame
           sample_frame_fits).
Defined.

Lemma parse_stream_reads_frames_witness :
  parse_stream ascii_decode loads_empty_object 3
    [firstn 7 (frame_bytes sample_frame);
     skipn 7 (frame_bytes sample_frame) ++ frame_bytes sample_frame]
  = Some [ {| headers := [(":event-type", HStr "assistantResponseEvent");
                          (":message-type", HStr "event")];
              payload := PJson (JObj []);
              total_length := 77 |};
           {| headers := [(":event-type", HStr "assistantResponseEvent");
                          (":message-type", HStr "event")];
              payload := PJson (JObj []);
              total_length := 77 |} ].
Proof.
  refine (parse_stream_reads_frames ascii_decode loads_empty_object
            [sample_frame; sample_frame] _ 3 _ _ _).
  - repeat constructor; exact sample_frame_fits.
  - reflexivity.
  - simpl. lia.
Defined.

End FrameLayout.

(* ===================================================================== *)
(** * Properties of the upstream client *)
(* ===================================================================== *)

Module ClientFacts.
Import Py Parser Streaming Client.

(** ** Dict lookups through [filter] and [dict_set] *)

Lemma dict_get_filter_keys {V} (keep : string -> bool) (d : dict V) (k : string) :
  dict_get (List.filter (fun kv => keep (fst kv)) d) k
  = if keep k then dict_get d k else None.
Proof.
  induction d as [|[k0 v0] r IH]; simpl; [destruct (keep k); reflexivity|].
  destruct (keep k0) eqn:Ek0; simpl; destruct (String.eqb k0 k) eqn:E.
  - apply String.eqb_eq in E. subst k0. rewrite Ek0. reflexivity.
  - exact IH.
  - apply String.eqb_eq in E. subst k0. rewrite IH, Ek0. reflexivity.
  - exact IH.
Qed.

Lemma dict_get_set_same {V} (d : dict V) (k : string) (v : V) :
  dict_get (dict_set d k v) k = Some v.
Proof.
  induction d as [|[k0 v0] r IH]; simpl.
  - rewrite String.eqb_refl. reflexivity.
  - destruct (String.eqb k0 k) eqn:E; simpl.
    + rewrite String.eqb_refl. reflexivity.
    + rewrite E. exact IH.
Qed.

Lemma dict_get_set_other {V} (d : dict V) (k k' : string) (v : V) :
  k' <> k -> dict_get (dict_set d k v) k' = dict_get d k'.
Proof.
  intros Hne. induction d as [|[k0 v0] r IH]; simpl.
  - destruct (String.eqb k k') eqn:E; [|reflexivity].
    apply String.eqb_eq in E. congruence.
  - destruct (String.eqb k0 k) eqn:E; simpl.
    + apply String.eqb_eq in E. subst k0.
      destruct (String.eqb k k') eqn:E'; [|reflexivity].
      apply String.eqb_eq in E'. congruence.
    + destruct (String.eqb k0 k'); [reflexivity|exact IH].
Qed.

(** What [set_header] leaves under each key. *)
Lemma set_header_get (headers : dict string) (name value k : string) :
  dict_get (set_header headers name value) k
  = if String.eqb k name then Some value
    else if String.eqb (lower k) (lower name) then None
    else dict_get headers k.
Proof.
  unfold set_header. destruct (String.eqb k name) eqn:E.
  - apply String.eqb_eq in E. subst k. apply dict_get_set_same.
  - apply String.eqb_neq in E. rewrite dict_get_set_other by exact E.
    rewrite (dict_get_filter_keys (fun key => negb (String.eqb (lower key) (lower name)))).
    destruct (String.eqb (lower k) (lower name)); reflexivity.
Qed.

(** [_merge_headers]: the result carries the bearer token under
    [Authorization] and the invocation id under [amz-sdk-invocation-id]; it
    has no other spelling of these two names, and none of the four framing
    headers in any spelling; every other header of the template is kept with
    its value. *)
Theorem merge_headers_result (invocation_id : string) (as_log : dict string)
    (bearer_token : string) :
  let headers := _merge_headers invocation_id as_log bearer_token in
  dict_get headers "Authorization" = Some ("Bearer " +:+ bearer_token) /\
  dict_get headers "amz-sdk-invocation-id" = Some invocation_id /\
  (forall k, is_stripped k = true -> dict_get headers k = None) /\
  (forall k, lower k = "authorization" -> k <> "Authorization" ->
             dict_get headers k = None) /\
  (forall k, lower k = "amz-sdk-invocation-id" -> k <> "amz-sdk-invocation-id" ->
             dict_get headers k = None) /\
  (forall k, is_stripped k = false -> lower k <> "authorization" ->
             lower k <> "amz-sdk-invocation-id" ->
             dict_get headers k = dict_get as_log k).
Proof.
  cbv zeta. unfold _merge_headers.
  assert (Hget : forall k,
    dict_get (set_header
                (set_header (List.filter (fun kv => negb (is_stripped (fst kv))) as_log)
                   "Authorization" ("Bearer " +:+ bearer_token))
                "amz-sdk-invocation-id" invocation_id) k
    = if String.eqb k "amz-sdk-invocation-id" then Some invocation_id
      else if String.eqb (lower k) "amz-sdk-invocation-id" then None
      else if String.eqb k "Authorization" then Some ("Bearer " +:+ bearer_token)
      else if String.eqb (lower k) "authorization" then None
      else if is_stripped k then None else dict_get as_log k).
  { intros k. rewrite !set_header_get.
    rewrite (dict_get_filter_keys (fun key => negb (is_stripped key))).
    change (lower "amz-sdk-invocation-id") with "amz-sdk-invocation-id".
    change (lower "Authorization") with "authorization".
    destruct (is_stripped k); reflexivity. }
  repeat split.
  - rewrite Hget. reflexivity.
  - rewrite Hget. reflexivity.
  - intros k Hk. rewrite Hget.
    destruct (String.eqb k "amz-sdk-invocation-id") eqn:E1;
      [apply String.eqb_eq in E1; subst k; discriminate|].
    destruct (String.eqb (lower k) "amz-sdk-invocation-id"); [reflexivity|].
    destruct (String.eqb k "Authorization") eqn:E2;
      [apply String.eqb_eq in E2; subst k; discriminate|].
    destruct (String.eqb (lower k) "authorization"); [reflexivity|].
    rewrite Hk. reflexivity.
  - intros k Hl Hne. rewrite Hget, Hl. apply String.eqb_neq in Hne. rewrite Hne.
    destruct (String.eqb k "amz-sdk-invocation-id") eqn:E1;
      [apply String.eqb_eq in E1; subst k; discriminate|].
    reflexivity.
  - intros k Hl Hne. rewrite Hget, Hl. apply String.eqb_neq in Hne. rewrite Hne.
    reflexivity.
  - intros k Hs Ha Hi. rewrite Hget, Hs.
    apply String.eqb_neq in Ha, Hi. rewrite Ha, Hi.
    destruct (String.eqb k "amz-sdk-invocation-id") eqn:E1;
      [apply String.eqb_eq in E1; subst k; discriminate|].
    destruct (String.eqb k "Authorization") eqn:E2;
      [apply String.eqb_eq in E2; subst k; discriminate|].
    reflexivity.
Qed.

(** ** The event iterator on a framed response *)

Lemma concat_byte_gen (chunks : list (list byte)) :
  concat (byte_gen chunks) = concat chunks.
Proof.
  induction chunks as [|c cs IH]; [reflexivity|].
  destruct c as [|b c]; simpl; [exact IH|]. rewrite IH. reflexivity.
Qed.

Section Events.

Variable decode_utf8 : list byte -> option string.
Variable json_loads : string -> option json.
Variable json_dumps : json -> string.

(** The events of a sequence of frames: one pair per frame that decodes,
    names an event type and carries a payload. *)
Definition frame_events (fs : list FrameLayout.frame_parts)
    : list (header_value * payload_value) :=
  omap event_of_message (omap (FrameLayout.frame_read decode_utf8 json_loads) fs).

(** The bytes of a sequence of frames, received in chunks cut at any
    positions (empty chunks included): the event iterator yields the events
    of the frames in order, and the streaming branch emits what the handler
    emits on these events followed by [finish].  Neither depends on where
    the chunks are cut. *)
Theorem iter_events_reads_frames (fs : list FrameLayout.frame_parts)
    (chunks : list (list byte)) (fuel : nat) (model : string) :
  Forall FrameLayout.frame_fits fs ->
  concat chunks = concat (map FrameLayout.frame_bytes fs) ->
  (length fs < fuel)%nat ->
  _iter_events decode_utf8 json_loads fuel chunks = Some (frame_events fs) /\
  stream_response decode_utf8 json_loads json_dumps fuel model chunks
  = Some (fst (fst ((handle_raw_events json_dumps (frame_events fs) ;; finish)
                      (init model 0))),
          snd ((handle_raw_events json_dumps (frame_events fs) ;; finish)
                 (init model 0))).
Proof.
  intros Hfit Hcat Hfuel.
  assert (H : _iter_events decode_utf8 json_loads fuel chunks = Some (frame_events fs)).
  { unfold _iter_events.
    rewrite (FrameLayout.parse_stream_of_layout decode_utf8 json_loads fs); try assumption.
    - reflexivity.
    - rewrite concat_byte_gen. exact Hcat. }
  split; [exact H|].
  unfold stream_response. rewrite H.
  destruct ((handle_raw_events json_dumps (frame_events fs) ;; finish) (init model 0))
    as [[out h'] r].
  reflexivity.
Qed.

End Events.

Lemma iter_events_reads_frames_witness :
  _iter_events FrameLayout.ascii_decode FrameLayout.loads_empty_object 3
    [firstn 7 (FrameLayout.frame_bytes FrameLayout.sample_frame); [];
     skipn 7 (FrameLayout.frame_bytes FrameLayout.sample_frame)]
  = Some (frame_events FrameLayout.ascii_decode FrameLayout.loads_empty_object
            [FrameLayout.sample_frame]).
Proof.
  refine (proj1 (iter_events_reads_frames FrameLayout.ascii_decode
                   FrameLayout.loads_empty_object (fun _ => "")
                   [FrameLayout.sample_frame] _ 3 "claude-sonnet-4" _ _ _)).
  - repeat constructor; exact FrameLayout.sample_frame_fits.
  - reflexivity.
  - simpl. lia.
Defined.

End ClientFacts.

(* ===================================================================== *)
(** * The token cache over time *)
(* ===================================================================== *)

Module TokenCacheFacts.
Import Py Middleware.

(** ** The token refresher *)

Section Refresh.

Variable oidc_post : nat -> string -> string -> string -> option string.
Variable time_at : nat -> Z.

Definition credentials (e : token_entry) : string * string * string :=
  (clientId e, clientSecret e, refreshToken e).

(** The entry after the [n]-th refresh request was made for it. *)
Definition refreshed (n : nat) (e : token_entry) : token_entry :=
  match oidc_post n (clientId e) (clientSecret e) (refreshToken e) with
  | Some t =>
      if nonempty t then
        {| accessToken := t;
           refreshToken := refreshToken e;
           clientId := clientId e;
           clientSecret := clientSecret e;
           lastRefresh := time_at n |}
      else e
  | None => e
  end.

Lemma refresh_item_calls item w :
  oidc_calls (refresh_item oidc_post time_at item w)
  = oidc_calls w ++ [credentials (snd item)].
Proof.
  unfold refresh_item, _handle_token_refresh, credentials.
  destruct (oidc_post _ _ _ _) as [t|]; [destruct (nonempty t)|]; reflexivity.
Qed.

Lemma refresh_item_other item w k :
  k <> fst item ->
  TOKEN_MAP (refresh_item oidc_post time_at item w) !! k = TOKEN_MAP w !! k.
Proof.
  intros Hne. unfold refresh_item, _handle_token_refresh.
  destruct (oidc_post _ _ _ _) as [t|]; [destruct (nonempty t)|]; simpl; try reflexivity.
  apply lookup_alter_ne. congruence.
Qed.

Lemma refresh_item_same k e w :
  TOKEN_MAP w !! k = Some e ->
  TOKEN_MAP (refresh_item oidc_post time_at (k, e) w) !! k
  = Some (refreshed (length (oidc_calls w)) e).
Proof.
  intros Hk. unfold refresh_item, _handle_token_refresh, refreshed. simpl.
  destruct (oidc_post _ _ _ _) as [t|]; [destruct (nonempty t)|]; simpl; try exact Hk.
  rewrite lookup_alter_eq, Hk. reflexivity.
Qed.

Lemma refresh_items_effects : forall items w,
  NoDup (items.*1) ->
  (forall k e, (k, e) ∈ items -> TOKEN_MAP w !! k = Some e) ->
  oidc_calls (refresh_all_tokens oidc_post time_at items w)
  = oidc_calls w ++ map (fun item => credentials (snd item)) items /\
  (forall k, k ∉ items.*1 ->
     TOKEN_MAP (refresh_all_tokens oidc_post time_at items w) !! k = TOKEN_MAP w !! k) /\
  (forall i k e, items !! i = Some (k, e) ->
     TOKEN_MAP (refresh_all_tokens oidc_post time_at items w) !! k
     = Some (refreshed (length (oidc_calls w) + i) e)).
Proof.
  induction items as [|[k0 e0] r IH]; intros w Hnd Hin.
  - simpl. rewrite app_nil_r. repeat split; auto. intros i k e H. discriminate.
  - rewrite fmap_cons in Hnd. apply NoDup_cons in Hnd as [Hk0 Hnd]. simpl in Hk0.
    change (refresh_all_tokens oidc_post time_at ((k0, e0) :: r) w)
      with (refresh_all_tokens oidc_post time_at r (refresh_item oidc_post time_at (k0, e0) w)).
    set (w1 := refresh_item oidc_post time_at (k0, e0) w).
    assert (Hin1 : forall k e, (k, e) ∈ r -> TOKEN_MAP w1 !! k = Some e).
    { intros k e Hke. unfold w1. rewrite refresh_item_other.
      - apply Hin. right. exact Hke.
      - simpl. intros ->. apply Hk0.
        apply (list_elem_of_fmap_2 fst) in Hke. exact Hke. }
    destruct (IH w1 Hnd Hin1) as (Hc & Ho & Hi).
    assert (Hc1 : oidc_calls w1 = oidc_calls w ++ [credentials e0])
      by apply refresh_item_calls.
    split; [|split].
    + rewrite Hc, Hc1, <- app_assoc. reflexivity.
    + intros k Hk. rewrite fmap_cons in Hk. apply not_elem_of_cons in Hk as [Hne Hk].
      rewrite Ho by exact Hk. apply refresh_item_other. exact Hne.
    + intros [|i] k e Hl; simpl in Hl.
      * simplify_eq. rewrite Ho by exact Hk0.
        rewrite Nat.add_0_r. apply refresh_item_same. apply Hin. left.
      * rewrite (Hi i k e Hl), Hc1, length_app. simpl. f_equal. f_equal. lia.
Qed.

Lemma refreshed_credentials n e : credentials (refreshed n e) = credentials e.
Proof.
  unfold refreshed. destruct (oidc_post _ _ _ _) as [t|]; [destruct (nonempty t)|]; reflexivity.
Qed.

(** One cycle of [refresh_all_tokens] over the entries of the map, in any
    order: it posts exactly one refresh request per entry, with the
    credentials of the entry, in that order; the entry of the [i]-th item
    gets the new access token and the time of the refresh when the answer
    is a non-empty token, and is left as it was otherwise; no key is added
    or removed, and no entry's client id, client secret or refresh token
    changes. *)
Theorem refresh_all_tokens_effects (items : list (string * token_entry)) (w : world) :
  items ≡ₚ map_to_list (TOKEN_MAP w) ->
  let w' := refresh_all_tokens oidc_post time_at items w in
  oidc_calls w' = oidc_calls w ++ map (fun item => credentials (snd item)) items /\
  (forall i k e, items !! i = Some (k, e) ->
     TOKEN_MAP w' !! k = Some (refreshed (length (oidc_calls w) + i) e)) /\
  (forall k, TOKEN_MAP w !! k = None -> TOKEN_MAP w' !! k = None) /\
  (forall k e, TOKEN_MAP w !! k = Some e ->
     exists e', TOKEN_MAP w' !! k = Some e' /\ credentials e' = credentials e).
Proof.
  intros Hperm. cbv zeta.
  assert (Hnd : NoDup (items.*1)).
  { rewrite Hperm. apply NoDup_fst_map_to_list. }
  assert (Hin : forall k e, (k, e) ∈ items <-> TOKEN_MAP w !! k = Some e).
  { intros k e. rewrite Hperm. apply elem_of_map_to_list. }
  destruct (refresh_items_effects items w Hnd (fun k e => proj1 (Hin k e)))
    as (Hc & Ho & Hi).
  split; [exact Hc|]. split; [exact Hi|]. split.
  - intros k Hk. rewrite Ho; [exact Hk|].
    intros Hel. apply list_elem_of_fmap_1 in Hel as [[k' e] [-> Hel]].
    apply Hin in Hel. simpl in Hk. congruence.
  - intros k e Hk. apply Hin in Hk. apply list_elem_of_lookup_1 in Hk as [i Hi'].
    exists (refreshed (length (oidc_calls w) + i) e).
    split; [apply (Hi i k e Hi')|apply refreshed_credentials].
Qed.

End Refresh.

(** ** What a resolution does to the state *)

Section Effects.

Variable _sha256 : string -> string.
Variable oidc_post : nat -> string -> string -> string -> option string.
Variable now : Z.

Local Abbreviation auth := (auth_middleware _sha256 oidc_post now).

Definition account_of (e : token_entry) : account :=
  {| acc_accessToken := accessToken e;
     acc_clientId := clientId e;
     acc_clientSecret := clientSecret e;
     acc_refreshToken := refreshToken e |}.

Lemma nonempty_true s : nonempty s = true -> s <> "".
Proof. unfold nonempty. intros H ->. discriminate. Qed.

Local Ltac error_case :=
  split;
  [ first [ exists []; rewrite app_nil_r; split; [reflexivity|simpl; lia]
          | eexists; split; [reflexivity|simpl; lia] ]
  | simpl; auto ].

(** Every call of [auth_middleware]: it posts at most one refresh request
    and removes none from the record; when it raises, the status is 401 and
    [TOKEN_MAP] is unchanged; when it returns an account, the account is the
    entry that [TOKEN_MAP] holds afterwards under the hash of the caller's
    secret, every other key is as before, and either the entry was there
    already and nothing changed at all, or it is new, made of the three
    non-empty parts of the secret, a non-empty access token and the current
    time. *)
Theorem auth_middleware_effects (authorization x_api_key : option string) (w : world) :
  let w' := snd (auth authorization x_api_key w) in
  (exists rest, oidc_calls w' = oidc_calls w ++ rest /\ (length rest <= 1)%nat) /\
  match fst (auth authorization x_api_key w) with
  | inl (mkHTTPException status_code _) =>
      status_code = 401%Z /\ TOKEN_MAP w' = TOKEN_MAP w
  | inr acct =>
      exists token e,
        header_token authorization x_api_key = Some token /\
        TOKEN_MAP w' !! _sha256 token = Some e /\
        acct = account_of e /\
        (forall k, k <> _sha256 token -> TOKEN_MAP w' !! k = TOKEN_MAP w !! k) /\
        ((TOKEN_MAP w !! _sha256 token = Some e /\ w' = w) \/
         (TOKEN_MAP w !! _sha256 token = None /\
          _parse_bearer_token token = (clientId e, clientSecret e, refreshToken e) /\
          accessToken e <> "" /\ clientId e <> "" /\ clientSecret e <> "" /\
          refreshToken e <> "" /\ lastRefresh e = now))
  end.
Proof.
  cbv zeta. unfold auth_middleware.
  destruct (header_token authorization x_api_key) as [token|] eqn:Htok;
    [|error_case].
  destruct (nonempty token) eqn:Hne; simpl negb; cbv iota; [|error_case].
  destruct (TOKEN_MAP w !! _sha256 token) as [entry|] eqn:Hhit.
  { split; [exists []; rewrite app_nil_r; auto|].
    exists token, entry. simpl. auto 10. }
  destruct (_parse_bearer_token token) as [[client_id client_secret] refresh_token] eqn:Hp.
  destruct (nonempty client_id) eqn:Hc; simpl; [|error_case].
  destruct (nonempty client_secret) eqn:Hs; simpl; [|error_case].
  destruct (nonempty refresh_token) eqn:Hr; simpl; [|error_case].
  destruct (oidc_post _ _ _ _) as [access_token|]; [|error_case].
  destruct (nonempty access_token) eqn:Ha; simpl; [|error_case].
  split; [eexists; split; [reflexivity|simpl; lia]|].
  eexists token, _. split; [reflexivity|]. split; [apply lookup_insert_eq|].
  split; [reflexivity|]. split.
  - intros k Hk. apply lookup_insert_ne. congruence.
  - right. simpl. auto 10 using nonempty_true.
Qed.

(** The two headers: a non-empty [x-api-key] is used whatever
    [Authorization] says; without one (absent or empty),
    [Authorization: Bearer t] is resolved exactly as the key [t] would be;
    an [Authorization] that does not start with [Bearer ] is no
    authentication. *)
Theorem api_key_takes_precedence (k t : string) (a : option string) (other : string)
    (w : world) :
  k <> "" ->
  String.prefix "Bearer " other = false ->
  auth a (Some k) w = auth None (Some k) w /\
  auth (Some ("Bearer " +:+ t)) None w = auth None (Some t) w /\
  auth (Some ("Bearer " +:+ t)) (Some "") w = auth None (Some t) w /\
  auth (Some other) None w
  = (inl (mkHTTPException 401
            "Missing authentication. Provide Authorization header or x-api-key"), w).
Proof.
  intros Hk Hother. apply String.eqb_neq in Hk.
  unfold auth_middleware, header_token, nonempty.
  rewrite Hk, Hother, andb_false_r. simpl negb. cbv iota.
  rewrite (ConverterFacts.prefix_app "Bearer " t).
  change (str_drop 7 ("Bearer " +:+ t)) with t.
  change (String.eqb ("Bearer " +:+ t) "") with false.
  change (String.eqb "" "") with true.
  simpl negb. simpl andb. cbv iota.
  repeat split; destruct a; destruct (String.eqb t "") eqn:Et; simpl; rewrite ?Et; simpl.
  all: reflexivity.
Qed.

End Effects.

Lemma refresh_all_tokens_effects_witness :
  oidc_calls (refresh_all_tokens (fun _ _ _ _ => Some "at2") (fun _ => 1700003600%Z)
                [("h1", MiddlewareFacts.sample_entry)]
                {| TOKEN_MAP := {[ "h1" := MiddlewareFacts.sample_entry ]}; oidc_calls := [] |})
  = [credentials MiddlewareFacts.sample_entry].
Proof.
  refine (proj1 (refresh_all_tokens_effects (fun _ _ _ _ => Some "at2")
                   (fun _ => 1700003600%Z) [("h1", MiddlewareFacts.sample_entry)]
                   {| TOKEN_MAP := {[ "h1" := MiddlewareFacts.sample_entry ]}; oidc_calls := [] |} _)).
  simpl. rewrite map_to_list_singleton. reflexivity.
Defined.

Lemma api_key_takes_precedence_witness :
  auth_middleware (fun s => s) (fun _ _ _ _ => None) 0 (Some "Bearer a:b:c") (Some "id:secret:rt")
    MiddlewareFacts.cold_world
  = auth_middleware (fun s => s) (fun _ _ _ _ => None) 0 None (Some "id:secret:rt") MiddlewareFacts.cold_world.
Proof.
  refine (proj1 (api_key_takes_precedence (fun s => s) (fun _ _ _ _ => None) 0
                   "id:secret:rt" "" (Some "Bearer a:b:c") "Basic xyz" MiddlewareFacts.cold_world _ _)).
  - discriminate.
  - reflexivity.
Defined.

End TokenCacheFacts.

(* ===================================================================== *)
(** * Whole replies through the stream handler *)
(* ===================================================================== *)

Module StreamRuns.
Import Py Parser Streaming StreamingFacts.

(** An upstream reply that is text only. *)
Definition text_event (c : string) : string * dict json :=
  ("assistantResponseEvent", [("content", JStr c)]).

Definition nonempty_text (c : string) : bool := negb (String.eqb c "").

Definition text_deltas (index : Z) (cs : list string) : list sse :=
  map (fun c => build_content_block_delta index (JStr c)) (List.filter nonempty_text cs).

(** The handler while a text block is open: after [initial-response] and
    the first text event. *)
Definition after_initial_response (model : string) (input_tokens : Z) (conv : json)
    : ClaudeStreamHandler :=
  {| model := model;
     input_tokens := input_tokens;
     response_buffer := [];
     content_block_index := (-1)%Z;
     content_block_started := false;
     content_block_start_sent := false;
     content_block_stop_sent := false;
     message_start_sent := true;
     conversation_id := conv;
     current_tool_use := None;
     tool_input_buffer := [];
     tool_use_id := JNull;
     tool_name := JNull;
     _processed_tool_use_ids := [];
     all_tool_inputs := [] |}.

Definition in_text_block (model : string) (input_tokens : Z) (conv : json)
    (buffer : list json) : ClaudeStreamHandler :=
  {| model := model;
     input_tokens := input_tokens;
     response_buffer := buffer;
     content_block_index := 0%Z;
     content_block_started := true;
     content_block_start_sent := true;
     content_block_stop_sent := false;
     message_start_sent := true;
     conversation_id := conv;
     current_tool_use := None;
     tool_input_buffer := [];
     tool_use_id := JNull;
     tool_name := JNull;
     _processed_tool_use_ids := [];
     all_tool_inputs := [] |}.

Section Runs.
Variable json_dumps : json -> string.

Lemma handle_events_app (a b : list (string * dict json)) (h : ClaudeStreamHandler) :
  handle_events json_dumps (a ++ b) h
  = (handle_events json_dumps a ;; handle_events json_dumps b) h.
Proof.
  revert h. induction a as [|[t p] a IH]; intros h.
  - simpl app. change (handle_events json_dumps []) with (@ret unit tt).
    monad_steps. unfold bind, ret.
    destruct (handle_events json_dumps b h) as [[out h'] r]. reflexivity.
  - change (handle_events json_dumps (((t, p) :: a) ++ b) h)
      with ((handle_event json_dumps t p ;; handle_events json_dumps (a ++ b)) h).
    change (handle_events json_dumps ((t, p) :: a))
      with (handle_event json_dumps t p ;; handle_events json_dumps a).
    monad_steps. unfold bind.
    destruct (handle_event json_dumps t p h) as [[out1 h1] [[]|]]; [|reflexivity].
    rewrite IH. monad_steps. unfold bind.
    destruct (handle_events json_dumps a h1) as [[out2 h2] [[]|]]; [|reflexivity].
    destruct (handle_events json_dumps b h2) as [[out3 h3] r].
    rewrite app_assoc. reflexivity.
Qed.

Definition texts (cs : list string) : list json :=
  map JStr (List.filter nonempty_text cs).

Lemma text_event_step model input_tokens conv c buffer :
  handle_event json_dumps "assistantResponseEvent" [("content", JStr c)]
    (in_text_block model input_tokens conv buffer)
  = (text_deltas 0 [c], in_text_block model input_tokens conv (buffer ++ texts [c]), Some tt).
Proof.
  destruct c; [|reflexivity].
  unfold texts, text_deltas. simpl. rewrite app_nil_r. reflexivity.
Qed.

Lemma text_deltas_cons index c cs :
  text_deltas index (c :: cs) = text_deltas index [c] ++ text_deltas index cs.
Proof. unfold text_deltas. simpl. destruct (nonempty_text c); reflexivity. Qed.

Lemma texts_cons c cs : texts (c :: cs) = texts [c] ++ texts cs.
Proof. unfold texts. simpl. destruct (nonempty_text c); reflexivity. Qed.

Lemma text_events_run model input_tokens conv : forall cs buffer,
  handle_events json_dumps (map text_event cs) (in_text_block model input_tokens conv buffer)
  = (text_deltas 0 cs, in_text_block model input_tokens conv (buffer ++ texts cs), Some tt).
Proof.
  induction cs as [|c cs IH]; intros buffer.
  - unfold texts. simpl. rewrite app_nil_r. reflexivity.
  - change (handle_events json_dumps (map text_event (c :: cs)))
      with (handle_event json_dumps "assistantResponseEvent" [("content", JStr c)] ;;
            handle_events json_dumps (map text_event cs)).
    rewrite (text_deltas_cons 0 c cs), (texts_cons c cs), app_assoc.
    monad_steps. unfold bind. rewrite text_event_step, IH. reflexivity.
Qed.

(** The first text event of a reply opens block 0. *)
Lemma first_text_event_step model input_tokens conv c :
  handle_event json_dumps "assistantResponseEvent" [("content", JStr c)]
    (after_initial_response model input_tokens conv)
  = (build_content_block_start 0 "text" :: text_deltas 0 [c],
     in_text_block model input_tokens conv (texts [c]), Some tt).
Proof. destruct c; reflexivity. Qed.

Lemma initial_response_step model input_tokens payload :
  handle_event json_dumps "initial-response" payload (init model input_tokens)
  = ([build_message_start (get_or payload "conversationId" (JStr "unknown")) model input_tokens;
      build_ping],
     after_initial_response model input_tokens
       (get_or payload "conversationId" (JStr "unknown")),
     Some tt).
Proof. reflexivity. Qed.

Lemma all_str_texts cs : all_str (texts cs) = Some (List.filter nonempty_text cs).
Proof.
  unfold texts. induction (List.filter nonempty_text cs) as [|c l IH]; simpl; [reflexivity|].
  rewrite IH. reflexivity.
Qed.

Lemma join_empty_cons (p : string) (ps : list string) :
  join "" (p :: ps) = p +:+ join "" ps.
Proof.
  destruct ps as [|q qs]; [symmetry; apply ConverterFacts.append_nil_r|reflexivity].
Qed.

Lemma join_nonempty cs : join "" (List.filter nonempty_text cs) = join "" cs.
Proof.
  induction cs as [|c cs IH]; [reflexivity|].
  rewrite join_empty_cons. destruct c as [|a c].
  - simpl. exact IH.
  - change (List.filter nonempty_text (String a c :: cs))
      with (String a c :: List.filter nonempty_text cs).
    rewrite join_empty_cons, IH. reflexivity.
Qed.

(** [finish] on a handler whose buffer holds strings only. *)
Lemma finish_output (h : ClaudeStreamHandler) (parts : list string) :
  all_str (response_buffer h) = Some parts ->
  fst (fst (finish h))
  = (if content_block_started h && negb (content_block_stop_sent h)
     then [build_content_block_stop (content_block_index h)] else [])
    ++ [build_message_stop (input_tokens h)
          (Z.max 1 (Z.of_nat (String.length (join "" parts)
                              + String.length (join "" (all_tool_inputs h))) / 4))
          "end_turn"]
  /\ snd (finish h) = Some tt.
Proof.
  intros H. unfold finish. monad_steps. unfold bind, self.
  destruct h as [? ? buf ? started ? stop_sent ? ? ? ? ? ? ? ?]. simpl in H.
  destruct started, stop_sent; simpl; rewrite H; simpl; split; reflexivity.
Qed.

Lemma end_event_step model input_tokens conv buffer :
  handle_events json_dumps [("assistantResponseEnd", [])]
    (in_text_block model input_tokens conv buffer)
  = ([build_content_block_stop 0],
     set_content_block_stop_sent true (in_text_block model input_tokens conv buffer),
     Some tt).
Proof. reflexivity. Qed.

Definition text_reply (payload : dict json) (cs : list string) (ended : bool)
    : list (string * dict json) :=
  ("initial-response", payload) :: map text_event cs
  ++ (if ended then [("assistantResponseEnd", [])] else []).

Lemma text_reply_run (model : string) (input_tokens : Z) (payload : dict json)
    (c : string) (cs : list string) (ended : bool) :
  exists h',
    event_generator json_dumps (text_reply payload (c :: cs) ended) (init model input_tokens)
    = ([build_message_start (get_or payload "conversationId" (JStr "unknown")) model
          input_tokens;
        build_ping;
        build_content_block_start 0 "text"]
       ++ text_deltas 0 (c :: cs)
       ++ [build_content_block_stop 0;
           build_message_stop input_tokens
             (Z.max 1 (Z.of_nat (String.length (join "" (c :: cs))) / 4)) "end_turn"],
       h', Some tt).
Proof.
  unfold event_generator, text_reply.
  set (conv := get_or payload "conversationId" (JStr "unknown")).
  change (handle_events json_dumps
            (("initial-response", payload) :: map text_event (c :: cs)
             ++ (if ended then [("assistantResponseEnd", [])] else [])))
    with (handle_event json_dumps "initial-response" payload ;;
          handle_events json_dumps
            ([text_event c] ++ map text_event cs
             ++ (if ended then [("assistantResponseEnd", [])] else []))).
  monad_steps. unfold bind at 1 2.
  rewrite initial_response_step. fold conv.
  rewrite handle_events_app.
  monad_steps. unfold bind at 1.
  change (handle_events json_dumps [text_event c])
    with (handle_event json_dumps "assistantResponseEvent" [("content", JStr c)] ;;
          handle_events json_dumps []).
  monad_steps. unfold bind at 1. rewrite first_text_event_step.
  change (handle_events json_dumps [] (in_text_block model input_tokens conv (texts [c])))
    with (@nil sse, in_text_block model input_tokens conv (texts [c]), Some tt).
  cbv iota beta.
  rewrite handle_events_app. monad_steps. unfold bind at 1.
  rewrite text_events_run. cbv iota beta.
  rewrite <- texts_cons.
  pose proof (finish_output) as Hfin.
  rewrite (text_deltas_cons 0 c cs).
  destruct ended.
  - rewrite end_event_step. cbv iota beta.
    destruct (Hfin (set_content_block_stop_sent true
                      (in_text_block model input_tokens conv (texts (c :: cs))))
                (List.filter nonempty_text (c :: cs)) (all_str_texts _)) as [Ho Hr].
    destruct (finish _) as [[out h'] r]. cbn [fst snd] in Ho, Hr. subst out r.
    exists h'. rewrite join_nonempty.
    change (String.length (join "" (all_tool_inputs _))) with 0%nat.
    rewrite Nat.add_0_r. simpl. rewrite <- !app_assoc. reflexivity.
  - change (handle_events json_dumps []
              (in_text_block model input_tokens conv (texts (c :: cs))))
      with (@nil sse, in_text_block model input_tokens conv (texts (c :: cs)), Some tt).
    cbv iota beta.
    destruct (Hfin (in_text_block model input_tokens conv (texts (c :: cs)))
                (List.filter nonempty_text (c :: cs)) (all_str_texts _)) as [Ho Hr].
    destruct (finish _) as [[out h'] r]. cbn [fst snd] in Ho, Hr. subst out r.
    exists h'. rewrite join_nonempty.
    change (String.length (join "" (all_tool_inputs _))) with 0%nat.
    rewrite Nat.add_0_r. simpl. rewrite <- !app_assoc. reflexivity.
Qed.

(** A reply that is text only ([initial-response], then one or more
    [assistantResponseEvent] with string contents, with or without a final
    [assistantResponseEnd]), on a new handler: the stream is
    [message_start], [ping], the start of text block 0, one text delta per
    non-empty content in order, one stop of block 0, then [message_delta]
    and [message_stop]; the output token count is a quarter of the length
    of the whole text, rounded down, and at least 1.  The generator does
    not raise. *)
Theorem text_reply_output (model : string) (input_tokens : Z) (payload : dict json)
    (c : string) (cs : list string) (ended : bool) :
  let run := event_generator json_dumps (text_reply payload (c :: cs) ended)
               (init model input_tokens) in
  fst (fst run)
  = [build_message_start (get_or payload "conversationId" (JStr "unknown")) model input_tokens;
     build_ping;
     build_content_block_start 0 "text"]
    ++ text_deltas 0 (c :: cs)
    ++ [build_content_block_stop 0;
        build_message_stop input_tokens
          (Z.max 1 (Z.of_nat (String.length (join "" (c :: cs))) / 4)) "end_turn"]
  /\ snd run = Some tt.
Proof.
  cbv zeta.
  destruct (text_reply_run model input_tokens payload c cs ended) as [h' ->].
  split; reflexivity.
Qed.

(** ** One tool call *)

Definition tool_event (id name fragment : string) : string * dict json :=
  ("toolUseEvent",
   [("toolUseId", JStr id); ("name", JStr name); ("input", JStr fragment)]).

Definition tool_stop_event (id name : string) : string * dict json :=
  ("toolUseEvent", [("toolUseId", JStr id); ("name", JStr name); ("stop", JBool true)]).

Definition tool_call (id name : string) (fragments : list string)
    : list (string * dict json) :=
  map (tool_event id name) fragments ++ [tool_stop_event id name].

Definition tool_deltas (index : Z) (fragments : list string) : list sse :=
  map (build_tool_use_input_delta index) (List.filter nonempty_text fragments).

(** The handler inside the tool call started on [h]. *)
Definition in_tool_call (h : ClaudeStreamHandler) (id name : string)
    (buffer : list string) : ClaudeStreamHandler :=
  {| model := model h;
     input_tokens := input_tokens h;
     response_buffer := response_buffer h;
     content_block_index := (content_block_index h + 1)%Z;
     content_block_started := true;
     content_block_start_sent := true;
     content_block_stop_sent := false;
     message_start_sent := message_start_sent h;
     conversation_id := conversation_id h;
     current_tool_use := Some [("toolUseId", JStr id); ("name", JStr name)];
     tool_input_buffer := buffer;
     tool_use_id := JStr id;
     tool_name := JStr name;
     _processed_tool_use_ids :=
       if existsb (py_eq (JStr id)) (_processed_tool_use_ids h)
       then _processed_tool_use_ids h
       else _processed_tool_use_ids h ++ [JStr id];
     all_tool_inputs := all_tool_inputs h |}.

(** The handler after the tool call. *)
Definition after_tool_call (h : ClaudeStreamHandler) (id name : string)
    (buffer : list string) : ClaudeStreamHandler :=
  set_tool_input_buffer []
    (set_tool_name JNull
       (set_tool_use_id JNull
          (set_current_tool_use None
             (set_content_block_started false
                (set_content_block_stop_sent true
                   (set_all_tool_inputs (all_tool_inputs h ++ [join "" buffer])
                      (in_tool_call h id name buffer))))))).

Definition closes_open_block (h : ClaudeStreamHandler) : list sse :=
  if content_block_start_sent h && negb (content_block_stop_sent h)
  then [build_content_block_stop (content_block_index h)] else [].

Lemma tool_event_inside h id name fragment buffer :
  handle_event json_dumps "toolUseEvent" [("toolUseId", JStr id); ("name", JStr name); ("input", JStr fragment)]
    (in_tool_call h id name buffer)
  = (tool_deltas (content_block_index h + 1) [fragment],
     in_tool_call h id name (buffer ++ List.filter nonempty_text [fragment]), Some tt).
Proof.
  destruct fragment.
  - unfold tool_deltas. simpl List.filter. rewrite app_nil_r.
    destruct id, name; reflexivity.
  - destruct id, name; reflexivity.
Qed.

Lemma tool_event_first h id name fragment :
  id <> "" -> name <> "" -> current_tool_use h = None ->
  handle_event json_dumps "toolUseEvent" [("toolUseId", JStr id); ("name", JStr name); ("input", JStr fragment)] h
  = (closes_open_block h
     ++ build_tool_use_start (content_block_index h + 1) (JStr id) (JStr name)
     :: tool_deltas (content_block_index h + 1) [fragment],
     in_tool_call h id name (List.filter nonempty_text [fragment]), Some tt).
Proof.
  intros Hid Hname Hcur.
  destruct id as [|a id]; [congruence|]. destruct name as [|b name]; [congruence|].
  destruct h as [? ? ? ? ? start_sent stop_sent ? ? cur ? ? ? ids ?].
  simpl in Hcur. subst cur.
  unfold closes_open_block, in_tool_call.
  destruct fragment, start_sent, stop_sent; reflexivity.
Qed.

Lemma tool_stop_inside h id name buffer :
  handle_event json_dumps "toolUseEvent" [("toolUseId", JStr id); ("name", JStr name); ("stop", JBool true)]
    (in_tool_call h id name buffer)
  = ([build_content_block_stop (content_block_index h + 1)],
     after_tool_call h id name buffer, Some tt).
Proof. destruct id, name; reflexivity. Qed.

Lemma tool_stop_first h id name :
  id <> "" -> name <> "" -> current_tool_use h = None ->
  handle_event json_dumps "toolUseEvent" [("toolUseId", JStr id); ("name", JStr name); ("stop", JBool true)] h
  = (closes_open_block h
     ++ [build_tool_use_start (content_block_index h + 1) (JStr id) (JStr name);
         build_content_block_stop (content_block_index h + 1)],
     after_tool_call h id name [], Some tt).
Proof.
  intros Hid Hname Hcur.
  destruct id as [|a id]; [congruence|]. destruct name as [|b name]; [congruence|].
  destruct h as [? ? ? ? ? start_sent stop_sent ? ? cur ? ? ? ids ?].
  simpl in Hcur. subst cur.
  unfold closes_open_block, after_tool_call, in_tool_call.
  destruct start_sent, stop_sent; reflexivity.
Qed.

Lemma tool_deltas_cons index c cs :
  tool_deltas index (c :: cs) = tool_deltas index [c] ++ tool_deltas index cs.
Proof. unfold tool_deltas. simpl. destruct (nonempty_text c); reflexivity. Qed.

Lemma filter_nonempty_cons c cs :
  List.filter nonempty_text (c :: cs)
  = List.filter nonempty_text [c] ++ List.filter nonempty_text cs.
Proof. simpl. destruct (nonempty_text c); reflexivity. Qed.

Lemma handle_events_cons t p rest h :
  handle_events json_dumps ((t, p) :: rest) h
  = (handle_event json_dumps t p ;; handle_events json_dumps rest) h.
Proof. reflexivity. Qed.

Lemma tool_fragments_run h id name : forall fragments buffer,
  handle_events json_dumps (map (tool_event id name) fragments ++ [tool_stop_event id name])
    (in_tool_call h id name buffer)
  = (tool_deltas (content_block_index h + 1) fragments
     ++ [build_content_block_stop (content_block_index h + 1)],
     after_tool_call h id name (buffer ++ List.filter nonempty_text fragments), Some tt).
Proof.
  induction fragments as [|f fs IH]; intros buffer.
  - simpl app. unfold tool_stop_event at 1. rewrite handle_events_cons.
    monad_steps. unfold bind.
    rewrite (tool_stop_inside h id name buffer). simpl List.filter. rewrite app_nil_r.
    reflexivity.
  - simpl map. rewrite <- app_comm_cons. unfold tool_event at 1.
    rewrite handle_events_cons. monad_steps. unfold bind.
    rewrite (tool_event_inside h id name f buffer), IH.
    rewrite (tool_deltas_cons _ f fs), (filter_nonempty_cons f fs), !app_assoc.
    reflexivity.
Qed.

Lemma tool_call_run h id name fragments :
  id <> "" -> name <> "" -> current_tool_use h = None ->
  handle_events json_dumps (tool_call id name fragments) h
  = (closes_open_block h
     ++ build_tool_use_start (content_block_index h + 1) (JStr id) (JStr name)
     :: tool_deltas (content_block_index h + 1) fragments
     ++ [build_content_block_stop (content_block_index h + 1)],
     after_tool_call h id name (List.filter nonempty_text fragments), Some tt).
Proof.
  intros Hid Hname Hcur. unfold tool_call. destruct fragments as [|f fs].
  - simpl app. unfold tool_stop_event at 1. rewrite handle_events_cons.
    monad_steps. unfold bind.
    rewrite (tool_stop_first h id name Hid Hname Hcur). simpl. rewrite app_nil_r.
    reflexivity.
  - simpl map. rewrite <- app_comm_cons. unfold tool_event at 1.
    rewrite handle_events_cons. monad_steps. unfold bind.
    rewrite (tool_event_first h id name f Hid Hname Hcur), tool_fragments_run.
    rewrite (tool_deltas_cons _ f fs), (filter_nonempty_cons f fs).
    rewrite <- !app_assoc. reflexivity.
Qed.

Definition tool_reply (payload : dict json) (cs : list string) (id name : string)
    (fragments : list string) : list (string * dict json) :=
  ("initial-response", payload) :: map text_event cs ++ tool_call id name fragments.

Definition text_block (cs : list string) : list sse :=
  match cs with
  | [] => []
  | _ => build_content_block_start 0 "text" :: text_deltas 0 cs ++ [build_content_block_stop 0]
  end.

Definition tool_index (cs : list string) : Z :=
  match cs with [] => 0%Z | _ => 1%Z end.

Lemma tool_reply_run (model : string) (input_tokens : Z) (payload : dict json)
    (cs : list string) (id name : string) (fragments : list string) :
  id <> "" -> name <> "" ->
  exists h',
    event_generator json_dumps (tool_reply payload cs id name fragments)
      (init model input_tokens)
    = ([build_message_start (get_or payload "conversationId" (JStr "unknown")) model
          input_tokens;
        build_ping]
       ++ text_block cs
       ++ build_tool_use_start (tool_index cs) (JStr id) (JStr name)
       :: tool_deltas (tool_index cs) fragments
       ++ [build_content_block_stop (tool_index cs);
           build_message_stop input_tokens
             (Z.max 1 (Z.of_nat (String.length (join "" cs)
                                 + String.length (join "" fragments)) / 4)) "end_turn"],
       h', Some tt).
Proof.
  intros Hid Hname.
  unfold event_generator, tool_reply.
  set (conv := get_or payload "conversationId" (JStr "unknown")).
  monad_steps. unfold bind at 1.
  rewrite handle_events_cons.
  monad_steps. unfold bind at 1.
  rewrite initial_response_step. fold conv.
  pose proof finish_output as Hfin.
  destruct cs as [|c cs].
  - simpl app at 1.
    rewrite tool_call_run by (assumption || reflexivity).
    cbv iota beta.
    match goal with |- context [finish ?h] =>
      destruct (Hfin h [] eq_refl) as [Ho Hr];
      destruct (finish h) as [[out h'] r] end.
    cbn [fst snd] in Ho, Hr. subst out r. exists h'.
    change (String.length (join "" [])) with 0%nat.
    change (join "" (all_tool_inputs _))
      with (join "" (List.filter nonempty_text fragments)).
    rewrite join_nonempty. simpl. rewrite <- !app_assoc. reflexivity.
  - change (map text_event (c :: cs) ++ tool_call id name fragments)
      with ([text_event c] ++ (map text_event cs ++ tool_call id name fragments)).
    rewrite handle_events_app. monad_steps. unfold bind at 1.
    unfold text_event at 1. rewrite handle_events_cons.
    monad_steps. unfold bind at 1. rewrite first_text_event_step.
    change (handle_events json_dumps [] (in_text_block model input_tokens conv (texts [c])))
      with (@nil sse, in_text_block model input_tokens conv (texts [c]), Some tt).
    cbv iota beta.
    rewrite handle_events_app. monad_steps. unfold bind at 1.
    rewrite text_events_run. cbv iota beta.
    rewrite <- texts_cons.
    rewrite tool_call_run by (assumption || reflexivity).
    cbv iota beta.
    match goal with |- context [finish ?h] =>
      destruct (Hfin h (List.filter nonempty_text (c :: cs)) (all_str_texts _)) as [Ho Hr];
      destruct (finish h) as [[out h'] r] end.
    cbn [fst snd] in Ho, Hr. subst out r. exists h'.
    change (join "" (all_tool_inputs _))
      with (join "" (List.filter nonempty_text fragments)).
    rewrite !join_nonempty. unfold text_block, tool_index.
    rewrite (text_deltas_cons 0 c cs).
    simpl. rewrite <- !app_assoc. simpl. rewrite <- !app_assoc. reflexivity.
Qed.

(** A reply that ends in a tool call (optional text events, then
    [toolUseEvent]s carrying the input fragments of one tool use with a
    non-empty id and name, then the [toolUseEvent] with [stop]), on a new
    handler: after [message_start] and [ping], the text block (if there is
    text) is opened as block 0 and closed before the tool block starts; the
    tool block has the next index, one [input_json_delta] per non-empty
    fragment in order, and one stop; the output token count is a quarter of
    the length of the text plus the length of the whole tool input, rounded
    down, and at least 1.  The generator does not raise. *)
Theorem tool_reply_output (model : string) (input_tokens : Z) (payload : dict json)
    (cs : list string) (id name : string) (fragments : list string) :
  id <> "" -> name <> "" ->
  let run := event_generator json_dumps (tool_reply payload cs id name fragments)
               (init model input_tokens) in
  fst (fst run)
  = [build_message_start (get_or payload "conversationId" (JStr "unknown")) model input_tokens;
     build_ping]
    ++ text_block cs
    ++ build_tool_use_start (tool_index cs) (JStr id) (JStr name)
    :: tool_deltas (tool_index cs) fragments
    ++ [build_content_block_stop (tool_index cs);
        build_message_stop input_tokens
          (Z.max 1 (Z.of_nat (String.length (join "" cs)
                              + String.length (join "" fragments)) / 4)) "end_turn"]
  /\ snd run = Some tt.
Proof.
  intros Hid Hname. cbv zeta.
  destruct (tool_reply_run model input_tokens payload cs id name fragments Hid Hname)
    as [h' ->].
  split; reflexivity.
Qed.

End Runs.
Lemma tool_reply_output_witness :
  snd (event_generator (fun _ => "")
         (tool_reply [("conversationId", JStr "c1")] ["Let me look."] "tool_1" "read_file"
            ["{"; "}"])
         (init "claude-sonnet-4" 0))
  = Some tt.
Proof.
  refine (proj2 (tool_reply_output (fun _ => "") "claude-sonnet-4" 0
                   [("conversationId", JStr "c1")] ["Let me look."] "tool_1" "read_file"
                   ["{"; "}"] _ _)); discriminate.
Defined.

End StreamRuns.

(* ===================================================================== *)
(** * More properties of the request converter *)
(* ===================================================================== *)

Module HistoryFacts.
Import Py Converter.

(** ** The second pass never leaves two user entries side by side *)

Definition is_user_entry (item : dict json) : bool := dict_has item "userInputMessage".

Fixpoint no_adjacent_users (history : list (dict json)) : bool :=
  match history with
  | a :: (b :: _) as rest =>
      negb (is_user_entry a && is_user_entry b) && no_adjacent_users rest
  | _ => true
  end.

Lemma no_adjacent_users_cons_other item history :
  is_user_entry item = false ->
  no_adjacent_users history = true ->
  no_adjacent_users (item :: history) = true.
Proof.
  intros Hi Hh. destruct history as [|b r]; [reflexivity|].
  change (negb (is_user_entry item && is_user_entry b) && no_adjacent_users (b :: r) = true).
  rewrite Hi, Hh. reflexivity.
Qed.

Lemma dict_get_none_has {V} (d : dict V) k : dict_get d k = None -> dict_has d k = false.
Proof. unfold dict_has. intros ->. reflexivity. Qed.

Lemma second_pass_no_adjacent_users : forall raw_history pending history,
  second_pass raw_history pending = Some history ->
  no_adjacent_users history = true.
Proof.
  induction raw_history as [|item rest IH]; intros pending history H; simpl in H.
  - destruct pending as [|p ps]; [simplify_eq; reflexivity|].
    destruct (merge_user_messages (p :: ps)); simpl in H; simplify_eq. reflexivity.
  - destruct (dict_get item "userInputMessage") as [[| | | | |u_msg]|] eqn:Hu;
      try discriminate.
    + eapply IH; eassumption.
    + apply dict_get_none_has in Hu.
      destruct (dict_has item "assistantResponseMessage"); [|eapply IH; eassumption].
      destruct pending as [|p ps].
      * destruct (second_pass rest []) as [more|] eqn:Hm; simpl in H; simplify_eq.
        apply no_adjacent_users_cons_other; [exact Hu|]. eapply IH; eassumption.
      * destruct (merge_user_messages (p :: ps)) as [merged|]; simpl in H; [|discriminate].
        destruct (second_pass rest []) as [more|] eqn:Hm; simpl in H; simplify_eq.
        change (negb (is_user_entry [("userInputMessage", JObj merged)] && is_user_entry item)
                && no_adjacent_users (item :: more) = true).
        unfold is_user_entry at 2. rewrite Hu, andb_false_r. simpl.
        apply no_adjacent_users_cons_other; [exact Hu|]. eapply IH; eassumption.
Qed.


Definition is_assistant_entry (item : dict json) : bool :=
  negb (is_user_entry item) && dict_has item "assistantResponseMessage".

Lemma second_pass_assistants : forall raw_history pending history,
  second_pass raw_history pending = Some history ->
  List.filter (fun item => negb (is_user_entry item)) history
  = List.filter is_assistant_entry raw_history.
Proof.
  induction raw_history as [|item rest IH]; intros pending history H; simpl in H.
  - destruct pending as [|p ps]; [simplify_eq; reflexivity|].
    destruct (merge_user_messages (p :: ps)); simpl in H; simplify_eq. reflexivity.
  - unfold is_assistant_entry at 1. simpl List.filter. unfold is_user_entry at 2, dict_has at 1.
    destruct (dict_get item "userInputMessage") as [[| | | | |u_msg]|] eqn:Hu;
      try discriminate.
    + simpl. eapply IH; eassumption.
    + simpl negb. simpl andb.
      destruct (dict_has item "assistantResponseMessage"); [|eapply IH; eassumption].
      apply dict_get_none_has in Hu.
      destruct pending as [|p ps].
      * destruct (second_pass rest []) as [more|] eqn:Hm; simpl in H; simplify_eq.
        simpl. unfold is_user_entry at 1. rewrite Hu. simpl. f_equal.
        eapply IH; eassumption.
      * destruct (merge_user_messages (p :: ps)) as [merged|]; simpl in H; [|discriminate].
        destruct (second_pass rest []) as [more|] eqn:Hm; simpl in H; simplify_eq.
        simpl. unfold is_user_entry at 1. rewrite Hu. simpl. f_equal.
        eapply IH; eassumption.
Qed.

(** ** Tool-use ids are not repeated in the history *)

(** The ids of the [toolUses] of a history entry. *)
Definition tool_use_id_of (tool_use : json) : json :=
  match tool_use with JObj d => jget d "toolUseId" | _ => JNull end.

Definition entry_tool_ids (item : dict json) : list json :=
  match dict_get item "assistantResponseMessage" with
  | Some (JObj m) =>
      match dict_get m "toolUses" with
      | Some (JArr tool_uses) => map tool_use_id_of tool_uses
      | _ => []
      end
  | _ => []
  end.

Definition history_tool_ids (history : list (dict json)) : list json :=
  flat_map entry_tool_ids history.

(** No id equals ([==]) one of [seen] or one before it in the list. *)
Fixpoint no_repeat (seen ids : list json) : bool :=
  match ids with
  | [] => true
  | x :: rest => negb (existsb (py_eq x) seen) && no_repeat (seen ++ [x]) rest
  end.

Lemma no_repeat_app : forall a seen b,
  no_repeat seen a = true -> no_repeat (seen ++ a) b = true ->
  no_repeat seen (a ++ b) = true.
Proof.
  induction a as [|x a IH]; intros seen b Ha Hb; simpl in *.
  - rewrite app_nil_r in Hb. exact Hb.
  - apply andb_prop in Ha as [Hx Ha]. rewrite Hx. simpl.
    apply IH; [exact Ha|]. rewrite <- app_assoc. exact Hb.
Qed.

Lemma collect_tool_uses_ids : forall blocks seen tool_uses seen',
  collect_tool_uses blocks seen = Some (tool_uses, seen') ->
  seen' = seen ++ map tool_use_id_of tool_uses /\
  no_repeat seen (map tool_use_id_of tool_uses) = true /\
  forallb (fun id => truthy id && hashable id) (map tool_use_id_of tool_uses) = true.
Proof.
  induction blocks as [|block rest IH]; intros seen tus seen' H; simpl in H.
  - simplify_eq. simpl. rewrite app_nil_r. auto.
  - destruct (is_str (jget block "type") "tool_use"); [|eapply IH; eassumption].
    set (tid := jget block "id") in *.
    destruct (truthy tid) eqn:Ht; [|eapply IH; eassumption].
    destruct (hashable tid) eqn:Hh; [|discriminate].
    destruct (existsb (py_eq tid) seen) eqn:Hs; [eapply IH; eassumption|].
    destruct (collect_tool_uses rest (seen ++ [tid])) as [[tus1 seen1]|] eqn:E;
      simpl in H; [|discriminate].
    simplify_eq. destruct (IH _ _ _ E) as (-> & Hn & Hf).
    change (map tool_use_id_of (?x :: tus1)) with (tid :: map tool_use_id_of tus1).
    simpl. rewrite Hs, Hn, Ht, Hh, Hf, <- app_assoc. auto.
Qed.


Definition user_without_ids (item : dict json) : Prop :=
  is_user_entry item = true -> entry_tool_ids item = [].

Lemma second_pass_tool_ids : forall raw_history pending history,
  second_pass raw_history pending = Some history ->
  Forall user_without_ids raw_history ->
  history_tool_ids history = history_tool_ids raw_history.
Proof.
  induction raw_history as [|item rest IH]; intros pending history H Hall; simpl in H.
  - destruct pending as [|p ps]; [simplify_eq; reflexivity|].
    destruct (merge_user_messages (p :: ps)); simpl in H; simplify_eq. reflexivity.
  - inversion Hall as [|? ? Hitem Hrest]; subst.
    unfold user_without_ids, is_user_entry, dict_has in Hitem.
    change (history_tool_ids (item :: rest))
      with (entry_tool_ids item ++ history_tool_ids rest).
    destruct (dict_get item "userInputMessage") as [[| | | | |u_msg]|] eqn:Hu;
      try discriminate.
    + rewrite Hitem by reflexivity. eapply IH; eassumption.
    + unfold dict_has in H.
      destruct (dict_get item "assistantResponseMessage") as [a|] eqn:Ha.
      * destruct pending as [|p ps].
        -- destruct (second_pass rest []) as [more|] eqn:Hm; simpl in H; simplify_eq.
           change (history_tool_ids (item :: more))
             with (entry_tool_ids item ++ history_tool_ids more).
           f_equal. eapply IH; eassumption.
        -- destruct (merge_user_messages (p :: ps)) as [merged|]; simpl in H; [|discriminate].
           destruct (second_pass rest []) as [more|] eqn:Hm; simpl in H; simplify_eq.
           change (history_tool_ids ([("userInputMessage", JObj merged)] :: item :: more))
             with (entry_tool_ids item ++ history_tool_ids more).
           f_equal. eapply IH; eassumption.
      * unfold entry_tool_ids at 1. rewrite Ha. eapply IH; eassumption.
Qed.

Section History.

Variable uuid4 : nat -> string.

Definition is_assistant (msg : ClaudeMessage) : bool :=
  negb (String.eqb (role msg) "user") && String.eqb (role msg) "assistant".

Lemma first_pass_assistants : forall msgs seen n raw_history,
  first_pass uuid4 msgs seen n = Some raw_history ->
  length (List.filter is_assistant_entry raw_history)
  = length (List.filter is_assistant msgs).
Proof.
  induction msgs as [|msg rest IH]; intros seen n raw H; simpl in H.
  - simplify_eq. reflexivity.
  - unfold is_assistant at 1. simpl List.filter.
    destruct (String.eqb (role msg) "user").
    + destruct (convert_user_message (msg_content msg)); simpl in H; [|discriminate].
      destruct (first_pass uuid4 rest seen n) as [more|] eqn:Hm; simpl in H; simplify_eq.
      simpl. eapply IH; eassumption.
    + destruct (String.eqb (role msg) "assistant"); [|eapply IH; eassumption].
      destruct (extract_text_from_content (msg_content msg)); simpl in H; [|discriminate].
      destruct (match msg_content msg with
                | CStr _ => _ | CList blocks => _ end) as [r|]; simpl in H; [|discriminate].
      destruct (first_pass uuid4 rest (snd r) (S n)) as [more|] eqn:Hm; simpl in H; simplify_eq.
      simpl. f_equal. eapply IH; eassumption.
Qed.

Lemma first_pass_tool_ids : forall msgs seen n raw_history,
  first_pass uuid4 msgs seen n = Some raw_history ->
  no_repeat seen (history_tool_ids raw_history) = true /\
  forallb (fun id => truthy id && hashable id) (history_tool_ids raw_history) = true /\
  Forall user_without_ids raw_history.
Proof.
  induction msgs as [|msg rest IH]; intros seen n raw H; simpl in H.
  - simplify_eq. repeat split. constructor.
  - destruct (String.eqb (role msg) "user").
    + destruct (convert_user_message (msg_content msg)) as [u_msg|]; simpl in H;
        [|discriminate].
      destruct (first_pass uuid4 rest seen n) as [more|] eqn:Hm; simpl in H; simplify_eq.
      destruct (IH _ _ _ Hm) as (Hn & Hf & Hall).
      split; [exact Hn|]. split; [exact Hf|].
      constructor; [intros _; reflexivity|exact Hall].
    + destruct (String.eqb (role msg) "assistant"); [|eapply IH; eassumption].
      destruct (extract_text_from_content (msg_content msg)) as [text|]; simpl in H;
        [|discriminate].
      destruct (match msg_content msg with
                | CStr _ => _ | CList blocks => _ end) as [[tool_uses seen']|] eqn:Hr;
        simpl in H; [|discriminate].
      destruct (first_pass uuid4 rest seen' (S n)) as [more|] eqn:Hm; simpl in H;
        simplify_eq.
      assert (Hids : seen' = seen ++ map tool_use_id_of tool_uses /\
                     no_repeat seen (map tool_use_id_of tool_uses) = true /\
                     forallb (fun id => truthy id && hashable id)
                       (map tool_use_id_of tool_uses) = true).
      { destruct (msg_content msg) as [s|blocks].
        - simplify_eq. simpl. rewrite app_nil_r. auto.
        - eapply collect_tool_uses_ids. exact Hr. }
      destruct Hids as (-> & Hn1 & Hf1).
      destruct (IH _ _ _ Hm) as (Hn & Hf & Hall).
      match goal with |- context [history_tool_ids (?e :: more)] =>
        assert (He : entry_tool_ids e = map tool_use_id_of tool_uses)
          by (destruct tool_uses; reflexivity);
        change (history_tool_ids (e :: more))
          with (entry_tool_ids e ++ history_tool_ids more);
        rewrite He
      end.
      split; [apply no_repeat_app; assumption|].
      split; [rewrite forallb_app, Hf1, Hf; reflexivity|].
      constructor; [|exact Hall].
      intros Hu. destruct tool_uses; discriminate Hu.
Qed.

(** The history never names a tool use twice: over all the [toolUses] of
    the entries of [process_history], in order, no [toolUseId] equals one
    before it (a repeated [tool_use] block is dropped, within a message and
    across messages), and every id is truthy and hashable. *)
Theorem history_tool_ids_unique (msgs : list ClaudeMessage) (n : nat)
    (history : list (dict json)) :
  process_history uuid4 msgs n = Some history ->
  no_repeat [] (history_tool_ids history) = true /\
  forallb (fun id => truthy id && hashable id) (history_tool_ids history) = true.
Proof.
  unfold process_history. intros H.
  destruct (first_pass uuid4 msgs [] n) as [raw|] eqn:Hraw; simpl in H; [|discriminate].
  destruct (first_pass_tool_ids _ _ _ _ Hraw) as (Hn & Hf & Hall).
  rewrite (second_pass_tool_ids _ _ _ H Hall). auto.
Qed.

(** The shape of the history: no two [userInputMessage] entries are next
    to each other (consecutive user messages are merged into one entry);
    every message of role [assistant] gives exactly one entry, so the
    entries that are not user entries are as many as the assistant
    messages; every entry is one or the other (messages of any other role
    are dropped).  Two assistant entries can be next to each other. *)
Theorem process_history_shape (msgs : list ClaudeMessage) (n : nat)
    (history : list (dict json)) :
  process_history uuid4 msgs n = Some history ->
  no_adjacent_users history = true /\
  length (List.filter (fun item => negb (is_user_entry item)) history)
  = length (List.filter is_assistant msgs) /\
  Forall (fun item => is_user_entry item = true \/ is_assistant_entry item = true) history.
Proof.
  unfold process_history. intros H.
  destruct (first_pass uuid4 msgs [] n) as [raw|] eqn:Hraw; simpl in H; [|discriminate].
  split; [eapply second_pass_no_adjacent_users; eassumption|]. split.
  - rewrite (second_pass_assistants _ _ _ H). eapply first_pass_assistants; eassumption.
  - pose proof (second_pass_assistants _ _ _ H) as Hf.
    apply Forall_forall. intros item Hin.
    destruct (is_user_entry item) eqn:Hu; [left; reflexivity|right].
    assert (Hin' : item ∈ List.filter (fun item => negb (is_user_entry item)) history).
    { apply list_elem_of_In. apply filter_In. split; [apply list_elem_of_In; exact Hin|].
      rewrite Hu. reflexivity. }
    rewrite Hf in Hin'. apply list_elem_of_In, filter_In in Hin'. tauto.
Qed.

End History.

(** A conversation with two user turns in a row and an assistant turn that
    names the same tool use twice, then names it again later. *)
Definition sample_messages : list ClaudeMessage :=
  [ {| role := "user"; msg_content := CStr "Read the file." |};
    {| role := "user"; msg_content := CStr "The one in the root." |};
    {| role := "assistant";
       msg_content :=
         CList [[("type", JStr "text"); ("text", JStr "Reading.")];
                [("type", JStr "tool_use"); ("id", JStr "t1"); ("name", JStr "read")];
                [("type", JStr "tool_use"); ("id", JStr "t1"); ("name", JStr "read")]] |};
    {| role := "user";
       msg_content :=
         CList [[("type", JStr "tool_result"); ("tool_use_id", JStr "t1");
                 ("content", JStr "contents")]] |};
    {| role := "assistant";
       msg_content :=
         CList [[("type", JStr "tool_use"); ("id", JStr "t1"); ("name", JStr "read")];
                [("type", JStr "tool_use"); ("id", JStr "t2"); ("name", JStr "write")]] |} ].

Definition sample_history : list (dict json) :=
  Eval vm_compute in
    match process_history (fun _ => "m") sample_messages 0 with
    | Some history => history
    | None => []
    end.

Lemma history_tool_ids_unique_witness :
  history_tool_ids sample_history = [JStr "t1"; JStr "t2"] /\
  no_repeat [] (history_tool_ids sample_history) = true.
Proof.
  split; [reflexivity|].
  refine (proj1 (history_tool_ids_unique (fun _ => "m") sample_messages 0 sample_history _)).
  reflexivity.
Defined.

Lemma process_history_shape_witness :
  length sample_history = 4%nat /\ no_adjacent_users sample_history = true.
Proof.
  split; [reflexivity|].
  refine (proj1 (process_history_shape (fun _ => "m") sample_messages 0 sample_history _)).
  reflexivity.
Defined.

End HistoryFacts.

Module ToolResultFacts.
Import Py Converter.

Definition result_id (r : dict json) : json := jget r "toolUseId".

(** No item equals ([==]) a later one. *)
Fixpoint distinct (ids : list json) : bool :=
  match ids with
  | [] => true
  | x :: rest => forallb (fun y => negb (py_eq x y)) rest && distinct rest
  end.

Definition has_content (r : dict json) : bool :=
  match jget r "content" with
  | JArr (_ :: _) => true
  | _ => false
  end.

Definition well_formed (tool_results : list (dict json)) : bool :=
  distinct (map result_id tool_results) && forallb has_content tool_results.

Lemma distinct_snoc ids x :
  distinct ids = true ->
  forallb (fun y => negb (py_eq y x)) ids = true ->
  distinct (ids ++ [x]) = true.
Proof.
  induction ids as [|a r IH]; simpl; intros Hd Hx; [reflexivity|].
  apply andb_prop in Hd as [Ha Hd]. apply andb_prop in Hx as [Hax Hx].
  rewrite forallb_app, Ha, (IH Hd Hx). simpl. rewrite Hax. reflexivity.
Qed.

Lemma extend_existing_none : forall trs id aq,
  extend_existing trs id aq = None ->
  forallb (fun y => negb (py_eq y id)) (map result_id trs) = true.
Proof.
  induction trs as [|r rest IH]; intros id aq H; simpl in *; [reflexivity|].
  fold (result_id r) in H.
  destruct (py_eq (result_id r) id); [discriminate|].
  destruct (extend_existing rest id aq) eqn:E; [discriminate|].
  simpl. eapply IH; eassumption.
Qed.

Lemma jget_set_other (d : dict json) k k' v :
  k' <> k -> jget (dict_set d k v) k' = jget d k'.
Proof.
  intros Hne. unfold jget, get_or. rewrite ClientFacts.dict_get_set_other by exact Hne.
  reflexivity.
Qed.

Lemma jget_set_same (d : dict json) k v : jget (dict_set d k v) k = v.
Proof. unfold jget, get_or. rewrite ClientFacts.dict_get_set_same. reflexivity. Qed.

Lemma extend_existing_some : forall trs id aq updated,
  aq <> [] ->
  extend_existing trs id aq = Some updated ->
  map result_id updated = map result_id trs /\
  (forallb has_content trs = true -> forallb has_content updated = true).
Proof.
  induction trs as [|r rest IH]; intros id aq updated Haq H; simpl in *; [discriminate|].
  destruct (py_eq (jget r "toolUseId") id).
  - simplify_eq. simpl. split.
    + f_equal. unfold result_id. apply jget_set_other. discriminate.
    + intros Hc. apply andb_prop in Hc as [Hr Hc]. rewrite Hc, andb_true_r.
      unfold has_content in *. rewrite jget_set_same.
      destruct (jget r "content") as [| | | |[|c cs]|]; try discriminate. reflexivity.
  - destruct (extend_existing rest id aq) as [upd|] eqn:E; simpl in H; [|discriminate].
    simplify_eq. destruct (IH id aq upd Haq E) as [Hids Hc]. simpl. split.
    + f_equal. exact Hids.
    + intros Hall. apply andb_prop in Hall as [Hr Hrest]. rewrite Hr, (Hc Hrest). reflexivity.
Qed.

Lemma any_text_true : forall aq, any_text aq = Some true -> aq <> [].
Proof. intros [|a r] H; [discriminate|discriminate]. Qed.

Lemma process_tool_result_block_keeps block trs updated :
  process_tool_result_block block trs = Some updated ->
  well_formed trs = true ->
  well_formed updated = true /\ updated <> [].
Proof.
  unfold process_tool_result_block, well_formed. intros H Hwf.
  apply andb_prop in Hwf as [Hd Hc].
  destruct (any_text (tool_result_content (get_or block "content" (JArr [])))) as [has_text|] eqn:Ht;
    simpl in H; [|discriminate].
  set (aq := if has_text then tool_result_content (get_or block "content" (JArr []))
             else [JObj [("text", JStr "Tool use was cancelled by the user")]]) in *.
  assert (Haq : aq <> []).
  { unfold aq. destruct has_text; [apply any_text_true; exact Ht|discriminate]. }
  destruct (extend_existing trs (jget block "tool_use_id") aq) as [upd|] eqn:E; simplify_eq.
  - destruct (extend_existing_some _ _ _ _ Haq E) as [Hids Hcont].
    rewrite Hids, Hd, (Hcont Hc). split; [reflexivity|].
    intros ->. destruct trs; discriminate.
  - split; [|intros Habs; apply app_eq_nil in Habs as [_ Habs]; discriminate].
    rewrite map_app, forallb_app, Hc. simpl.
    rewrite distinct_snoc; [|exact Hd|eapply extend_existing_none; exact E].
    unfold has_content. simpl. destruct aq; [congruence|reflexivity].
Qed.


Definition results_ok (tool_results : option (list (dict json))) : Prop :=
  match tool_results with
  | Some trs => well_formed trs = true /\ trs <> []
  | None => True
  end.

Lemma collect_tool_results_keeps : forall blocks acc res,
  collect_tool_results blocks acc = Some res ->
  results_ok acc -> results_ok res.
Proof.
  induction blocks as [|block rest IH]; intros acc res H Hacc; simpl in H.
  - simplify_eq. exact Hacc.
  - destruct (is_str (jget block "type") "text"); [eapply IH; eassumption|].
    destruct (is_str (jget block "type") "tool_result"); [|eapply IH; eassumption].
    destruct (process_tool_result_block block _) as [updated|] eqn:E; simpl in H;
      [|discriminate].
    eapply IH; [exact H|]. simpl.
    eapply process_tool_result_block_keeps; [exact E|].
    destruct acc as [trs|]; [apply Hacc|reflexivity].
Qed.

(** The [toolResults] collected from the blocks of one user message: no
    two entries have the same [toolUseId] (blocks for the same tool use are
    merged into the first entry), every entry has a non-empty [content]
    list, and the list itself is not empty once a [tool_result] block was
    seen. *)
Theorem tool_results_well_formed (blocks : list (dict json)) (trs : list (dict json)) :
  collect_tool_results blocks None = Some (Some trs) ->
  distinct (map result_id trs) = true /\
  forallb has_content trs = true /\
  trs <> [].
Proof.
  intros H. pose proof (collect_tool_results_keeps blocks None (Some trs) H I) as [Hwf Hne].
  apply andb_prop in Hwf as [Hd Hc]. auto.
Qed.

(** Two results for the same tool use, the second with blank content, and
    one for another tool use. *)
Definition sample_blocks : list (dict json) :=
  [ [("type", JStr "tool_result"); ("tool_use_id", JStr "t1"); ("content", JStr "done")];
    [("type", JStr "text"); ("text", JStr "and")];
    [("type", JStr "tool_result"); ("tool_use_id", JStr "t2");
     ("content", JArr [JObj [("type", JStr "text"); ("text", JStr "ok")]])];
    [("type", JStr "tool_result"); ("tool_use_id", JStr "t1"); ("content", JStr "  ")] ].

Definition sample_results : list (dict json) :=
  Eval vm_compute in
    match collect_tool_results sample_blocks None with
    | Some (Some trs) => trs
    | _ => []
    end.

Lemma tool_results_well_formed_witness :
  map result_id sample_results = [JStr "t1"; JStr "t2"] /\
  distinct (map result_id sample_results) = true.
Proof.
  split; [reflexivity|].
  refine (proj1 (tool_results_well_formed sample_blocks sample_results _)).
  reflexivity.
Defined.

End ToolResultFacts.

Module ToolFacts.
Import Py Converter.

Lemma str_take_length : forall n s,
  (n <= String.length s)%nat -> String.length (str_take n s) = n.
Proof.
  induction n as [|n IH]; intros s H; [destruct s; reflexivity|].
  destruct s as [|a s]; simpl in *; [lia|]. rewrite IH by lia. reflexivity.
Qed.

Lemma length_append (a b : string) :
  String.length (a +:+ b) = (String.length a + String.length b)%nat.
Proof.
  induction a as [|x a IH]; [reflexivity|].
  change (S (String.length (a +:+ b)) = S (String.length a + String.length b)).
  rewrite IH. reflexivity.
Qed.

(** The description [convert_tool] sends for a tool. *)
Definition sent_description (tool : ClaudeTool) : json :=
  match convert_tool tool with
  | JObj d =>
      match jget d "toolSpecification" with
      | JObj spec => jget spec "description"
      | _ => JNull
      end
  | _ => JNull
  end.

Definition full_description (tool : ClaudeTool) : string :=
  match description tool with Some d => d | None => "" end.

(** The description [convert_tool] sends is never longer than 10240
    characters.  A description of at most 10240 characters (or none, sent
    as the empty string) is sent unchanged, and the tool is not listed for
    the TOOL DOCUMENTATION section; a longer one is cut to its first 10100
    characters followed by the marker, and the tool is listed with its
    full description. *)
Theorem convert_tool_description (tool : ClaudeTool) :
  exists desc,
    sent_description tool = JStr desc /\
    (Z.of_nat (String.length desc) <= 10240)%Z /\
    (((Z.of_nat (String.length (full_description tool)) <= 10240)%Z /\
      desc = full_description tool /\
      long_desc_tools (Some [tool]) = []) \/
     ((10240 < Z.of_nat (String.length (full_description tool)))%Z /\
      desc = str_take (Z.to_nat 10100) (full_description tool) +:+ marker /\
      long_desc_tools (Some [tool]) = [(tool_name tool, full_description tool)])).
Proof.
  unfold sent_description, convert_tool, long_desc_tools, full_description.
  destruct tool as [name [d|] schema]; cbn [description tool_name input_schema flat_map].
  - destruct (10240 <? Z.of_nat (String.length d))%Z eqn:E.
    + apply Z.ltb_lt in E. eexists. split; [reflexivity|].
      assert (Hne : String.eqb d "" = false).
      { destruct d; [simpl in E; lia|reflexivity]. }
      rewrite Hne. simpl negb. simpl andb. cbv iota.
      rewrite length_append, str_take_length by lia.
      change (String.length marker) with 62%nat.
      split; [lia|]. right. rewrite app_nil_r. auto.
    + apply Z.ltb_ge in E. eexists. split; [reflexivity|].
      rewrite andb_false_r. split; [exact E|]. left. auto.
  - eexists. split; [reflexivity|]. simpl. split; [lia|]. left. split; [lia|]. auto.
Qed.

End ToolFacts.

(* ===================================================================== *)
(** * The config file, written and read back *)
(* ===================================================================== *)

Module AuthConfigFacts.
Import Py AuthConfig.

Lemma append_cons a (s t : string) : String a s +:+ t = String a (s +:+ t).
Proof. reflexivity. Qed.

Lemma lstrip_spaces_length s : (String.length (lstrip_spaces s) <= String.length s)%nat.
Proof.
  induction s as [|a s IH]; simpl; [lia|].
  destruct (isspace a); simpl; lia.
Qed.

Lemma lstrip_spaces_fixed a k :
  lstrip_spaces (String a k) = String a k -> isspace a = false.
Proof.
  simpl. destruct (isspace a); [|reflexivity].
  intros H. pose proof (lstrip_spaces_length k) as Hl. rewrite H in Hl. simpl in Hl. lia.
Qed.

Lemma lstrip_spaces_key k rest :
  lstrip_spaces k = k ->
  lstrip_spaces (k +:+ String "=" rest) = k +:+ String "=" rest.
Proof.
  destruct k as [|a k]; intros H; [reflexivity|].
  apply lstrip_spaces_fixed in H. rewrite append_cons. simpl. rewrite H. reflexivity.
Qed.

Lemma append_nonempty_r (s t : string) : t <> "" -> s +:+ t <> "".
Proof. destruct s; [auto|discriminate]. Qed.

Lemma rstrip_spaces_app (s t : string) :
  rstrip_spaces t <> "" -> rstrip_spaces (s +:+ t) = s +:+ rstrip_spaces t.
Proof.
  intros Ht. induction s as [|a s IH]; [reflexivity|].
  rewrite !append_cons. simpl. rewrite IH.
  destruct (s +:+ rstrip_spaces t) eqn:E; [|reflexivity].
  exfalso. eapply append_nonempty_r; eassumption.
Qed.

Lemma rstrip_spaces_end (t : string) (c : ascii) :
  isspace c = true -> rstrip_spaces (t +:+ String c "") = rstrip_spaces t.
Proof.
  intros Hc. induction t as [|a t IH]; [simpl; rewrite Hc; reflexivity|].
  rewrite append_cons. simpl. rewrite IH. reflexivity.
Qed.

Lemma rstrip_spaces_value v :
  rstrip_spaces v = v -> rstrip_spaces (String "=" v) = String "=" v.
Proof. intros H. simpl. rewrite H. destruct v; reflexivity. Qed.

(** Stripping a written line gives [key=value] back. *)
Lemma strip_spaces_line k v :
  lstrip_spaces k = k -> rstrip_spaces v = v ->
  strip_spaces (k +:+ "=" +:+ v +:+ String LF "") = k +:+ String "=" v.
Proof.
  intros Hk Hv. unfold strip_spaces.
  change (k +:+ "=" +:+ v +:+ String LF "") with (k +:+ String "=" (v +:+ String LF "")).
  rewrite lstrip_spaces_key by exact Hk.
  change (k +:+ String "=" (v +:+ String LF "")) with (k +:+ (String "=" v +:+ String LF "")).
  rewrite <- ConverterFacts.append_assoc.
  rewrite rstrip_spaces_end by reflexivity.
  rewrite rstrip_spaces_app; rewrite rstrip_spaces_value by exact Hv;
    [reflexivity|discriminate].
Qed.

Definition one_line (s : string) : bool :=
  negb (contains_char LF s) && negb (contains_char CR s).

Lemma contains_char_app c (s t : string) :
  contains_char c (s +:+ t) = contains_char c s || contains_char c t.
Proof.
  induction s as [|a s IH]; [reflexivity|].
  rewrite append_cons. simpl. rewrite IH, orb_assoc. reflexivity.
Qed.

Lemma file_lines_line (line rest : string) :
  one_line line = true ->
  file_lines (line +:+ String LF rest) = (line +:+ String LF "") :: file_lines rest.
Proof.
  unfold one_line. induction line as [|a line IH]; intros H; [reflexivity|].
  simpl in H. rewrite !negb_orb in H.
  apply andb_prop in H as [H1 H2].
  apply andb_prop in H1 as [Ha1 Hl1]. apply andb_prop in H2 as [Ha2 Hl2].
  apply negb_true_iff in Ha1, Ha2.
  rewrite !append_cons. simpl. rewrite Ha1, Ha2.
  rewrite IH by (rewrite Hl1, Hl2; reflexivity). reflexivity.
Qed.

Lemma split_once_key k v :
  contains_char "=" k = false -> split_once "=" (k +:+ String "=" v) = (k, v).
Proof.
  induction k as [|a k IH]; intros H; [reflexivity|].
  simpl in H. apply orb_false_elim in H as [Ha Hk].
  rewrite append_cons. simpl. rewrite Ha, (IH Hk). reflexivity.
Qed.

(** What the writer needs of an item for the reader to get it back. *)
Definition plain_item (item : string * string) : Prop :=
  contains_char "=" (fst item) = false /\
  one_line (fst item) = true /\ one_line (snd item) = true /\
  lstrip_spaces (fst item) = fst item /\
  rstrip_spaces (snd item) = snd item.

Definition set_items (config items : dict string) : dict string :=
  fold_left (fun d item => dict_set d (fst item) (snd item)) items config.

Lemma load_written_line config k v :
  plain_item (k, v) ->
  load_line config (k +:+ "=" +:+ v +:+ String LF "") = dict_set config k v.
Proof.
  intros (Heq & _ & _ & Hk & Hv). simpl in *.
  unfold load_line. rewrite strip_spaces_line by assumption.
  rewrite contains_char_app. simpl contains_char at 2. rewrite orb_true_r.
  rewrite split_once_key by exact Heq. reflexivity.
Qed.

Lemma one_line_item k v :
  plain_item (k, v) -> one_line (k +:+ "=" +:+ v) = true.
Proof.
  intros (_ & Hk & Hv & _). simpl in *. unfold one_line in *.
  apply andb_prop in Hk as [Hk1 Hk2]. apply andb_prop in Hv as [Hv1 Hv2].
  apply negb_true_iff in Hk1, Hk2, Hv1, Hv2.
  rewrite !contains_char_app, Hk1, Hk2, Hv1, Hv2. reflexivity.
Qed.

Lemma load_written_items : forall items config,
  Forall plain_item items ->
  fold_left load_line (file_lines (write_config items)) config = set_items config items.
Proof.
  induction items as [|[k v] rest IH]; intros config Hall; [reflexivity|].
  inversion Hall as [|? ? Hitem Hrest]; subst.
  simpl write_config.
  replace (k +:+ "=" +:+ v +:+ String LF "" +:+ write_config rest)
    with ((k +:+ "=" +:+ v) +:+ String LF (write_config rest))
    by (rewrite !ConverterFacts.append_assoc; reflexivity).
  rewrite file_lines_line by (apply one_line_item; exact Hitem).
  simpl fold_left.
  replace ((k +:+ "=" +:+ v) +:+ String LF "") with (k +:+ "=" +:+ v +:+ String LF "")
    by (rewrite !ConverterFacts.append_assoc; reflexivity).
  rewrite load_written_line by exact Hitem.
  apply IH. exact Hrest.
Qed.

Lemma dict_get_app {V} (d e : dict V) k :
  dict_get (d ++ e) k = match dict_get d k with Some v => Some v | None => dict_get e k end.
Proof.
  induction d as [|[k0 v0] d IH]; [reflexivity|].
  simpl. destruct (String.eqb k0 k); [reflexivity|exact IH].
Qed.

Lemma dict_set_fresh {V} (d : dict V) k v :
  dict_get d k = None -> dict_set d k v = d ++ [(k, v)].
Proof.
  induction d as [|[k0 v0] d IH]; simpl; [reflexivity|].
  destruct (String.eqb k0 k); [discriminate|]. intros H. rewrite (IH H). reflexivity.
Qed.

Lemma set_items_fresh : forall items config,
  NoDup (items.*1) ->
  (forall k, k ∈ items.*1 -> dict_get config k = None) ->
  set_items config items = config ++ items.
Proof.
  induction items as [|[k v] rest IH]; intros config Hnd Hfresh.
  - simpl. rewrite app_nil_r. reflexivity.
  - rewrite fmap_cons in Hnd. apply NoDup_cons in Hnd as [Hk Hnd]. simpl in Hk.
    change (set_items config ((k, v) :: rest)) with (set_items (dict_set config k v) rest).
    rewrite dict_set_fresh by (apply Hfresh; left).
    rewrite IH; [rewrite <- app_assoc; reflexivity|exact Hnd|].
    intros k' Hk'. rewrite dict_get_app, Hfresh by (right; exact Hk').
    simpl. destruct (String.eqb k k') eqn:E; [|reflexivity].
    apply String.eqb_eq in E. subst k'. contradiction.
Qed.

(** What [generate_auth_url] writes, [load_config] reads back: for a config
    whose keys have no ['='] and no leading white space, whose values have
    no trailing white space, and where no key or value has a line break,
    the dict read from the written file is the config itself, with its
    items in the same order (an empty value included).  Without the file,
    the result is [None]. *)
Theorem load_config_reads_written (config : dict string) :
  Forall plain_item config ->
  NoDup (config.*1) ->
  load_config (Some (write_config config)) = Some config /\
  load_config None = None.
Proof.
  intros Hall Hnd. split; [|reflexivity].
  unfold load_config. f_equal.
  rewrite load_written_items by exact Hall.
  apply (set_items_fresh config [] Hnd). reflexivity.
Qed.

(** The config of a run, with the empty client secret of a public client. *)
Definition sample_config : dict string :=
  [("client_id", "abc123");
   ("client_secret", "");
   ("redirect_uri", "http://127.0.0.1:23456/oauth/callback");
   ("code_verifier", "dmVyaWZpZXI");
   ("state", "1b9d6bcd-bbfd-4b2d-9b5d-ab8dfbbd4bed");
   ("region", "us-east-1")].

Lemma load_config_reads_written_witness :
  load_config (Some (write_config sample_config)) = Some sample_config.
Proof.
  refine (proj1 (load_config_reads_written sample_config _ _)).
  - repeat constructor.
  - apply (bool_decide_unpack (NoDup (sample_config.*1))). vm_compute. exact I.
Defined.

End AuthConfigFacts.

(* ===================================================================== *)
(** * The aggregation of the non-streaming branch, on the data of the events *)
(* ===================================================================== *)

Module AggregationFacts.
Import Py Parser Streaming Server ServerFacts StreamRuns.

Section Aggregation.

Variable json_loads : string -> option json.

Definition aggregate_from (a : aggregate) (es : list sse_event) : aggregate :=
  fold_left (fun a e => aggregate_data json_loads (sse_data e) a) es a.

Lemma aggregate_from_app a es1 es2 :
  aggregate_from a (es1 ++ es2) = aggregate_from (aggregate_from a es1) es2.
Proof. unfold aggregate_from. apply fold_left_app. Qed.

Definition text_block_of (text : string) : json :=
  JObj [("type", JStr "text"); ("text", JStr text)].

(** Text deltas for block 0 are appended to its text. *)
Lemma aggregate_text_deltas usage stop_reason : forall cs text,
  aggregate_from {| final_content := [text_block_of text];
                    usage := usage; stop_reason := stop_reason |}
    (events_of (text_deltas 0 cs))
  = {| final_content := [text_block_of (text +:+ join "" cs)];
       usage := usage; stop_reason := stop_reason |}.
Proof.
  induction cs as [|c cs IH]; intros text.
  - simpl. rewrite ConverterFacts.append_nil_r. reflexivity.
  - rewrite text_deltas_cons. unfold events_of in *. rewrite concat_app, aggregate_from_app.
    rewrite join_empty_cons.
    destruct c as [|x c].
    + simpl concat. simpl aggregate_from at 2. apply IH.
    + change (aggregate_from _ (concat (text_deltas 0 [String x c])))
        with {| final_content := [text_block_of (text +:+ String x c)];
                usage := usage; stop_reason := stop_reason |}.
      rewrite IH, ConverterFacts.append_assoc. reflexivity.
Qed.


Variable json_dumps : json -> string.

Definition output_tokens_usage (n : Z) : json := JObj [("output_tokens", JInt n)].

(** What the [try] block of the loop computes from the data of the events
    of a text-only reply: one text block with the whole text, the stop
    reason and the usage of the [message_delta] event. *)
Theorem aggregated_text_reply (model : string) (input_tokens : Z) (payload : dict json)
    (c : string) (cs : list string) (ended : bool) :
  aggregate_events json_loads
    (events_of (fst (fst (event_generator json_dumps (text_reply payload (c :: cs) ended)
                            (init model input_tokens)))))
  = {| final_content := [text_block_of (join "" (c :: cs))];
       usage := output_tokens_usage
                  (Z.max 1 (Z.of_nat (String.length (join "" (c :: cs))) / 4));
       stop_reason := JStr "end_turn" |}.
Proof.
  destruct (text_reply_run json_dumps model input_tokens payload c cs ended) as [h' ->].
  cbn [fst]. change (aggregate_events json_loads) with (aggregate_from init_aggregate).
  rewrite !StreamingFacts.events_of_app, !aggregate_from_app.
  change (aggregate_from init_aggregate (events_of _))
    with {| final_content := [text_block_of ""];
            usage := usage init_aggregate; stop_reason := stop_reason init_aggregate |}.
  rewrite aggregate_text_deltas.
  change ("" +:+ join "" (c :: cs)) with (join "" (c :: cs)).
  reflexivity.
Qed.

(** ** A tool call *)

Definition tool_block_of (id name : string) (input : json) (partial : option string)
    : json :=
  JObj ([("type", JStr "tool_use"); ("id", JStr id); ("name", JStr name); ("input", input)]
        ++ match partial with Some p => [("partial_json", JStr p)] | None => [] end).

Definition add_fragments (partial : option string) (fragments : list string)
    : option string :=
  match List.filter nonempty_text fragments with
  | [] => partial
  | _ => Some (match partial with Some p => p | None => "" end +:+ join "" fragments)
  end.

Lemma py_index_last {A} (pre : list A) (x : A) :
  py_index (pre ++ [x]) (Z.of_nat (length pre)) = Some x.
Proof.
  unfold py_index. rewrite length_app. simpl length.
  replace (0 <=? Z.of_nat (length pre))%Z with true by (symmetry; apply Z.leb_le; lia).
  replace (Z.of_nat (length pre) <? Z.of_nat (length pre + 1))%Z with true
    by (symmetry; apply Z.ltb_lt; lia).
  simpl. rewrite Nat2Z.id. apply list_lookup_middle. reflexivity.
Qed.

Lemma py_setitem_last {A} (pre : list A) (x y : A) :
  py_setitem (pre ++ [x]) (Z.of_nat (length pre)) y = Some (pre ++ [y]).
Proof.
  unfold py_setitem. rewrite length_app. simpl length.
  replace (0 <=? Z.of_nat (length pre))%Z with true by (symmetry; apply Z.leb_le; lia).
  replace (Z.of_nat (length pre) <? Z.of_nat (length pre + 1))%Z with true
    by (symmetry; apply Z.ltb_lt; lia).
  simpl. rewrite Nat2Z.id. f_equal.
  rewrite insert_app_r_alt by lia. rewrite Nat.sub_diag. reflexivity.
Qed.

Lemma store_block_last pre x y usage stop_reason :
  store_block (Z.of_nat (length pre)) y
    {| final_content := pre ++ [x]; usage := usage; stop_reason := stop_reason |}
  = {| final_content := pre ++ [y]; usage := usage; stop_reason := stop_reason |}.
Proof. unfold store_block. cbn [final_content]. rewrite py_setitem_last. reflexivity. Qed.

Lemma block_at_last d pre x usage stop_reason :
  get_or d "index" (JInt 0) = JInt (Z.of_nat (length pre)) ->
  block_at d {| final_content := pre ++ [x]; usage := usage; stop_reason := stop_reason |}
  = Some (Z.of_nat (length pre), x).
Proof.
  intros H. unfold block_at. rewrite H. cbn [as_int final_content].
  rewrite py_index_last. reflexivity.
Qed.


Lemma aggregate_tool_delta pre id name partial fragment usage stop_reason :
  aggregate_from {| final_content := pre ++ [tool_block_of id name (JObj []) partial];
                    usage := usage; stop_reason := stop_reason |}
    (build_tool_use_input_delta (Z.of_nat (length pre)) fragment)
  = {| final_content :=
         pre ++ [tool_block_of id name (JObj [])
                   (Some (match partial with Some p => p | None => "" end +:+ fragment))];
       usage := usage; stop_reason := stop_reason |}.
Proof.
  unfold build_tool_use_input_delta, _sse_format, aggregate_from.
  cbn [fold_left sse_data]. unfold aggregate_data.
  cbn [jget get_or dict_get String.eqb Ascii.eqb Bool.eqb is_str].
  unfold on_content_block_delta.
  rewrite block_at_last by reflexivity.
  destruct partial as [p|]; unfold tool_block_of; simpl;
    rewrite store_block_last; reflexivity.
Qed.

Lemma aggregate_tool_deltas pre id name usage stop_reason : forall fragments partial,
  aggregate_from {| final_content := pre ++ [tool_block_of id name (JObj []) partial];
                    usage := usage; stop_reason := stop_reason |}
    (events_of (tool_deltas (Z.of_nat (length pre)) fragments))
  = {| final_content :=
         pre ++ [tool_block_of id name (JObj []) (add_fragments partial fragments)];
       usage := usage; stop_reason := stop_reason |}.
Proof.
  induction fragments as [|f fs IH]; intros partial; [reflexivity|].
  rewrite tool_deltas_cons. unfold events_of in *. rewrite concat_app, aggregate_from_app.
  unfold add_fragments. rewrite join_empty_cons.
  destruct f as [|x f].
  - simpl concat. simpl aggregate_from at 2. rewrite IH. reflexivity.
  - change (concat (tool_deltas (Z.of_nat (length pre)) [String x f]))
      with (build_tool_use_input_delta (Z.of_nat (length pre)) (String x f)).
    rewrite aggregate_tool_delta, IH. unfold add_fragments.
    change (List.filter nonempty_text (String x f :: fs))
      with (String x f :: List.filter nonempty_text fs).
    cbv iota.
    destruct (List.filter nonempty_text fs) eqn:Efs.
    + assert (Hj : join "" fs = "").
      { rewrite <- join_nonempty, Efs. reflexivity. }
      rewrite Hj, ConverterFacts.append_nil_r. reflexivity.
    + rewrite ConverterFacts.append_assoc. reflexivity.
Qed.


Lemma aggregate_tool_start pre id name usage stop_reason :
  aggregate_from {| final_content := pre; usage := usage; stop_reason := stop_reason |}
    (build_tool_use_start (Z.of_nat (length pre)) (JStr id) (JStr name))
  = {| final_content := pre ++ [tool_block_of id name (JObj []) None];
       usage := usage; stop_reason := stop_reason |}.
Proof.
  unfold build_tool_use_start, _sse_format, aggregate_from.
  cbn [fold_left sse_data]. unfold aggregate_data.
  cbn [jget get_or dict_get String.eqb Ascii.eqb Bool.eqb is_str].
  unfold on_content_block_start.
  cbn [jget get_or dict_get String.eqb Ascii.eqb Bool.eqb as_int final_content
       set_final_content Server.usage Server.stop_reason].
  replace (Z.of_nat (length pre) + 1 - Z.of_nat (length pre))%Z with 1%Z by lia.
  change (repeat JNull (Z.to_nat 1)) with [JNull].
  apply store_block_last.
Qed.

(** The [input] a tool-use block ends with. *)
Definition input_of (partial : option string) : json :=
  match partial with
  | Some text => match json_loads text with Some v => v | None => JObj [] end
  | None => JObj []
  end.

Lemma aggregate_tool_stop pre id name partial usage stop_reason :
  aggregate_from {| final_content := pre ++ [tool_block_of id name (JObj []) partial];
                    usage := usage; stop_reason := stop_reason |}
    (build_content_block_stop (Z.of_nat (length pre)))
  = {| final_content := pre ++ [tool_block_of id name (input_of partial) None];
       usage := usage; stop_reason := stop_reason |}.
Proof.
  unfold build_content_block_stop, _sse_format, aggregate_from.
  cbn [fold_left sse_data]. unfold aggregate_data.
  cbn [jget get_or dict_get String.eqb Ascii.eqb Bool.eqb is_str].
  unfold on_content_block_stop.
  rewrite block_at_last by reflexivity.
  destruct partial as [p|]; unfold tool_block_of, input_of; simpl; [|reflexivity].
  destruct (json_loads p) as [v|]; simpl; rewrite store_block_last; reflexivity.
Qed.

Definition parsed_input (fragments : list string) : json :=
  input_of (add_fragments None fragments).

(** What the [try] block of the loop computes from the data of the events
    of a reply that ends in a tool call: the text block (if there is text)
    with the whole text, then the tool-use block, whose [input] is the
    parsed concatenation of the fragments, or the empty object of its start
    event when there is no fragment or the concatenation is not JSON; no
    [partial_json] is left. *)
Theorem aggregated_tool_reply (model : string) (input_tokens : Z) (payload : dict json)
    (cs : list string) (id name : string) (fragments : list string) :
  id <> "" -> name <> "" ->
  aggregate_events json_loads
    (events_of (fst (fst (event_generator json_dumps
                            (tool_reply payload cs id name fragments)
                            (init model input_tokens)))))
  = {| final_content :=
         match cs with [] => [] | _ => [text_block_of (join "" cs)] end
         ++ [tool_block_of id name (parsed_input fragments) None];
       usage := output_tokens_usage
                  (Z.max 1 (Z.of_nat (String.length (join "" cs)
                                      + String.length (join "" fragments)) / 4));
       stop_reason := JStr "end_turn" |}.
Proof.
  intros Hid Hname.
  destruct (tool_reply_run json_dumps model input_tokens payload cs id name fragments
              Hid Hname) as [h' ->].
  cbn [fst]. change (aggregate_events json_loads) with (aggregate_from init_aggregate).
  rewrite StreamingFacts.events_of_app, aggregate_from_app.
  change (aggregate_from init_aggregate (events_of [build_message_start _ _ _; build_ping]))
    with init_aggregate.
  rewrite StreamingFacts.events_of_app, aggregate_from_app.
  set (pre := match cs with [] => [] | _ => [text_block_of (join "" cs)] end).
  assert (Htext : aggregate_from init_aggregate (events_of (text_block cs))
                  = {| final_content := pre; usage := usage init_aggregate;
                       stop_reason := stop_reason init_aggregate |}).
  { unfold pre. destruct cs as [|c cs]; [reflexivity|].
    unfold text_block.
    change (events_of (build_content_block_start 0 "text"
                       :: text_deltas 0 (c :: cs) ++ [build_content_block_stop 0]))
      with (events_of [build_content_block_start 0 "text"]
            ++ events_of (text_deltas 0 (c :: cs) ++ [build_content_block_stop 0])).
    rewrite StreamingFacts.events_of_app, !aggregate_from_app.
    change (aggregate_from init_aggregate (events_of [build_content_block_start 0 "text"]))
      with {| final_content := [text_block_of ""]; usage := usage init_aggregate;
              stop_reason := stop_reason init_aggregate |}.
    rewrite aggregate_text_deltas. reflexivity. }
  rewrite Htext.
  assert (Hidx : tool_index cs = Z.of_nat (length pre)).
  { unfold pre. destruct cs; reflexivity. }
  rewrite Hidx.
  change (events_of (?start :: ?deltas ++ ?rest))
    with (start ++ events_of (deltas ++ rest)).
  rewrite aggregate_from_app, aggregate_tool_start.
  rewrite StreamingFacts.events_of_app, aggregate_from_app, aggregate_tool_deltas.
  change (events_of [build_content_block_stop (Z.of_nat (length pre)); ?stop])
    with (build_content_block_stop (Z.of_nat (length pre)) ++ stop).
  rewrite aggregate_from_app, aggregate_tool_stop.
  reflexivity.
Qed.

End Aggregation.

Lemma aggregated_tool_reply_witness :
  aggregate_events (fun s => if String.eqb s "{}" then Some (JObj []) else None)
    (events_of (fst (fst (event_generator (fun _ => "")
                            (tool_reply [] ["On it."] "t1" "read" ["{"; "}"])
                            (init "claude-sonnet-4" 0)))))
  = {| final_content :=
         [text_block_of "On it."; tool_block_of "t1" "read" (JObj []) None];
       usage := output_tokens_usage 2;
       stop_reason := JStr "end_turn" |}.
Proof.
  refine (aggregated_tool_reply (fun s => if String.eqb s "{}" then Some (JObj []) else None)
            (fun _ => "") "claude-sonnet-4" 0 [] ["On it."] "t1" "read" ["{"; "}"] _ _);
    discriminate.
Defined.

End AggregationFacts.

(* ===================================================================== *)
(** * A frame of length zero *)
(* ===================================================================== *)

Module StallFacts.
Import Py Parser ParserFacts.

Section Stall.

Variable decode_utf8 : list byte -> option string.
Variable json_loads : string -> option json.



End Stall.


End StallFacts.

(* ===================================================================== *)
(** * [message_start], over every event sequence *)
(* ===================================================================== *)

Module MessageStartFacts.
Import Py Parser Streaming StreamingFacts.

Definition is_message_start (e : sse_event) : bool :=
  String.eqb (sse_name e) "message_start".

Definition count_message_starts (out : list sse) : nat :=
  length (List.filter is_message_start (events_of out)).

Lemma count_message_starts_app a b :
  count_message_starts (a ++ b) = (count_message_starts a + count_message_starts b)%nat.
Proof.
  unfold count_message_starts. rewrite events_of_app, List.filter_app, length_app.
  reflexivity.
Qed.

(** A generator that emits no [message_start] and leaves the flag alone,
    whether it returns or raises. *)
Definition quiet {A} (m : gen A) : Prop :=
  forall h,
    count_message_starts (fst (fst (m h))) = 0%nat /\
    message_start_sent (snd (fst (m h))) = message_start_sent h.

Lemma quiet_bind {A B} (m : gen A) (k : A -> gen B) :
  quiet m -> (forall a, quiet (k a)) -> quiet (bind m k).
Proof.
  intros Hm Hk h. unfold bind. destruct (Hm h) as [Hc Hf].
  destruct (m h) as [[out1 h1] [a|]]; [|auto].
  destruct (Hk a h1) as [Hc2 Hf2].
  destruct (k a h1) as [[out2 h2] r]. simpl in *.
  rewrite count_message_starts_app, Hc, Hc2, Hf2, Hf. auto.
Qed.

Lemma quiet_self {B} (k : ClaudeStreamHandler -> gen B) :
  (forall h, quiet (k h)) -> quiet (bind self k).
Proof.
  intros Hk h. unfold bind, self. destruct (Hk h h) as [Hc Hf].
  destruct (k h h) as [[out2 h2] r]. simpl in *. auto.
Qed.

Lemma quiet_ret {A} (a : A) : quiet (ret a).
Proof. intros h. split; reflexivity. Qed.

Lemma quiet_raise {A} : quiet (@raise A).
Proof. intros h. split; reflexivity. Qed.

Lemma quiet_when b (m : gen unit) : quiet m -> quiet (when b m).
Proof. destruct b; [auto|intros _; apply quiet_ret]. Qed.

Lemma quiet_yield (s : sse) :
  List.filter is_message_start s = [] -> quiet (yield s).
Proof.
  intros Hs h. unfold yield, count_message_starts, events_of. simpl.
  rewrite app_nil_r, Hs. auto.
Qed.

Lemma quiet_assign f :
  (forall h, message_start_sent (f h) = message_start_sent h) -> quiet (assign f).
Proof. intros Hf h. split; [reflexivity|apply Hf]. Qed.

Ltac quiet_steps :=
  repeat first
    [ apply quiet_ret
    | apply quiet_raise
    | apply quiet_when
    | apply quiet_yield; reflexivity
    | apply quiet_assign; intros ?; reflexivity
    | apply quiet_self; intros ?
    | apply quiet_bind; [|intros ?] ].

Lemma handle_assistant_response_quiet payload : quiet (handle_assistant_response payload).
Proof. unfold handle_assistant_response. monad_steps. quiet_steps. Qed.

Lemma handle_tool_use_quiet json_dumps payload :
  quiet (handle_tool_use json_dumps payload).
Proof.
  unfold handle_tool_use. monad_steps. quiet_steps.
  destruct (set_add _ _); quiet_steps.
Qed.

Lemma handle_assistant_response_end_quiet : quiet handle_assistant_response_end.
Proof. unfold handle_assistant_response_end. monad_steps. quiet_steps. Qed.

Lemma finish_quiet : quiet finish.
Proof.
  unfold finish. monad_steps. quiet_steps.
  destruct (all_str _); quiet_steps.
Qed.


Definition is_initial_response (event : string * dict json) : bool :=
  String.eqb (fst event) "initial-response".

(** One event: a [message_start] is emitted exactly when the flag goes
    from unset to set, which only [initial-response] does. *)
Lemma handle_event_message_start json_dumps event_type payload h :
  let r := handle_event json_dumps event_type payload h in
  (count_message_starts (fst (fst r)) + b2n (message_start_sent h))%nat
  = b2n (message_start_sent (snd (fst r))) /\
  (snd r = None \/
   message_start_sent (snd (fst r))
   = message_start_sent h || String.eqb event_type "initial-response").
Proof.
  cbv zeta. unfold handle_event.
  destruct (String.eqb event_type "initial-response") eqn:E0.
  { unfold handle_initial_response. monad_steps. unfold bind, self.
    destruct h as [? ? ? ? ? ? ? sent ? ? ? ? ? ? ?]. destruct sent; simpl; auto. }
  assert (Hq : forall m : gen unit, quiet m ->
            (count_message_starts (fst (fst (m h))) + b2n (message_start_sent h))%nat
            = b2n (message_start_sent (snd (fst (m h)))) /\
            (snd (m h) = None \/
             message_start_sent (snd (fst (m h))) = message_start_sent h || false)).
  { intros m Hm. destruct (Hm h) as [Hc Hf]. rewrite Hc, Hf, orb_false_r. auto. }
  destruct (String.eqb event_type "assistantResponseEvent");
    [apply Hq, handle_assistant_response_quiet|].
  destruct (String.eqb event_type "toolUseEvent"); [apply Hq, handle_tool_use_quiet|].
  destruct (String.eqb event_type "assistantResponseEnd");
    [apply Hq, handle_assistant_response_end_quiet|].
  apply Hq, quiet_ret.
Qed.

Lemma handle_events_message_start json_dumps : forall events h,
  let r := handle_events json_dumps events h in
  (count_message_starts (fst (fst r)) + b2n (message_start_sent h))%nat
  = b2n (message_start_sent (snd (fst r))) /\
  (snd r = None \/
   message_start_sent (snd (fst r))
   = message_start_sent h || existsb is_initial_response events).
Proof.
  induction events as [|[event_type payload] rest IH]; intros h; cbv zeta.
  - simpl. rewrite orb_false_r. auto.
  - change (handle_events json_dumps ((event_type, payload) :: rest))
      with (handle_event json_dumps event_type payload ;; handle_events json_dumps rest).
    monad_steps. unfold bind.
    destruct (handle_event_message_start json_dumps event_type payload h) as [Hc Hf].
    destruct (handle_event json_dumps event_type payload h) as [[out1 h1] [[]|]];
      cbn [fst snd] in *; [|auto].
    destruct (IH h1) as [Hc2 Hf2].
    destruct (handle_events json_dumps rest h1) as [[out2 h2] r]; cbn [fst snd] in *.
    rewrite count_message_starts_app. split; [lia|].
    destruct Hf as [Hf|Hf]; [discriminate|].
    destruct Hf2 as [Hf2|Hf2]; [auto|right].
    rewrite Hf2, Hf. cbn [existsb]. unfold is_initial_response at 1. cbn [fst].
    rewrite orb_assoc. reflexivity.
Qed.

(** Over a whole reply, [message_start] is emitted at most once; and unless
    the generator raises, it is emitted exactly when the upstream sent an
    [initial-response] event: a reply without one has no [message_start],
    and repeated ones add nothing. *)
Theorem message_start_at_most_once (json_dumps : json -> string)
    (events : list (string * dict json)) (model : string) (input_tokens : Z) :
  let run := event_generator json_dumps events (init model input_tokens) in
  (count_message_starts (fst (fst run)) <= 1)%nat /\
  (snd run = None \/
   count_message_starts (fst (fst run)) = b2n (existsb is_initial_response events)).
Proof.
  cbv zeta. unfold event_generator. monad_steps. unfold bind.
  destruct (handle_events_message_start json_dumps events (init model input_tokens))
    as [Hc Hf].
  destruct (handle_events json_dumps events (init model input_tokens))
    as [[out1 h1] [[]|]]; cbn [fst snd] in *.
  - destruct (finish_quiet h1) as [Hc2 Hf2].
    destruct (finish h1) as [[out2 h2] r]; cbn [fst snd] in *.
    rewrite count_message_starts_app, Hc2, Nat.add_0_r.
    change (message_start_sent (init model input_tokens)) with false in *.
    simpl b2n in Hc. rewrite Nat.add_0_r in Hc.
    split; [rewrite Hc; destruct (message_start_sent h1); simpl; lia|].
    destruct Hf as [Hf|Hf]; [discriminate|]. right. rewrite Hc, Hf. reflexivity.
  - change (message_start_sent (init model input_tokens)) with false in *.
    simpl b2n in Hc. rewrite Nat.add_0_r in Hc.
    split; [rewrite Hc; destruct (message_start_sent h1); simpl; lia|auto].
Qed.

End MessageStartFacts.

(* ===================================================================== *)
(** * Requests the converter accepts *)
(* ===================================================================== *)

Module TypedRequestFacts.
Import Py Converter ConverterFacts.

(** ** Requests whose blocks have the value types of the Claude API *)

Definition is_jstr (j : json) : bool :=
  match j with JStr _ => true | _ => false end.

(** A [text] block has a [str] text (or none). *)
Definition text_typed (block : dict json) : bool :=
  negb (is_str (jget block "type") "text") || is_jstr (get_or block "text" (JStr "")).

(** An item of the content list of a [tool_result]: a [text] it carries is
    a [str]. *)
Definition item_typed (item : json) : bool :=
  match item with
  | JObj d =>
      if is_str (jget d "type") "text" then is_jstr (get_or d "text" (JStr ""))
      else if dict_has d "text" then is_jstr (jget d "text")
      else true
  | _ => true
  end.

Definition result_typed (block : dict json) : bool :=
  negb (is_str (jget block "type") "tool_result")
  || match get_or block "content" (JArr []) with
     | JArr items => forallb item_typed items
     | _ => true
     end.

(** The [source] of an [image] block is a dict (or absent), and the media
    type of a base64 source is a [str] (or absent). *)
Definition image_typed (block : dict json) : bool :=
  negb (is_str (jget block "type") "image")
  || match get_or block "source" (JObj []) with
     | JObj source =>
         negb (is_str (jget source "type") "base64")
         || is_jstr (get_or source "media_type" (JStr "image/png"))
     | _ => false
     end.

(** The [id] of a [tool_use] block is hashable (a [str], a number, ...) or
    falsy. *)
Definition tool_use_typed (block : dict json) : bool :=
  negb (is_str (jget block "type") "tool_use")
  || negb (truthy (jget block "id")) || hashable (jget block "id").

Definition block_typed (block : dict json) : bool :=
  text_typed block && result_typed block && image_typed block && tool_use_typed block.

Definition content_typed (c : content) : bool :=
  match c with
  | CStr _ => true
  | CList blocks => forallb block_typed blocks
  end.

Definition request_typed (req : ClaudeRequest) : bool :=
  forallb (fun m => content_typed (msg_content m)) (messages req)
  && match system req with Some c => content_typed c | None => true end.

Lemma block_typed_parts block :
  block_typed block = true ->
  text_typed block = true /\ result_typed block = true /\
  image_typed block = true /\ tool_use_typed block = true.
Proof.
  unfold block_typed. intros H.
  apply andb_prop in H as [H H4]. apply andb_prop in H as [H H3].
  apply andb_prop in H as [H1 H2]. auto.
Qed.

(** ** Texts *)

Lemma all_str_app (a b : list json) (sa sb : list string) :
  all_str a = Some sa -> all_str b = Some sb -> all_str (a ++ b) = Some (sa ++ sb).
Proof.
  revert sa. induction a as [|x a IH]; intros sa Ha Hb; simpl in *.
  - simplify_eq. exact Hb.
  - destruct x; try discriminate.
    destruct (all_str a) as [sa'|]; simpl in Ha; [|discriminate]. simplify_eq.
    rewrite (IH sa' eq_refl Hb). reflexivity.
Qed.

Lemma text_parts_strs : forall blocks,
  forallb block_typed blocks = true ->
  exists strs, all_str (text_parts blocks) = Some strs.
Proof.
  induction blocks as [|block rest IH]; intros H; [exists []; reflexivity|].
  simpl in H. apply andb_prop in H as [Hb Hrest].
  destruct (IH Hrest) as [strs Hs].
  apply block_typed_parts in Hb as (Ht & _).
  unfold text_typed in Ht.
  change (text_parts (block :: rest))
    with ((if is_str (jget block "type") "text"
           then [get_or block "text" (JStr "")] else []) ++ text_parts rest).
  destruct (is_str (jget block "type") "text"); simpl in Ht.
  - destruct (get_or block "text" (JStr "")) as [| | |s| |]; try discriminate.
    exists (s :: strs). simpl. rewrite Hs. reflexivity.
  - exists strs. exact Hs.
Qed.

Lemma join_json_text_parts sep blocks :
  forallb block_typed blocks = true ->
  exists text, join_json sep (text_parts blocks) = Some text.
Proof.
  intros H. destruct (text_parts_strs blocks H) as [strs Hs].
  unfold join_json. rewrite Hs. eexists. reflexivity.
Qed.

Lemma extract_text_typed c :
  content_typed c = true -> exists text, extract_text_from_content c = Some text.
Proof.
  destruct c as [s|blocks]; intros H; [eexists; reflexivity|].
  apply join_json_text_parts. exact H.
Qed.

(** ** Tool results *)

Definition text_item (j : json) : Prop := exists s, j = JObj [("text", JStr s)].

Lemma any_text_items : forall items,
  Forall text_item items -> exists b, any_text items = Some b.
Proof.
  induction items as [|x items IH]; intros H; [eexists; reflexivity|].
  inversion H as [|? ? [s ->] Hrest]; subst. simpl.
  destruct (negb (String.eqb (strip s) "")); [eexists; reflexivity|apply IH, Hrest].
Qed.

Lemma tool_result_content_items raw :
  match raw with JArr items => forallb item_typed items = true | _ => True end ->
  Forall text_item (tool_result_content raw).
Proof.
  destruct raw as [| | |s|items|]; simpl; intros H; try constructor.
  - eexists. reflexivity.
  - constructor.
  - induction items as [|item rest IH]; simpl in *; [constructor|].
    apply andb_prop in H as [Hi Hrest].
    apply Forall_app. split; [|apply IH, Hrest].
    destruct item as [| | |s| |d]; simpl in *; try constructor.
    + eexists. reflexivity.
    + constructor.
    + destruct (is_str (jget d "type") "text").
      * destruct (get_or d "text" (JStr "")) as [| | |s| |]; try discriminate.
        constructor; [eexists; reflexivity|constructor].
      * destruct (dict_has d "text"); [|constructor].
        destruct (jget d "text") as [| | |s| |]; try discriminate.
        constructor; [eexists; reflexivity|constructor].
Qed.

Lemma process_tool_result_block_typed block tool_results :
  is_str (jget block "type") "tool_result" = true ->
  block_typed block = true ->
  exists updated, process_tool_result_block block tool_results = Some updated.
Proof.
  intros Hty Hb. apply block_typed_parts in Hb as (_ & Hr & _).
  unfold result_typed in Hr. rewrite Hty in Hr. simpl in Hr.
  unfold process_tool_result_block.
  destruct (any_text_items (tool_result_content (get_or block "content" (JArr []))))
    as [b Hb].
  { apply tool_result_content_items.
    destruct (get_or block "content" (JArr [])); auto. }
  rewrite Hb. simpl.
  destruct (extend_existing _ _ _); eexists; reflexivity.
Qed.

Lemma collect_tool_results_typed : forall blocks acc,
  forallb block_typed blocks = true ->
  exists res, collect_tool_results blocks acc = Some res.
Proof.
  induction blocks as [|block rest IH]; intros acc H; [eexists; reflexivity|].
  simpl in H. apply andb_prop in H as [Hb Hrest]. simpl.
  destruct (is_str (jget block "type") "text"); [apply IH, Hrest|].
  destruct (is_str (jget block "type") "tool_result") eqn:Hty; [|apply IH, Hrest].
  destruct (process_tool_result_block_typed block
              (match acc with Some trs => trs | None => [] end) Hty Hb) as [upd Hu].
  rewrite Hu. simpl. apply IH, Hrest.
Qed.


(** ** Images *)

Lemma image_of_block_typed block :
  block_typed block = true -> exists imgs, image_of_block block = Some imgs.
Proof.
  intros Hb. apply block_typed_parts in Hb as (_ & _ & Hi & _).
  unfold image_typed in Hi. unfold image_of_block.
  destruct (is_str (jget block "type") "image"); [|eexists; reflexivity].
  simpl in Hi.
  destruct (get_or block "source" (JObj [])) as [| | | | |source]; try discriminate.
  destruct (is_str (jget source "type") "base64"); [|eexists; reflexivity].
  simpl in Hi.
  destruct (get_or source "media_type" (JStr "image/png")) as [| | |m| |];
    try discriminate.
  simpl. destruct (contains_char "/" m); eexists; reflexivity.
Qed.

Lemma images_of_blocks_typed : forall blocks,
  forallb block_typed blocks = true -> exists imgs, images_of_blocks blocks = Some imgs.
Proof.
  induction blocks as [|block rest IH]; intros H; [eexists; reflexivity|].
  simpl in H. apply andb_prop in H as [Hb Hrest].
  destruct (image_of_block_typed block Hb) as [imgs Hi].
  destruct (IH Hrest) as [more Hm].
  simpl. rewrite Hi. simpl. rewrite Hm. eexists. reflexivity.
Qed.

Lemma extract_images_typed c :
  content_typed c = true ->
  exists l, extract_images_from_content c
            = Some (match l with [] => None | _ => Some l end).
Proof.
  destruct c as [s|blocks]; intros H; [exists []; reflexivity|].
  destruct (images_of_blocks_typed blocks H) as [imgs Hi].
  exists imgs. simpl. rewrite Hi. reflexivity.
Qed.

(** ** Tool uses *)

Lemma collect_tool_uses_typed : forall blocks seen,
  forallb block_typed blocks = true ->
  exists r, collect_tool_uses blocks seen = Some r.
Proof.
  induction blocks as [|block rest IH]; intros seen H; [eexists; reflexivity|].
  simpl in H. apply andb_prop in H as [Hb Hrest].
  apply block_typed_parts in Hb as (_ & _ & _ & Hu).
  unfold tool_use_typed in Hu. simpl.
  destruct (is_str (jget block "type") "tool_use"); [|apply IH, Hrest].
  destruct (truthy (jget block "id")); [|apply IH, Hrest].
  simpl in Hu. rewrite Hu.
  destruct (existsb (py_eq (jget block "id")) seen); [apply IH, Hrest|].
  destruct (IH (seen ++ [jget block "id"]) Hrest) as [r Hr].
  rewrite Hr. eexists. reflexivity.
Qed.

(** ** User messages of the first pass *)

(** A message as the first pass builds it: its [content] is a [str], its
    [images] are absent or a non-empty list. *)
Definition user_message_shape (u_msg : dict json) : Prop :=
  (exists text, get_or u_msg "content" (JStr "") = JStr text) /\
  (exists l, jget u_msg "images" = images_value l).

Lemma convert_user_message_typed c :
  content_typed c = true ->
  exists u_msg, convert_user_message c = Some u_msg /\ user_message_shape u_msg.
Proof.
  intros H. unfold convert_user_message.
  destruct (extract_images_typed c H) as [l Hl]. rewrite Hl. simpl.
  assert (Hr : exists r,
            match c with
            | CList blocks =>
                trs ← collect_tool_results blocks None;
                text ← join_json NL (text_parts blocks);
                Some (text, trs)
            | CStr _ => text ← extract_text_from_content c; Some (text, None)
            end = Some r).
  { destruct c as [s|blocks]; [eexists; reflexivity|].
    destruct (collect_tool_results_typed blocks None H) as [trs Ht].
    destruct (join_json_text_parts NL blocks H) as [text Hx].
    rewrite Ht. simpl. rewrite Hx. eexists. reflexivity. }
  destruct Hr as [[text trs] Hr]. rewrite Hr. simpl.
  eexists. split; [reflexivity|].
  unfold user_message_shape.
  destruct l as [|x l]; destruct (nonempty_list trs); simpl;
    (split; [eexists; reflexivity|]).
  - exists []. reflexivity.
  - exists []. reflexivity.
  - exists (x :: l). reflexivity.
  - exists (x :: l). reflexivity.
Qed.


(** ** The two passes of [process_history] *)

Lemma shapes_lists : forall msgs,
  Forall user_message_shape msgs ->
  exists texts image_lists,
    map (fun m => get_or m "content" (JStr "")) msgs = map JStr texts /\
    map (fun m => jget m "images") msgs = map images_value image_lists.
Proof.
  induction msgs as [|m msgs IH]; intros H; [exists [], []; split; reflexivity|].
  inversion H as [|? ? [[text Ht] [l Hl]] Hrest]; subst.
  destruct (IH Hrest) as (texts & ils & Hts & Hils).
  exists (text :: texts), (l :: ils). simpl. rewrite Ht, Hl, Hts, Hils. split; reflexivity.
Qed.

Lemma merge_user_messages_total msgs :
  Forall user_message_shape msgs ->
  exists merged, merge_user_messages msgs = Some merged.
Proof.
  intros H. destruct (shapes_lists msgs H) as (texts & image_lists & Htexts & Himgs).
  unfold merge_user_messages.
  destruct msgs as [|m0 msgs0] eqn:Em; [eexists; reflexivity|].
  rewrite <- Em in *. clear Em H m0 msgs0.
  match goal with |- context [fold_left merge_step msgs ?st] =>
    destruct (merge_fold msgs st) as [Hc Hi] end.
  simpl in Hc, Hi. rewrite Htexts, filter_truthy_strs in Hc.
  rewrite Himgs, filter_truthy_images in Hi.
  rewrite Hc, Hi. unfold join_json. rewrite all_str_strs. simpl.
  destruct (List.filter nonempty_images image_lists) as [|l ls] eqn:Ef.
  - eexists. reflexivity.
  - set (kept := l :: ls) in *.
    assert (HF : map JArr kept = JArr l :: map JArr ls) by reflexivity.
    destruct (map JArr kept) as [|j js] eqn:Ej; [discriminate|].
    rewrite <- Ej. rewrite py_slice_last_two.
    assert (Hl2 : last_two (map JArr kept) = map JArr (last_two kept)).
    { unfold last_two. rewrite length_map, skipn_map. reflexivity. }
    rewrite Hl2, extend_all_lists. simpl. eexists. reflexivity.
Qed.

(** An entry of [raw_history]: a user entry with a message of that shape,
    or an entry without [userInputMessage]. *)
Definition raw_entry_ok (item : dict json) : Prop :=
  (exists u_msg, dict_get item "userInputMessage" = Some (JObj u_msg) /\
                 user_message_shape u_msg) \/
  dict_get item "userInputMessage" = None.

Lemma second_pass_total : forall raw_history pending,
  Forall raw_entry_ok raw_history ->
  Forall user_message_shape pending ->
  exists history, second_pass raw_history pending = Some history.
Proof.
  induction raw_history as [|item rest IH]; intros pending Hraw Hpend; simpl.
  - destruct pending as [|p ps]; [eexists; reflexivity|].
    destruct (merge_user_messages_total _ Hpend) as [merged Hm].
    rewrite Hm. eexists. reflexivity.
  - inversion Hraw as [|? ? Hitem Hrest]; subst.
    destruct Hitem as [(u_msg & Hu & Hshape)|Hnone].
    + rewrite Hu. apply IH; [exact Hrest|].
      apply Forall_app. split; [exact Hpend|]. constructor; [exact Hshape|constructor].
    + rewrite Hnone.
      destruct (dict_has item "assistantResponseMessage"); [|apply IH; assumption].
      destruct (IH [] Hrest ltac:(constructor)) as [more Hmore].
      destruct pending as [|p ps].
      * rewrite Hmore. eexists. reflexivity.
      * destruct (merge_user_messages_total _ Hpend) as [merged Hm].
        rewrite Hm. simpl. rewrite Hmore. eexists. reflexivity.
Qed.

Section Total.

Variable uuid4 : nat -> string.
Variable timestamp : string.

Lemma first_pass_total : forall msgs seen n,
  forallb (fun m => content_typed (msg_content m)) msgs = true ->
  exists raw_history,
    first_pass uuid4 msgs seen n = Some raw_history /\ Forall raw_entry_ok raw_history.
Proof.
  induction msgs as [|msg rest IH]; intros seen n H.
  - eexists. split; [reflexivity|constructor].
  - simpl in H. apply andb_prop in H as [Hm Hrest]. simpl.
    destruct (String.eqb (role msg) "user").
    + destruct (convert_user_message_typed _ Hm) as (u_msg & Hu & Hshape).
      destruct (IH seen n Hrest) as (more & Hmore & Hok).
      rewrite Hu. simpl. rewrite Hmore. eexists. split; [reflexivity|].
      constructor; [|exact Hok]. left. exists u_msg. split; [reflexivity|exact Hshape].
    + destruct (String.eqb (role msg) "assistant"); [|apply IH, Hrest].
      destruct (extract_text_typed _ Hm) as [text Ht]. rewrite Ht. simpl.
      assert (Hr : exists r,
                match msg_content msg with
                | CList blocks => collect_tool_uses blocks seen
                | CStr _ => Some ([], seen)
                end = Some r).
      { destruct (msg_content msg) as [s|blocks]; [eexists; reflexivity|].
        apply collect_tool_uses_typed. exact Hm. }
      destruct Hr as [r Hr]. rewrite Hr. simpl.
      destruct (IH (snd r) (S n) Hrest) as (more & Hmore & Hok).
      rewrite Hmore. eexists. split; [reflexivity|].
      constructor; [|exact Hok]. right. reflexivity.
Qed.

Lemma process_history_total msgs n :
  forallb (fun m => content_typed (msg_content m)) msgs = true ->
  exists history, process_history uuid4 msgs n = Some history.
Proof.
  intros H. unfold process_history.
  destruct (first_pass_total msgs [] n H) as (raw & Hraw & Hok).
  rewrite Hraw. simpl. apply second_pass_total; [exact Hok|constructor].
Qed.


Lemma system_text_typed c :
  content_typed c = true -> exists text, system_text c = Some text.
Proof.
  destruct c as [s|blocks]; intros H; [eexists; reflexivity|].
  apply join_json_text_parts. exact H.
Qed.

Lemma format_content_total prompt_content has_tool_result long_tools sys :
  match sys with Some c => content_typed c | None => true end = true ->
  exists formatted,
    format_content timestamp prompt_content has_tool_result long_tools sys = Some formatted.
Proof.
  intros H. unfold format_content.
  destruct (system_truthy sys && _)%bool; [|eexists; reflexivity].
  destruct sys as [c|].
  - destruct (system_text_typed c H) as [text Ht]. rewrite Ht. eexists. reflexivity.
  - eexists. reflexivity.
Qed.

Lemma current_turn_total (last_msg : option ClaudeMessage) :
  match last_msg with Some m => content_typed (msg_content m) | None => true end = true ->
  exists turn, current_turn last_msg = Some turn.
Proof.
  intros H. unfold current_turn. destruct last_msg as [m|]; [|eexists; reflexivity].
  destruct (String.eqb (role m) "user"); [|eexists; reflexivity].
  destruct (extract_images_typed _ H) as [l Hl]. rewrite Hl. simpl.
  destruct (msg_content m) as [s|blocks]; [eexists; reflexivity|].
  destruct (collect_tool_results_typed blocks None H) as [trs Ht].
  destruct (join_json_text_parts NL blocks H) as [text Hx].
  rewrite Ht. simpl. rewrite Hx. eexists. reflexivity.
Qed.

Lemma last_typed : forall msgs,
  forallb (fun m => content_typed (msg_content m)) msgs = true ->
  match List.last (map Some msgs) None with
  | Some m => content_typed (msg_content m)
  | None => true
  end = true.
Proof.
  induction msgs as [|m rest IH]; intros H; [reflexivity|].
  simpl in H. apply andb_prop in H as [Hm Hrest].
  destruct rest as [|m' rest']; [exact Hm|]. apply (IH Hrest).
Qed.

Lemma removelast_typed : forall msgs,
  forallb (fun m => content_typed (msg_content m)) msgs = true ->
  forallb (fun m => content_typed (msg_content m)) (removelast msgs) = true.
Proof.
  induction msgs as [|m rest IH]; intros H; [reflexivity|].
  simpl in H. apply andb_prop in H as [Hm Hrest].
  destruct rest as [|m' rest']; [reflexivity|].
  change (removelast (m :: m' :: rest')) with (m :: removelast (m' :: rest')).
  simpl forallb. rewrite Hm. apply (IH Hrest).
Qed.

(** The conversion of a request never raises when its blocks have the value
    types of the Claude API: the [text] of a text block and of the items of
    a tool result are strings, the [source] of an image is a dict and its
    media type a string, the [id] of a tool use is hashable.  (The blocks
    may still lack any key, have unknown types, and the messages any
    roles.) *)
Theorem typed_request_converts (req : ClaudeRequest) (conversation_id : option string) :
  request_typed req = true ->
  exists body,
    convert_claude_to_amazonq_request uuid4 timestamp req conversation_id = Some body.
Proof.
  unfold request_typed. intros H. apply andb_prop in H as [Hmsgs Hsys].
  unfold convert_claude_to_amazonq_request.
  destruct (match conversation_id with Some c => (c, 0%nat) | None => (uuid4 0%nat, 1%nat) end)
    as [cid n].
  destruct (current_turn_total _ (last_typed _ Hmsgs)) as [[[[prompt trs] has] images] Hturn].
  rewrite Hturn. simpl.
  destruct (format_content_total prompt has (long_desc_tools (tools req)) (system req) Hsys)
    as [formatted Hf].
  rewrite Hf. simpl.
  destruct (process_history_total
              (if Nat.ltb 1 (length (messages req)) then removelast (messages req) else [])
              n) as [history Hh].
  { destruct (Nat.ltb 1 (length (messages req))); [|reflexivity].
    apply removelast_typed, Hmsgs. }
  rewrite Hh. eexists. reflexivity.
Qed.

End Total.

(** A typed request: a tool result after a tool use, with an image. *)
Definition sample_request : ClaudeRequest :=
  {| model := "claude-sonnet-4-5";
     messages :=
       [ {| role := "user"; msg_content := CStr "Read it." |};
         {| role := "assistant";
            msg_content :=
              CList [[("type", JStr "tool_use"); ("id", JStr "t1"); ("name", JStr "read")]] |};
         {| role := "user";
            msg_content :=
              CList [[("type", JStr "tool_result"); ("tool_use_id", JStr "t1");
                      ("content", JArr [JObj [("type", JStr "text"); ("text", JStr "ok")]])];
                     image_block "AAAA"] |} ];
     max_tokens := 1024;
     tools := None;
     stream := true;
     system := Some (CStr "Be brief.") |}.

Lemma typed_request_converts_witness :
  exists body,
    convert_claude_to_amazonq_request (fun _ => "u") "Monday" sample_request None = Some body.
Proof.
  refine (typed_request_converts (fun _ => "u") "Monday" sample_request None _).
  reflexivity.
Defined.

End TypedRequestFacts.

(* ===================================================================== *)
(** * The saved credentials, presented to the server *)
(* ===================================================================== *)

Module CredentialsFacts.
Import Py Middleware Credentials.

Section Auth.

Variable _sha256 : string -> string.
Variable oidc_post : nat -> string -> string -> string -> option string.
Variable now : Z.

(** The credentials line saved by [extract_and_exchange_token], used as
    [x-api-key] on a cache miss (client id and secret without a colon, client
    id and refresh token not empty).  With an empty client secret, as a
    client registered without one has, it is rejected with 401 "Invalid
    token format" and no request is posted.  Otherwise exactly one refresh
    request is posted, with the three parts of the line (colons inside the
    refresh token kept), and the result is the account with the new access
    token, or 401 "Failed to refresh access token". *)
Theorem saved_credentials_resolve (client_id client_secret refresh_token : string)
    (authorization : option string) (w : world) :
  contains_char ":" client_id = false ->
  contains_char ":" client_secret = false ->
  client_id <> "" ->
  refresh_token <> "" ->
  TOKEN_MAP w !! _sha256 (format_credentials client_id client_secret refresh_token) = None ->
  let r := auth_middleware _sha256 oidc_post now authorization
             (Some (format_credentials client_id client_secret refresh_token)) w in
  if String.eqb client_secret "" then
    r = (inl (mkHTTPException 401
                "Invalid token format. Expected: clientId:clientSecret:refreshToken"), w)
  else
    oidc_calls (snd r) = oidc_calls w ++ [(client_id, client_secret, refresh_token)] /\
    match oidc_post (length (oidc_calls w)) client_id client_secret refresh_token with
    | Some access_token =>
        if String.eqb access_token "" then
          fst r = inl (mkHTTPException 401 "Failed to refresh access token")
        else
          fst r = inr {| acc_accessToken := access_token;
                         acc_clientId := client_id;
                         acc_clientSecret := client_secret;
                         acc_refreshToken := refresh_token |}
    | None => fst r = inl (mkHTTPException 401 "Failed to refresh access token")
    end.
Proof.
  intros Hid Hsec Hne Hrt Hmiss. cbv zeta.
  set (creds := format_credentials client_id client_secret refresh_token) in *.
  assert (Hcreds : nonempty creds = true).
  { unfold creds, format_credentials. destruct client_id; [congruence|reflexivity]. }
  assert (Hparse : _parse_bearer_token creds = (client_id, client_secret, refresh_token)).
  { apply MiddlewareFacts.parse_three_fields; assumption. }
  apply String.eqb_neq in Hne, Hrt.
  assert (Htok : header_token authorization (Some creds) = Some creds).
  { unfold header_token. rewrite Hcreds. destruct authorization; reflexivity. }
  unfold auth_middleware. rewrite Htok, Hcreds. simpl negb. cbv iota.
  rewrite Hmiss, Hparse. unfold nonempty, _handle_token_refresh. rewrite !Hne, !Hrt.
  destruct (String.eqb client_secret ""); simpl; [reflexivity|].
  destruct (oidc_post _ _ _ _) as [access_token|]; [|split; reflexivity].
  destruct (String.eqb access_token ""); split; reflexivity.
Qed.

End Auth.

Lemma saved_credentials_resolve_witness :
  auth_middleware (fun s => s) (fun _ _ _ _ => Some "at") 0 None
    (Some (format_credentials "abc" "" "r:t")) MiddlewareFacts.cold_world
  = (inl (mkHTTPException 401
            "Invalid token format. Expected: clientId:clientSecret:refreshToken"),
     MiddlewareFacts.cold_world).
Proof.
  refine (saved_credentials_resolve (fun s => s) (fun _ _ _ _ => Some "at") 0
            "abc" "" "r:t" None MiddlewareFacts.cold_world _ _ _ _ _);
    first [reflexivity | discriminate].
Defined.

End CredentialsFacts.
